(** * Training orchestration of [pipelines/mv4-conv-large-imagenet-1k.py]

    A shallow embedding of the training script: the streaming top-k
    accuracy/loss accumulator ([validate] and the inline copy in [main]),
    the per-step protocol around the loss scaler and the clipping gate,
    the learning-rate schedule and the per-epoch evaluation cadence with
    its two metric histories.

    Conventions of the embedding.
    - Python floats that hold losses, scores and percentages are exact
      rationals ([Q]); the learning rate, which needs a cosine, is a
      real ([R]).  Rounding is not modelled.
    - Gradients may be non-finite, so they are values of [fval].
    - Python exceptions are the [Raise] outcomes of the [result] monad.
    - The network, the loss function, automatic differentiation, the
      clipping kernel and the SGD update are opaque collaborators,
      gathered in the class [Collaborators]. *)

From Stdlib Require Import String Bool Arith PeanoNat List ZArith QArith Reals Lra Lia.
From Stdlib Require Import Permutation.
Import ListNotations.

Set Implicit Arguments.

Close Scope R_scope.
Close Scope Q_scope.
Close Scope Z_scope.
Open Scope nat_scope.

(* ================================================================== *)
(** ** Python outcomes *)

Module Py.

Inductive exn : Type :=
| ZeroDivisionError
| RuntimeError
| IndexError
| ValueError
| AssertionError.

Inductive result (A : Type) : Type :=
| Ok (a : A)
| Raise (e : exn).

Arguments Ok {A} a.
Arguments Raise {A} e.

Definition bind {A B : Type} (m : result A) (k : A -> result B) : result B :=
  match m with
  | Ok a => k a
  | Raise e => Raise e
  end.

(** [a / b] on floats with an [int] or [float] divisor. *)
Definition div (a b : Q) : result Q :=
  if Qeq_bool b 0%Q then Raise ZeroDivisionError else Ok (a / b)%Q.

(** [a % b] on ints: the sign follows the divisor, as for [Z.modulo]. *)
Definition mod_ (a b : Z) : result Z :=
  if (b =? 0)%Z then Raise ZeroDivisionError else Ok (a mod b)%Z.

(** [l[-1]]. *)
Definition last_item {A : Type} (l : list A) : result A :=
  match rev l with
  | [] => Raise IndexError
  | x :: _ => Ok x
  end.

(** [max(l)] on a list of floats: the first maximal item is kept. *)
Definition max_ (l : list Q) : result Q :=
  match l with
  | [] => Raise ValueError
  | x :: xs => Ok (fold_left (fun m y => if Qle_bool y m then m else y) xs x)
  end.

(** [float(n)] for a count. *)
Definition float_of_nat (n : nat) : Q := inject_Z (Z.of_nat n).

End Py.

Import Py.

Declare Scope py_scope.
Delimit Scope py_scope with py.
Notation "x <- m ;; k" := (Py.bind m (fun x => k))
  (at level 61, m at next level, right associativity) : py_scope.
Notation "' pat <- m ;; k" := (Py.bind m (fun x => match x with pat => k end))
  (at level 61, pat pattern, m at next level, right associativity) : py_scope.
Local Open Scope py_scope.

(** Monadic left fold: a [for] loop whose body may raise. *)
Fixpoint foldM {A B : Type} (f : A -> B -> result A) (l : list B) (a : A) : result A :=
  match l with
  | [] => Ok a
  | b :: l' => a' <- f a b ;; foldM f l' a'
  end.

(** Monadic map: one call per row, left to right. *)
Fixpoint mapM {A B : Type} (f : A -> result B) (l : list A) : result (list B) :=
  match l with
  | [] => Ok []
  | a :: l' => b <- f a ;; bs <- mapM f l' ;; Ok (b :: bs)
  end.

(* ================================================================== *)
(** ** Tensor operations used by the accuracy code *)

Module Tensor.

(** A row of class scores paired with the class indices. *)
Definition indexed (row : list Q) : list (nat * Q) :=
  combine (seq 0 (length row)) row.

(** The entry with the greatest score; the earliest one wins a tie. *)
Definition greatest (x : nat * Q) (xs : list (nat * Q)) : nat * Q :=
  fold_left (fun m y => if Qle_bool (snd y) (snd m) then m else y) xs x.

(** The entries left once class [i] is taken. *)
Definition drop_index (i : nat) (l : list (nat * Q)) : list (nat * Q) :=
  filter (fun y => negb (fst y =? i)) l.

(** Indices of the [k] greatest scores, greatest first. *)
Fixpoint select (k : nat) (l : list (nat * Q)) : list nat :=
  match k with
  | O => []
  | S k' =>
      match l with
      | [] => []
      | x :: xs =>
          let m := greatest x xs in
          fst m :: select k' (drop_index (fst m) l)
      end
  end.

(** [row.topk(k, largest=True, sorted=True)] indices for one sample;
    torch rejects a [k] beyond the number of classes. *)
Definition topk_row (k : nat) (row : list Q) : result (list nat) :=
  if length row <? k then Raise RuntimeError
  else Ok (select k (indexed row)).

(** [outputs.topk(k, 1, True, True)]: indices, one row per sample. *)
Definition topk (k : nat) (outputs : list (list Q)) : result (list (list nat)) :=
  mapM (topk_row k) outputs.

(** [pred.t()] for a matrix with [k] columns. *)
Fixpoint t (k : nat) (pred : list (list nat)) : list (list nat) :=
  match k with
  | O => []
  | S k' => map (hd 0) pred :: t k' (map (@tl nat) pred)
  end.

(** [pred.eq(labels.view(1, -1).expand_as(pred))]: every row of [pred]
    is compared position-wise with the label vector. *)
Definition eq_labels (pred : list (list nat)) (labels : list nat) : list (list bool) :=
  map (fun row => map (fun pl => fst pl =? snd pl) (combine row labels)) pred.

(** [correct[:n].float().sum()] as a count. *)
Definition sum_rows (n : nat) (correct : list (list bool)) : nat :=
  list_sum (map (fun row => length (filter (fun b => b) row)) (firstn n correct)).

End Tensor.

(* ================================================================== *)
(** ** Metric accumulator: lines 101-104, 112-129 and 166-169, 186-200 *)

Module Accumulator.

(** The four running totals of one pass. *)
Record totals : Type := {
  total_loss : Q;
  total_samples : nat;
  top1_correct : Q;
  top5_correct : Q
}.

(** The record one pass produces. *)
Record EpochRecord : Type := {
  loss : Q;
  top1 : Q;
  top5 : Q
}.

Definition zero : totals :=
  {| total_loss := 0.0%Q; total_samples := 0;
     top1_correct := 0%Q; top5_correct := 0%Q |}.

(** Body shared by both loops: the running sums and the top-1/top-5
    hit counts of one batch. *)
Definition accumulate (acc : totals) (outputs : list (list Q))
           (labels : list nat) (loss_item : Q) : result totals :=
  let batch_size := length labels in
  pred <- Tensor.topk 5 outputs ;;
  let pred := Tensor.t 5 pred in
  let correct := Tensor.eq_labels pred labels in
  Ok {| total_loss := (total_loss acc + loss_item * float_of_nat batch_size)%Q;
        total_samples := total_samples acc + batch_size;
        top1_correct := (top1_correct acc + float_of_nat (Tensor.sum_rows 1 correct))%Q;
        top5_correct := (top5_correct acc + float_of_nat (Tensor.sum_rows 5 correct))%Q |}.

(** The three divisions after the loop; the first one raises on an
    empty pass. *)
Definition finalize (acc : totals) : result EpochRecord :=
  let n := float_of_nat (total_samples acc) in
  avg_loss <- Py.div (total_loss acc) n ;;
  top1_ratio <- Py.div (top1_correct acc) n ;;
  top5_ratio <- Py.div (top5_correct acc) n ;;
  Ok {| loss := avg_loss;
        top1 := (top1_ratio * 100.0)%Q;
        top5 := (top5_ratio * 100.0)%Q |}.

(** What one iteration hands to the accumulator: the output batch, the
    label batch and [loss.item()]. *)
Definition observation : Type := (list (list Q) * list nat * Q)%type.

(** The loop body on one observation. *)
Definition consume (acc : totals) (o : observation) : result totals :=
  let '(outputs, labels, loss_item) := o in
  accumulate acc outputs labels loss_item.

(** One pass over a stream of observations: the loop and the
    finalization, as [validate] and the training loop both run them. *)
Definition pass (stream : list observation) : result EpochRecord :=
  acc <- foldM consume stream zero ;;
  finalize acc.

End Accumulator.

(* ================================================================== *)
(** ** Sample-by-sample reading of the metrics (spec, section 4.4) *)

Module Reference.

Import Accumulator.

(** The five best classes of one sample, best first. *)
Definition best5 (row : list Q) : list nat :=
  Tensor.select 5 (Tensor.indexed row).

(** The label is the highest-scoring class. *)
Definition top1_hit (row : list Q) (label : nat) : bool :=
  match best5 row with
  | i :: _ => i =? label
  | [] => false
  end.

(** The label is among the five highest-scoring classes. *)
Definition top5_hit (row : list Q) (label : nat) : bool :=
  existsb (fun i => i =? label) (best5 row).

(** Number of samples of a batch that [hit] accepts. *)
Definition hits (hit : list Q -> nat -> bool)
           (outputs : list (list Q)) (labels : list nat) : nat :=
  length (filter (fun ol => hit (fst ol) (snd ol)) (combine outputs labels)).

(** How many of the first [k] predictions of a sample equal its label. *)
Definition position_hits (k : nat) (row : list nat) (label : nat) : nat :=
  length (filter (fun i => i =? label) (firstn k row)).

(** [labels.size(0)] of an observation. *)
Definition batch_size (o : observation) : nat := length (snd (fst o)).

(** [sum of loss_value * batch_size]. *)
Fixpoint loss_sum (stream : list observation) : Q :=
  match stream with
  | [] => 0%Q
  | o :: rest => (snd o * float_of_nat (batch_size o) + loss_sum rest)%Q
  end.

(** [sum of batch_size]. *)
Definition sample_count (stream : list observation) : nat :=
  list_sum (map batch_size stream).

(** Number of samples of a stream that [hit] accepts. *)
Definition hit_count (hit : list Q -> nat -> bool) (stream : list observation) : nat :=
  list_sum (map (fun o => hits hit (fst (fst o)) (snd (fst o))) stream).

(** The totals after one batch, in terms of per-sample hits. *)
Definition after_batch (acc : totals) (outputs : list (list Q))
           (labels : list nat) (loss_item : Q) : totals :=
  {| total_loss := (total_loss acc + loss_item * float_of_nat (length labels))%Q;
     total_samples := total_samples acc + length labels;
     top1_correct :=
       (top1_correct acc
        + float_of_nat (hits top1_hit outputs labels))%Q;
     top5_correct :=
       (top5_correct acc
        + float_of_nat (hits top5_hit outputs labels))%Q |}.

(** The record the spec assigns to a stream (section 4.4,
    finalization), up to equality of rationals. *)
Definition is_record_of (r : EpochRecord) (stream : list observation) : Prop :=
  let n := float_of_nat (sample_count stream) in
  (loss r == loss_sum stream / n)%Q /\
  (top1 r == 100 * float_of_nat (hit_count top1_hit stream) / n)%Q /\
  (top5 r == 100 * float_of_nat (hit_count top5_hit stream) / n)%Q.

(** One score row per label. *)
Definition aligned (o : observation) : Prop :=
  length (fst (fst o)) = length (snd (fst o)).

(** The score rows of a stream, batch boundaries forgotten. *)
Definition all_outputs (stream : list observation) : list (list Q) :=
  concat (map (fun o => fst (fst o)) stream).

(** The labels of a stream, batch boundaries forgotten. *)
Definition all_labels (stream : list observation) : list nat :=
  concat (map (fun o => snd (fst o)) stream).

(** Every score row of the stream has five classes or more. *)
Definition rows_ok (stream : list observation) : Prop :=
  Forall (fun o => Forall (fun row => 5 <= length row) (fst (fst o))) stream.

(** A batch as the loader and the network deliver it: at least one
    sample, one score row per label, at least five classes. *)
Definition well_formed (o : observation) : Prop :=
  0 < batch_size o /\
  length (fst (fst o)) = batch_size o /\
  Forall (fun row => 5 <= length row) (fst (fst o)).

End Reference.

(* ================================================================== *)
(** ** Learning-rate schedule: [pile.schedulers.WarmupCosineScheduler] *)

Module Scheduler.

(** Modelled from the spec: the state of [WarmupCosineScheduler], whose
    source file is not part of the sources at hand (section 3,
    LRScheduleState); the step counter is kept by the caller. *)
Record config : Type := {
  total_steps : nat;
  warmup_steps : nat;
  base_lr : R
}.

(** Modelled from the spec: the clamp of [progress] to [0, 1]
    (section 4.1), missing with the scheduler's source. *)
Definition clamp01 (x : R) : R := Rmin (Rmax x 0) 1.

(** Modelled from the spec: [progress] of section 4.1 before the clamp;
    the difference [total_steps - warmup_steps] is taken on integers,
    so that the floor [max(1, ...)] also covers a negative one. *)
Definition progress (c : config) (step : nat) : R :=
  (IZR (Z.of_nat step - Z.of_nat (warmup_steps c))
   / IZR (Z.max 1 (Z.of_nat (total_steps c) - Z.of_nat (warmup_steps c))))%R.

(** Modelled from the spec: the learning rate of section 4.1 for a
    step counter value, missing with the scheduler's source. *)
Definition get_lr (c : config) (step : nat) : R :=
  if step <? warmup_steps c
  then (base_lr c * (INR step + 1) / INR (warmup_steps c))%R
  else (base_lr c * 0.5 * (1 + cos (PI * clamp01 (progress c step))))%R.

(** Modelled from the spec: [advance() -> current_lr] of section 4.1:
    the rate for the current counter is what gets written to the
    optimizer, and the counter is incremented. *)
Definition advance (c : config) (step : nat) : R * nat :=
  (get_lr c step, S step).

End Scheduler.

(* ================================================================== *)
(** ** Loss scaler: [torch.amp.GradScaler] *)

(** A gradient entry as reduced precision leaves it. *)
Inductive fval : Type :=
| Finite (q : Q)
| PosInf
| NegInf
| NaN.

Definition isfinite (v : fval) : bool :=
  match v with
  | Finite _ => true
  | _ => false
  end.

Module GradScaler.

(** Modelled from the spec: where the scaler stands within the current
    step, between the inspection, the update and the commit of
    section 4.2. *)
Inductive stage : Type :=
| READY
| UNSCALED
| STEPPED.

(** Modelled from the spec: the state of the loss scaler (section 3,
    ScaleState, and section 4.2), the scaler being library code that is
    not part of the sources at hand.  [growth_tracker] counts the
    consecutive successful steps, [found_inf] is the verdict of the
    inspection of this step's gradients. *)
Record t : Type := {
  scale_factor : Q;
  growth_interval : nat;
  growth_tracker : nat;
  stage_ : stage;
  found_inf : bool
}.

(** Modelled from the spec: a fresh scaler, as [GradScaler(...)] makes it. *)
Definition init (init_scale : Q) (interval : nat) : t :=
  {| scale_factor := init_scale;
     growth_interval := interval;
     growth_tracker := 0;
     stage_ := READY;
     found_inf := false |}.

(** Modelled from the spec: [scale(loss) -> scaled_loss] of section 4.2. *)
Definition scale (s : t) (loss : Q) : Q := (loss * scale_factor s)%Q.

(** Modelled from the spec: "gradients divided back by [scale_factor]". *)
Definition unscale_value (s : t) (g : fval) : fval :=
  match g with
  | Finite q => Finite (q / scale_factor s)%Q
  | other => other
  end.

(** Modelled from the spec: the inspection of section 4.2 when it is
    asked for ahead of [step], as line 181 does: the gradients are
    divided back and the verdict is recorded, once per step. *)
Definition unscale_ (s : t) (grads : list fval) : result (t * list fval) :=
  match stage_ s with
  | READY =>
      Ok ({| scale_factor := scale_factor s;
             growth_interval := growth_interval s;
             growth_tracker := growth_tracker s;
             stage_ := UNSCALED;
             found_inf := negb (forallb isfinite grads) |},
          map (unscale_value s) grads)
  | _ => Raise RuntimeError
  end.

(** Modelled from the spec: [step(optimizer)] of section 4.2: inspect
    the gradients unless [unscale_] already did, skip the optimizer
    update when a non-finite value was found, run it on the divided
    gradients otherwise. *)
Definition step {P : Type} (s : t) (grads : list fval)
           (optimizer_step : P -> list fval -> P) (p : P)
  : result (t * list fval * P) :=
  '(s1, g1) <- match stage_ s with
               | READY => unscale_ s grads
               | UNSCALED => Ok (s, grads)
               | STEPPED => Raise RuntimeError
               end ;;
  let p1 := if found_inf s1 then p else optimizer_step p g1 in
  Ok ({| scale_factor := scale_factor s1;
         growth_interval := growth_interval s1;
         growth_tracker := growth_tracker s1;
         stage_ := STEPPED;
         found_inf := found_inf s1 |}, g1, p1).

(** Modelled from the spec: [update()] of section 4.2 commits the
    adjustment decided during [step]: halve on a skipped step, double
    once [growth_interval] consecutive steps succeeded. *)
Definition update (s : t) : result t :=
  match stage_ s with
  | READY => Raise AssertionError
  | _ =>
      if found_inf s then
        Ok {| scale_factor := (scale_factor s * 0.5)%Q;
              growth_interval := growth_interval s;
              growth_tracker := 0;
              stage_ := READY;
              found_inf := false |}
      else
        let successful := growth_tracker s + 1 in
        if successful =? growth_interval s then
          Ok {| scale_factor := (scale_factor s * 2.0)%Q;
                growth_interval := growth_interval s;
                growth_tracker := 0;
                stage_ := READY;
                found_inf := false |}
        else
          Ok {| scale_factor := scale_factor s;
                growth_interval := growth_interval s;
                growth_tracker := successful;
                stage_ := READY;
                found_inf := false |}
  end.

(** Modelled from the spec: what [step] followed by [update] makes of the
    scaler, by the verdict [found] of the inspection (section 4.2). *)
Definition settled (s : t) (found : bool) : t :=
  if found then
    {| scale_factor := (scale_factor s * 0.5)%Q;
       growth_interval := growth_interval s;
       growth_tracker := 0;
       stage_ := READY;
       found_inf := false |}
  else if growth_tracker s + 1 =? growth_interval s then
    {| scale_factor := (scale_factor s * 2.0)%Q;
       growth_interval := growth_interval s;
       growth_tracker := 0;
       stage_ := READY;
       found_inf := false |}
  else
    {| scale_factor := scale_factor s;
       growth_interval := growth_interval s;
       growth_tracker := growth_tracker s + 1;
       stage_ := READY;
       found_inf := false |}.

End GradScaler.

(* ================================================================== *)
(** ** The script's collaborators *)

(** What the script consumes without looking inside: the network (with
    its train/eval mode), the loss function, the gradients that
    [scaler.scale(loss).backward()] leaves on the parameters for a given
    scale factor, [clip_grad_norm_] and the SGD update at a given
    learning rate. *)
Class Collaborators : Type := {
  Params : Type;
  Images : Type;
  model : bool -> Params -> Images -> list (list Q);
  criterion : list (list Q) -> list nat -> Q;
  backward : Params -> Images -> list nat -> Q -> list fval;
  clip_grad_norm_ : Q -> list fval -> list fval;
  optimizer_step : R -> Params -> list fval -> Params
}.

(** A [DataLoader]: its length and the batches of its n-th traversal. *)
Record DataLoader (X : Type) : Type := {
  len : nat;
  batches : nat -> list (X * list nat)
}.

(** The metric dictionaries of lines 159-160, one list per key. *)
Module Metrics.

Record t : Type := {
  top1 : list Q;
  top5 : list Q;
  loss : list Q
}.

Definition empty : t := {| top1 := []; top5 := []; loss := [] |}.

(** Every key holds [n] entries. *)
Definition has_length (m : t) (n : nat) : Prop :=
  length (top1 m) = n /\ length (top5 m) = n /\ length (loss m) = n.

(** Every key holds at least one entry. *)
Definition populated (m : t) : Prop :=
  top1 m <> [] /\ top5 m <> [] /\ loss m <> [].

(** Entry by entry, the percentages are ordered and bounded. *)
Definition percentages_ok (m : t) : Prop :=
  Forall2 (fun a b => (0 <= a)%Q /\ (a <= b)%Q /\ (b <= 100)%Q) (top1 m) (top5 m).

End Metrics.

(** What reaches the terminal: the progress bar of a pass, the line of
    an epoch and the two closing lines. *)
Inductive event : Type :=
| Tqdm (desc : string)
| EpochLine (epoch_1 num_epochs : nat) (current_lr : R)
            (train test : Accumulator.EpochRecord)
| BestLine (what : string) (value : Q).

Definition BATCH_SIZE : nat := 256.
Definition NUM_WORKERS : nat := 16.
Definition NUM_EPOCHS : nat := 36.
Definition METRICS_UPDATE_STEP : Z := 1.

(* ================================================================== *)
(** ** [validate] and [main] *)

Module Pipeline.

Import Accumulator.

Section WithCollaborators.

Context {C : Collaborators}.

(** Everything [main] mutates across steps and epochs. *)
Record state : Type := {
  params : Params;
  lr : R;
  grad : list fval;
  scaler : GradScaler.t;
  step_count : nat;
  train_metrics : Metrics.t;
  test_metrics : Metrics.t;
  console : list event
}.

(** Lines 107-110 and 172-176: what one batch shows the accumulator. *)
Definition observe (training : bool) (p : Params) (batch : Images * list nat)
  : observation :=
  let '(images, labels) := batch in
  let outputs := model training p images in
  (outputs, labels, criterion outputs labels).

(** Lines 97-129. *)
Definition validate (p : Params) (dataloader : list (Images * list nat))
  : result EpochRecord :=
  acc <- foldM (fun acc batch =>
                  let '(images, labels) := batch in
                  let outputs := model false p images in
                  let loss := criterion outputs labels in
                  accumulate acc outputs labels loss)
               dataloader zero ;;
  finalize acc.

(** Line 180. *)
Definition clip_gate (epoch WARMUP_STEPS : nat) : bool :=
  WARMUP_STEPS <? epoch.

(** Line 179: the gradients [backward()] leaves for a batch. *)
Definition raw_grads (st : state) (images : Images) (labels : list nat) : list fval :=
  backward (params st) images labels (GradScaler.scale_factor (scaler st)).

(** Lines 178-182: the gradients and the scaler as [scaler.step]
    receives them. *)
Definition prepare_grads (epoch WARMUP_STEPS : nat) (st : state)
           (images : Images) (labels : list nat)
  : result (GradScaler.t * list fval) :=
  let g := raw_grads st images labels in
  if clip_gate epoch WARMUP_STEPS then
    '(sc, g1) <- GradScaler.unscale_ (scaler st) g ;;
    Ok (sc, clip_grad_norm_ 1.0%Q g1)
  else Ok (scaler st, g).

(** Lines 172-196: one optimization step on one batch. *)
Definition train_step (cfg : Scheduler.config) (epoch WARMUP_STEPS : nat)
           (sa : state * totals) (batch : Images * list nat)
  : result (state * totals) :=
  let '(st, acc) := sa in
  let '(images, labels) := batch in
  let outputs := model true (params st) images in
  let loss := criterion outputs labels in
  '(sc, g) <- prepare_grads epoch WARMUP_STEPS st images labels ;;
  '(sc1, g1, p1) <- GradScaler.step sc g (optimizer_step (lr st)) (params st) ;;
  sc2 <- GradScaler.update sc1 ;;
  acc1 <- accumulate acc outputs labels loss ;;
  let '(new_lr, count) := Scheduler.advance cfg (step_count st) in
  Ok ({| params := p1;
         lr := new_lr;
         grad := g1;
         scaler := sc2;
         step_count := count;
         train_metrics := train_metrics st;
         test_metrics := test_metrics st;
         console := console st |}, acc1).

(** The observations of a training pass, each under the parameters
    the preceding steps left. *)
Fixpoint train_observations (cfg : Scheduler.config) (epoch WARMUP_STEPS : nat)
         (sa : state * totals) (bs : list (Images * list nat))
  : list observation :=
  match bs with
  | [] => []
  | b :: bs' =>
      observe true (params (fst sa)) b ::
      match train_step cfg epoch WARMUP_STEPS sa b with
      | Ok sa' => train_observations cfg epoch WARMUP_STEPS sa' bs'
      | Raise _ => []
      end
  end.

(** The gradients [backward()] leaves at each step of a training
    pass, each under the parameters and the scale of that step. *)
Fixpoint train_gradients (cfg : Scheduler.config) (epoch WARMUP_STEPS : nat)
         (sa : state * totals) (bs : list (Images * list nat))
  : list (list fval) :=
  match bs with
  | [] => []
  | b :: bs' =>
      raw_grads (fst sa) (fst b) (snd b) ::
      match train_step cfg epoch WARMUP_STEPS sa b with
      | Ok sa' => train_gradients cfg epoch WARMUP_STEPS sa' bs'
      | Raise _ => []
      end
  end.

(** Lines 164-200: the training pass of one epoch. *)
Definition train_epoch (cfg : Scheduler.config) (epoch WARMUP_STEPS : nat)
           (train_loader : DataLoader Images) (st : state)
  : result (state * EpochRecord) :=
  '(st1, acc) <- foldM (train_step cfg epoch WARMUP_STEPS)
                       (batches train_loader epoch) (st, zero) ;;
  rec <- finalize acc ;;
  Ok (st1, rec).

Definition append (m : Metrics.t) (r : EpochRecord) : Metrics.t :=
  {| Metrics.top1 := Metrics.top1 m ++ [top1 r];
     Metrics.top5 := Metrics.top5 m ++ [top5 r];
     Metrics.loss := Metrics.loss m ++ [loss r] |}.

(** [l[-1] if len(l) > 0 else 0.0]. *)
Definition last_or_zero (l : list Q) : result Q :=
  if 0 <? length l then Py.last_item l else Ok 0.0%Q.

(** Lines 216-218. *)
Definition reused (m : Metrics.t) : result EpochRecord :=
  avg_test_loss <- last_or_zero (Metrics.loss m) ;;
  test_top1 <- last_or_zero (Metrics.top1 m) ;;
  test_top5 <- last_or_zero (Metrics.top5 m) ;;
  Ok {| loss := avg_test_loss; top1 := test_top1; top5 := test_top5 |}.

(** The most recent entry of a history, zeros for an empty one. *)
Definition latest (m : Metrics.t) : EpochRecord :=
  {| loss := last (Metrics.loss m) 0.0%Q;
     top1 := last (Metrics.top1 m) 0.0%Q;
     top5 := last (Metrics.top5 m) 0.0%Q |}.

(** The progress bar that a call of [validate] shows. *)
Definition is_validation_bar (e : event) : bool :=
  match e with
  | Tqdm desc => String.eqb desc "Validation"
  | _ => false
  end.

(** Lines 202-232: what an epoch does with its training record. *)
Definition record_epoch (num_epochs : nat) (update_step : Z)
           (test_loader : DataLoader Images) (epoch : nat) (current_lr : R)
           (st : state) (train_rec : EpochRecord) : result state :=
  r <- Py.mod_ (Z.of_nat epoch) update_step ;;
  if (r =? 0)%Z then
    test_rec <- validate (params st) (batches test_loader epoch) ;;
    Ok {| params := params st;
          lr := lr st;
          grad := grad st;
          scaler := scaler st;
          step_count := step_count st;
          train_metrics := append (train_metrics st) train_rec;
          test_metrics := append (test_metrics st) test_rec;
          console := console st ++
                     [Tqdm "Validation";
                      EpochLine (epoch + 1) num_epochs current_lr train_rec test_rec] |}
  else
    test_rec <- reused (test_metrics st) ;;
    Ok {| params := params st;
          lr := lr st;
          grad := grad st;
          scaler := scaler st;
          step_count := step_count st;
          train_metrics := append (train_metrics st) train_rec;
          test_metrics := test_metrics st;
          console := console st ++
                     [EpochLine (epoch + 1) num_epochs current_lr train_rec test_rec] |}.

(** Line 171: the progress bar of the training pass appears. *)
Definition show_train_bar (st : state) : state :=
  {| params := params st;
     lr := lr st;
     grad := grad st;
     scaler := scaler st;
     step_count := step_count st;
     train_metrics := train_metrics st;
     test_metrics := test_metrics st;
     console := console st ++ [Tqdm "Train"] |}.

(** Lines 163-232: the body of the epoch loop. *)
Definition epoch_body (cfg : Scheduler.config) (num_epochs WARMUP_STEPS : nat)
           (update_step : Z) (train_loader test_loader : DataLoader Images)
           (st : state) (epoch : nat) : result state :=
  let current_lr := lr st in
  '(st1, train_rec) <- train_epoch cfg epoch WARMUP_STEPS train_loader
                                   (show_train_bar st) ;;
  record_epoch num_epochs update_step test_loader epoch current_lr st1 train_rec.

(** Lines 235-236: [max(l) if l else 0.0]. *)
Definition best (l : list Q) : result Q :=
  match l with
  | [] => Ok 0.0%Q
  | _ => Py.max_ l
  end.

(** Lines 142-162: the state before the first epoch.  The scaler is
    built with the library's defaults (scale 65536, growth interval
    2000) and the optimizer with [lr=0.08]. *)
Definition initial (p : Params) : state :=
  {| params := p;
     lr := 0.08%R;
     grad := [];
     scaler := GradScaler.init 65536%Q 2000;
     step_count := 0;
     train_metrics := Metrics.empty;
     test_metrics := Metrics.empty;
     console := [] |}.

(** Lines 142-143 and 154: the schedule for a loader of [n_batches]
    batches, [n_batches] being [len(train_loader)]. *)
Definition schedule (num_epochs n_batches : nat) : Scheduler.config :=
  let NUM_STEPS := n_batches * num_epochs in
  let WARMUP_STEPS := NUM_STEPS / 100 in
  {| Scheduler.total_steps := NUM_STEPS;
     Scheduler.warmup_steps := WARMUP_STEPS;
     Scheduler.base_lr := 0.08%R |}.

(** The epoch loop run for the first [n] epochs of a run that is
    configured for [num_epochs] epochs. *)
Definition run_epochs (num_epochs : nat) (update_step : Z)
           (train_loader test_loader : DataLoader Images)
           (n : nat) (st : state) : result state :=
  let cfg := schedule num_epochs (len train_loader) in
  foldM (epoch_body cfg num_epochs (Scheduler.warmup_steps cfg) update_step
                    train_loader test_loader)
        (seq 0 n) st.

(** Lines 131-238 with the two module constants as arguments. *)
Definition main_with (num_epochs : nat) (update_step : Z)
           (train_loader test_loader : DataLoader Images) (p : Params)
  : result state :=
  st <- run_epochs num_epochs update_step train_loader test_loader
                   num_epochs (initial p) ;;
  best_train_top1 <- best (Metrics.top1 (train_metrics st)) ;;
  best_test_top1 <- best (Metrics.top1 (test_metrics st)) ;;
  Ok {| params := params st;
        lr := lr st;
        grad := grad st;
        scaler := scaler st;
        step_count := step_count st;
        train_metrics := train_metrics st;
        test_metrics := test_metrics st;
        console := console st ++
                   [BestLine "Best train top1 accuracy: " best_train_top1;
                    BestLine "Best test top1 accuracy: " best_test_top1] |}.

Definition main := main_with NUM_EPOCHS METRICS_UPDATE_STEP.

(** The line that closes an epoch. *)
Definition is_epoch_line (e : event) : bool :=
  match e with
  | EpochLine _ _ _ _ _ => true
  | _ => false
  end.

(** How many of the epochs [0 .. n-1] pass the test of line 203. *)
Definition count_evals (update_step : Z) (n : nat) : nat :=
  length (filter (fun epoch => (Z.of_nat epoch mod update_step =? 0)%Z) (seq 0 n)).

(** How many batches the epochs [0 .. n-1] iterate over. *)
Definition batches_before (train_loader : DataLoader Images) (n : nat) : nat :=
  list_sum (map (fun epoch => length (batches train_loader epoch)) (seq 0 n)).

(** The scaler is between two steps: nothing inspected, nothing pending. *)
Definition at_rest (st : state) : Prop :=
  GradScaler.stage_ (scaler st) = GradScaler.READY.

(** What a run keeps true of the scaler and of the rate in force: the
    scaler is at rest with a positive scale, the default growth
    interval and a tracker below it; the rate is the constructor's
    before the first step and the schedule's rate for the previous
    counter value afterwards. *)
Definition healthy (cfg : Scheduler.config) (st : state) : Prop :=
  at_rest st /\
  (0 < GradScaler.scale_factor (scaler st))%Q /\
  GradScaler.growth_interval (scaler st) = 2000 /\
  GradScaler.growth_tracker (scaler st) < 2000 /\
  lr st = (if step_count st =? 0 then 0.08%R
           else Scheduler.get_lr cfg (step_count st - 1)).

(** Number of labels in a traversal of a loader. *)
Definition samples_in (bs : list (Images * list nat)) : nat :=
  list_sum (map (fun b => length (snd b)) bs).

End WithCollaborators.

End Pipeline.

(* ================================================================== *)
(** ** Scripted collaborators for concrete runs *)

Module Scripted.

(** Collaborators that replay a script: a batch of "images" is the
    score matrix the network returns for it together with the
    gradients [backward()] leaves; the parameters count the optimizer
    updates; clipping overwrites every entry with [max_norm]. *)
Definition collaborators : Collaborators :=
  {| Params := nat;
     Images := (list (list Q) * list fval)%type;
     model := fun _ _ images => fst images;
     criterion := fun _ _ => 1%Q;
     backward := fun _ images _ _ => snd images;
     clip_grad_norm_ := fun max_norm g => map (fun _ => Finite max_norm) g;
     optimizer_step := fun _ p _ => S p |}.

(** Six classes, class 3 scoring highest. *)
Definition row : list Q := [0.1; 0.5; 0.2; 0.9; 0.3; 0.0]%Q.

(** A batch of two samples labelled 3 and 1, with a finite gradient. *)
Definition finite_batch : (list (list Q) * list fval) * list nat :=
  (([row; row], [Finite 1%Q]), [3; 1]).

(** The same batch with an overflowed gradient. *)
Definition overflow_batch : (list (list Q) * list fval) * list nat :=
  (([row; row], [Finite 1%Q; PosInf]), [3; 1]).

(** A loader of [n] batches, the same at every traversal. *)
Definition loader (bs : list ((list (list Q) * list fval) * list nat))
  : DataLoader (list (list Q) * list fval) :=
  {| len := length bs; batches := fun _ => bs |}.

(** The state before the first epoch, no optimizer update made yet. *)
Definition start : @Pipeline.state collaborators :=
  Pipeline.initial (C := collaborators) 0.

(** The same with a scaler that grows after two successful steps. *)
Definition quick_growth : @Pipeline.state collaborators :=
  {| Pipeline.params := (0 : @Params collaborators);
     Pipeline.lr := 0.08%R;
     Pipeline.grad := [];
     Pipeline.scaler := GradScaler.init 65536%Q 2;
     Pipeline.step_count := 0;
     Pipeline.train_metrics := Metrics.empty;
     Pipeline.test_metrics := Metrics.empty;
     Pipeline.console := [] |}.

(** Collaborators whose network always returns the six-class [row], once
    per sample: an image batch is its number of samples. *)
Definition steady : Collaborators :=
  {| Params := nat;
     Images := nat;
     model := fun _ _ n => repeat row n;
     criterion := fun _ _ => 1%Q;
     backward := fun _ _ _ _ => [Finite 1%Q];
     clip_grad_norm_ := fun max_norm g => map (fun _ => Finite max_norm) g;
     optimizer_step := fun _ p _ => S p |}.

(** A loader for [steady]: one batch of two samples at every traversal. *)
Definition steady_loader : DataLoader nat :=
  {| len := 1; batches := fun _ => [(2, [3; 1])] |}.

End Scripted.

(* ================================================================== *)
(** * Properties *)

Unset Implicit Arguments.

(** ** The result monad and its loops *)

Lemma bind_Ok_inv {A B : Type} (m : result A) (k : A -> result B) (b : B) :
  Py.bind m k = Ok b -> exists a, m = Ok a /\ k a = Ok b.
Proof.
  destruct m as [a|e]; simpl; intros H; [exists a; auto | discriminate].
Qed.

Lemma foldM_app {A B : Type} (f : A -> B -> result A) (l1 l2 : list B) (a : A) :
  foldM f (l1 ++ l2) a = Py.bind (foldM f l1 a) (foldM f l2).
Proof.
  revert a; induction l1 as [|b l1 IH]; intros a; simpl; [reflexivity|].
  destruct (f a b) as [a'|e]; simpl; [apply IH | reflexivity].
Qed.

Lemma foldM_map {A B C : Type} (f : A -> B -> result A) (g : C -> B)
      (l : list C) (a : A) :
  foldM f (map g l) a = foldM (fun a c => f a (g c)) l a.
Proof.
  revert a; induction l as [|c l IH]; intros a; simpl; [reflexivity|].
  destruct (f a (g c)); simpl; auto.
Qed.

Lemma foldM_ext {A B : Type} (f g : A -> B -> result A) (l : list B) (a : A) :
  (forall a b, f a b = g a b) -> foldM f l a = foldM g l a.
Proof.
  intros E; revert a; induction l as [|b l IH]; intros a; simpl; [reflexivity|].
  rewrite E; destruct (g a b); simpl; auto.
Qed.

Ltac bind_inv H :=
  let x := fresh "x" in
  let Hx := fresh "Hx" in
  apply bind_Ok_inv in H; destruct H as (x & Hx & H).

(* ================================================================== *)
(** ** Top-k selection *)

Module TensorFacts.

Import Tensor.

Lemma greatest_In (x : nat * Q) (xs : list (nat * Q)) :
  In (greatest x xs) (x :: xs).
Proof.
  unfold greatest; revert x; induction xs as [|y ys IH]; intros x; simpl.
  - now left.
  - destruct (Qle_bool (snd y) (snd x)).
    + destruct (IH x) as [E|HIn]; [left; exact E | right; right; exact HIn].
    + destruct (IH y) as [E|HIn]; [right; left; exact E | right; right; exact HIn].
Qed.

Lemma drop_index_fst (i : nat) (l : list (nat * Q)) (j : nat) :
  In j (map fst (drop_index i l)) -> In j (map fst l) /\ j <> i.
Proof.
  unfold drop_index; rewrite !in_map_iff.
  intros (y & Ey & HIn). apply filter_In in HIn as [HIn Hne].
  split; [exists y; auto|].
  apply negb_true_iff, Nat.eqb_neq in Hne. congruence.
Qed.

Lemma NoDup_map_fst_filter (f : nat * Q -> bool) (l : list (nat * Q)) :
  NoDup (map fst l) -> NoDup (map fst (filter f l)).
Proof.
  induction l as [|y l IH]; simpl; intros H; [constructor|].
  inversion H as [|? ? Hnin Hnd]; subst.
  destruct (f y); simpl; [constructor|]; auto.
  rewrite in_map_iff in *. intros (z & Ez & Hz). apply Hnin.
  exists z; split; [exact Ez|]. apply filter_In in Hz. tauto.
Qed.

Lemma select_incl (k : nat) (l : list (nat * Q)) (i : nat) :
  In i (select k l) -> In i (map fst l).
Proof.
  revert l; induction k as [|k IH]; intros l; simpl; [tauto|].
  destruct l as [|x xs]; [simpl; tauto|].
  intros [E|HIn].
  - subst i. apply in_map, greatest_In.
  - apply IH, drop_index_fst in HIn. tauto.
Qed.

Lemma select_NoDup (k : nat) (l : list (nat * Q)) :
  NoDup (map fst l) -> NoDup (select k l).
Proof.
  revert l; induction k as [|k IH]; intros l Hnd; simpl; [constructor|].
  destruct l as [|x xs]; [constructor|].
  constructor.
  - intros HIn. apply select_incl, drop_index_fst in HIn. tauto.
  - apply IH. unfold drop_index. now apply NoDup_map_fst_filter.
Qed.

Lemma drop_index_length (m : nat * Q) (l : list (nat * Q)) :
  NoDup (map fst l) -> In m l ->
  S (length (drop_index (fst m) l)) = length l.
Proof.
  unfold drop_index.
  induction l as [|y l IH]; simpl; intros Hnd HIn; [tauto|].
  inversion Hnd as [|? ? Hnin Hnd']; subst.
  destruct HIn as [E|HIn].
  - subst y. rewrite Nat.eqb_refl; simpl. f_equal.
    clear IH Hnd Hnd'. induction l as [|z l IH]; simpl; [reflexivity|].
    simpl in Hnin.
    destruct (fst z =? fst m) eqn:E; simpl.
    + apply Nat.eqb_eq in E. tauto.
    + f_equal. apply IH. tauto.
  - destruct (fst y =? fst m) eqn:E; simpl.
    + apply Nat.eqb_eq in E. exfalso. apply Hnin. rewrite E. now apply in_map.
    + f_equal. now apply IH.
Qed.

Lemma select_length (k : nat) (l : list (nat * Q)) :
  NoDup (map fst l) -> k <= length l -> length (select k l) = k.
Proof.
  revert l; induction k as [|k IH]; intros l Hnd Hk; [reflexivity|].
  destruct l as [|x xs]; [simpl in Hk; lia|].
  cbn [select length]. f_equal. apply IH.
  - unfold drop_index. now apply NoDup_map_fst_filter.
  - pose proof (drop_index_length (greatest x xs) _ Hnd (greatest_In x xs)) as E.
    lia.
Qed.

Lemma indexed_fst (row : list Q) : map fst (indexed row) = seq 0 (length row).
Proof.
  unfold indexed. generalize 0.
  induction row as [|q row IH]; intros n; simpl; [reflexivity|].
  f_equal. apply IH.
Qed.

Lemma indexed_NoDup (row : list Q) : NoDup (map fst (indexed row)).
Proof. rewrite indexed_fst. apply seq_NoDup. Qed.

Lemma indexed_length (row : list Q) : length (indexed row) = length row.
Proof.
  rewrite <- (length_map fst), indexed_fst. apply length_seq.
Qed.

(** The five indices of a sample are distinct, and there are five. *)
Lemma best5_NoDup (row : list Q) : NoDup (Reference.best5 row).
Proof. apply select_NoDup, indexed_NoDup. Qed.

Lemma best5_length (row : list Q) :
  5 <= length row -> length (Reference.best5 row) = 5.
Proof.
  intros H. apply select_length; [apply indexed_NoDup|].
  now rewrite indexed_length.
Qed.

(** [topk] succeeds exactly on batches whose rows have five classes. *)
Lemma topk_Ok (outputs : list (list Q)) :
  Forall (fun row => 5 <= length row) outputs ->
  topk 5 outputs = Ok (map Reference.best5 outputs).
Proof.
  unfold topk. induction 1 as [|row rows Hrow _ IH]; simpl; [reflexivity|].
  unfold topk_row at 1.
  destruct (length row <? 5) eqn:E; [apply Nat.ltb_lt in E; lia|].
  simpl. rewrite IH. reflexivity.
Qed.

Lemma topk_Ok_inv (outputs : list (list Q)) (pred : list (list nat)) :
  topk 5 outputs = Ok pred ->
  Forall (fun row => 5 <= length row) outputs /\ pred = map Reference.best5 outputs.
Proof.
  unfold topk. revert pred; induction outputs as [|row rows IH]; simpl; intros pred H.
  - inversion H; auto.
  - bind_inv H. bind_inv H. inversion H; subst; clear H.
    unfold topk_row in Hx. destruct (length row <? 5) eqn:E; [discriminate|].
    inversion Hx; subst; clear Hx. apply Nat.ltb_ge in E.
    destruct (IH _ Hx0) as [HF ->]. split; [constructor; auto | reflexivity].
Qed.

(** *** Transposed counting *)

Lemma firstn_t (n k : nat) (pred : list (list nat)) :
  n <= k -> firstn n (t k pred) = t n pred.
Proof.
  revert k pred; induction n as [|n IH]; intros k pred Hn; [reflexivity|].
  destruct k as [|k]; [lia|].
  cbn [t firstn]. f_equal. apply IH. lia.
Qed.

Lemma t_length (k : nat) (pred : list (list nat)) : length (t k pred) = k.
Proof.
  revert pred; induction k as [|k IH]; intros pred; simpl; [reflexivity|].
  now rewrite IH.
Qed.

Lemma combine_map_l {A B C : Type} (f : A -> B) (l : list A) (l' : list C) :
  combine (map f l) l' = map (fun p => (f (fst p), snd p)) (combine l l').
Proof.
  revert l'; induction l as [|a l IH]; intros [|c l']; simpl; try reflexivity.
  now rewrite IH.
Qed.

Lemma sum_rows_all (rows : list (list bool)) :
  sum_rows (length rows) rows =
  list_sum (map (fun row => length (filter (fun b => b) row)) rows).
Proof. unfold sum_rows. now rewrite firstn_all. Qed.

Lemma column_step (k : nat) (pred : list (list nat)) (labels : list nat) :
  Forall (fun row => S k <= length row) pred ->
  length (filter (fun b => b)
            (map (fun pl => fst pl =? snd pl) (combine (map (hd 0) pred) labels)))
  + list_sum (map (fun pl => Reference.position_hits k (fst pl) (snd pl))
                  (combine (map (@tl nat) pred) labels))
  = list_sum (map (fun pl => Reference.position_hits (S k) (fst pl) (snd pl))
                  (combine pred labels)).
Proof.
  intros HF; revert labels; induction HF as [|row rest Hrow _ IH];
    intros labels; [reflexivity|].
  destruct labels as [|l ls]; [reflexivity|].
  destruct row as [|a row]; [simpl in Hrow; lia|].
  specialize (IH ls).
  cbn [map combine hd tl fst snd].
  unfold list_sum in *. cbn [fold_right].
  unfold Reference.position_hits at 3. cbn [firstn filter].
  fold (Reference.position_hits k row l).
  destruct (a =? l); cbn [filter length];
    change (length (filter (fun i => i =? l) (firstn k row)))
      with (Reference.position_hits k row l); lia.
Qed.

Lemma eq_labels_t_count (k : nat) (pred : list (list nat)) (labels : list nat) :
  Forall (fun row => k <= length row) pred ->
  list_sum (map (fun row => length (filter (fun b => b) row))
                (eq_labels (t k pred) labels))
  = list_sum (map (fun pl => Reference.position_hits k (fst pl) (snd pl))
                  (combine pred labels)).
Proof.
  revert pred; induction k as [|k IH]; intros pred HF.
  - simpl. induction (combine pred labels) as [|pl c IHc]; [reflexivity|].
    simpl. exact IHc.
  - change (eq_labels (t (S k) pred) labels)
      with (map (fun pl => fst pl =? snd pl) (combine (map (hd 0) pred) labels)
            :: eq_labels (t k (map (@tl nat) pred)) labels).
    rewrite map_cons.
    change (list_sum (?x :: ?l)) with (x + list_sum l).
    rewrite IH.
    + now apply column_step.
    + apply Forall_map. eapply Forall_impl; [|exact HF].
      intros [|a row] H; simpl in *; lia.
Qed.

(** The sum over the first [n] rows of the transposed comparison
    matrix counts, sample by sample, the hits among the first [n]
    predictions. *)
Lemma sum_rows_t (n k : nat) (pred : list (list nat)) (labels : list nat) :
  n <= k ->
  Forall (fun row => k <= length row) pred ->
  sum_rows n (eq_labels (t k pred) labels)
  = list_sum (map (fun pl => Reference.position_hits n (fst pl) (snd pl))
                  (combine pred labels)).
Proof.
  intros Hn HF. unfold sum_rows, eq_labels.
  rewrite firstn_map, firstn_t by exact Hn.
  apply (eq_labels_t_count n pred labels).
  eapply Forall_impl; [|exact HF]. intros row H; simpl in H; lia.
Qed.

End TensorFacts.

(* ================================================================== *)
(** ** One batch of the accumulator *)

Module AccumulatorFacts.

Import Accumulator.

Lemma NoDup_filter_eqb (l : list nat) (x : nat) :
  NoDup l ->
  length (filter (fun i => i =? x) l) = if existsb (fun i => i =? x) l then 1 else 0.
Proof.
  induction 1 as [|a l Hnin Hnd IH]; [reflexivity|].
  cbn [filter existsb]. destruct (a =? x) eqn:E; cbn [orb length].
  - apply Nat.eqb_eq in E; subst a.
    destruct (existsb (fun i => i =? x) l) eqn:Ex.
    + apply existsb_exists in Ex as (i & Hi & Ei).
      apply Nat.eqb_eq in Ei; subst i; contradiction.
    + rewrite IH; reflexivity.
  - exact IH.
Qed.

Lemma length_filter_sum {A : Type} (f : A -> bool) (l : list A) :
  length (filter f l) = list_sum (map (fun a => if f a then 1 else 0) l).
Proof.
  induction l as [|a l IH]; [reflexivity|].
  cbn [filter map]. change (list_sum (?x :: ?r)) with (x + list_sum r).
  destruct (f a); cbn [length]; lia.
Qed.

Lemma position_hits_1 (row : list Q) (label : nat) :
  Reference.position_hits 1 (Reference.best5 row) label
  = if Reference.top1_hit row label then 1 else 0.
Proof.
  unfold Reference.position_hits, Reference.top1_hit.
  destruct (Reference.best5 row) as [|i rest]; [reflexivity|].
  cbn [firstn filter]. destruct (i =? label); reflexivity.
Qed.

Lemma position_hits_5 (row : list Q) (label : nat) :
  5 <= length row ->
  Reference.position_hits 5 (Reference.best5 row) label
  = if Reference.top5_hit row label then 1 else 0.
Proof.
  intros H. unfold Reference.position_hits, Reference.top5_hit.
  rewrite <- (TensorFacts.best5_length row H) at 1. rewrite firstn_all.
  apply NoDup_filter_eqb, TensorFacts.best5_NoDup.
Qed.

Lemma list_sum_map_ext_in {A : Type} (f g : A -> nat) (l : list A) :
  (forall a, In a l -> f a = g a) -> list_sum (map f l) = list_sum (map g l).
Proof.
  intros E. f_equal. now apply map_ext_in.
Qed.

Lemma sum_rows_top1 (outputs : list (list Q)) (labels : list nat) :
  Forall (fun row => 5 <= length row) outputs ->
  Tensor.sum_rows 1
    (Tensor.eq_labels (Tensor.t 5 (map Reference.best5 outputs)) labels)
  = Reference.hits Reference.top1_hit outputs labels.
Proof.
  intros HF. rewrite TensorFacts.sum_rows_t.
  - rewrite TensorFacts.combine_map_l, map_map.
    unfold Reference.hits. rewrite length_filter_sum.
    apply list_sum_map_ext_in. intros [row l] _; cbn [fst snd].
    apply position_hits_1.
  - lia.
  - apply Forall_map. eapply Forall_impl; [|exact HF].
    intros row H. rewrite TensorFacts.best5_length; [lia | exact H].
Qed.

Lemma sum_rows_top5 (outputs : list (list Q)) (labels : list nat) :
  Forall (fun row => 5 <= length row) outputs ->
  Tensor.sum_rows 5
    (Tensor.eq_labels (Tensor.t 5 (map Reference.best5 outputs)) labels)
  = Reference.hits Reference.top5_hit outputs labels.
Proof.
  intros HF. rewrite TensorFacts.sum_rows_t.
  - rewrite TensorFacts.combine_map_l, map_map.
    unfold Reference.hits. rewrite length_filter_sum.
    apply list_sum_map_ext_in. intros [row l] HIn; cbn [fst snd].
    apply position_hits_5.
    apply in_combine_l in HIn. rewrite Forall_forall in HF. now apply HF.
  - lia.
  - apply Forall_map. eapply Forall_impl; [|exact HF].
    intros row H. rewrite TensorFacts.best5_length; [lia | exact H].
Qed.

Lemma accumulate_Ok (acc : totals) (outputs : list (list Q))
      (labels : list nat) (loss_item : Q) :
  Forall (fun row => 5 <= length row) outputs ->
  accumulate acc outputs labels loss_item
  = Ok (Reference.after_batch acc outputs labels loss_item).
Proof.
  intros HF. unfold accumulate. rewrite (TensorFacts.topk_Ok outputs HF).
  cbn [Py.bind]. rewrite sum_rows_top1, sum_rows_top5 by exact HF.
  reflexivity.
Qed.

Lemma accumulate_Ok_inv (acc acc' : totals) (outputs : list (list Q))
      (labels : list nat) (loss_item : Q) :
  accumulate acc outputs labels loss_item = Ok acc' ->
  Forall (fun row => 5 <= length row) outputs /\
  acc' = Reference.after_batch acc outputs labels loss_item.
Proof.
  intros H. assert (HF : Forall (fun row => 5 <= length row) outputs).
  { unfold accumulate in H. bind_inv H.
    now apply TensorFacts.topk_Ok_inv in Hx as [HF _]. }
  split; [exact HF|]. rewrite (accumulate_Ok _ _ _ _ HF) in H. now inversion H.
Qed.

End AccumulatorFacts.

(* ================================================================== *)
(** ** A whole pass *)

Module PassFacts.

Import Accumulator.

Lemma float_of_nat_add (a b : nat) :
  (float_of_nat (a + b) == float_of_nat a + float_of_nat b)%Q.
Proof.
  unfold float_of_nat. now rewrite Nat2Z.inj_add, inject_Z_plus.
Qed.

Lemma float_of_nat_le (a b : nat) :
  a <= b -> (float_of_nat a <= float_of_nat b)%Q.
Proof.
  intros H. unfold float_of_nat. rewrite <- Zle_Qle. lia.
Qed.

Lemma float_of_nat_pos (n : nat) : 0 < n -> (0 < float_of_nat n)%Q.
Proof.
  intros H. unfold float_of_nat. change 0%Q with (inject_Z 0).
  rewrite <- Zlt_Qlt. lia.
Qed.

Lemma float_of_nat_zero_test (n : nat) :
  Qeq_bool (float_of_nat n) 0 = (n =? 0).
Proof.
  destruct n as [|n]; [reflexivity|].
  cbn [Nat.eqb]. apply not_true_is_false. intros H.
  apply Qeq_bool_eq in H.
  pose proof (float_of_nat_pos (S n) ltac:(lia)) as Hpos.
  rewrite H in Hpos. now apply Qlt_irrefl in Hpos.
Qed.

(** Finalization raises exactly on an empty pass. *)
Lemma finalize_empty (acc : totals) :
  total_samples acc = 0 -> finalize acc = Raise ZeroDivisionError.
Proof.
  intros H. unfold finalize, Py.div.
  now rewrite float_of_nat_zero_test, H.
Qed.

Lemma finalize_nonempty (acc : totals) :
  total_samples acc <> 0 ->
  finalize acc =
  Ok {| loss := (total_loss acc / float_of_nat (total_samples acc))%Q;
        top1 := (top1_correct acc / float_of_nat (total_samples acc) * 100.0)%Q;
        top5 := (top5_correct acc / float_of_nat (total_samples acc) * 100.0)%Q |}.
Proof.
  intros H. unfold finalize, Py.div. rewrite float_of_nat_zero_test.
  apply Nat.eqb_neq in H. rewrite H. reflexivity.
Qed.

Lemma finalize_Ok_inv (acc : totals) (r : EpochRecord) :
  finalize acc = Ok r -> total_samples acc <> 0.
Proof.
  intros H E. rewrite (finalize_empty acc E) in H. discriminate.
Qed.

(** The running totals are the sums over the stream consumed so far. *)
Lemma fold_totals (stream : list observation) (acc acc' : totals) :
  foldM consume stream acc = Ok acc' ->
  total_samples acc' = total_samples acc + Reference.sample_count stream /\
  (total_loss acc' == total_loss acc + Reference.loss_sum stream)%Q /\
  (top1_correct acc' ==
   top1_correct acc
   + float_of_nat (Reference.hit_count Reference.top1_hit stream))%Q /\
  (top5_correct acc' ==
   top5_correct acc
   + float_of_nat (Reference.hit_count Reference.top5_hit stream))%Q.
Proof.
  revert acc; induction stream as [|[[outputs labels] loss_item] rest IH];
    intros acc H.
  - inversion H; subst.
    repeat split;
      [ cbn; lia
      | cbn [Reference.loss_sum]; ring
      | change (float_of_nat (Reference.hit_count _ [])) with 0%Q; ring .. ].
  - cbn [foldM consume] in H. bind_inv H.
    apply AccumulatorFacts.accumulate_Ok_inv in Hx as [_ ->].
    destruct (IH _ H) as (Hn & Hl & H1 & H5). clear IH H.
    unfold Reference.sample_count, Reference.hit_count in *.
    cbn [map fst snd Reference.loss_sum Reference.batch_size
         Reference.after_batch total_samples total_loss top1_correct
         top5_correct] in *.
    change (list_sum (?a :: ?l)) with (a + list_sum l).
    change (Reference.batch_size (outputs, labels, loss_item))
      with (length labels).
    repeat split.
    + lia.
    + rewrite Hl. ring.
    + rewrite H1, float_of_nat_add. ring.
    + rewrite H5, float_of_nat_add. ring.
Qed.

Lemma fold_succeeds (stream : list observation) (acc : totals) :
  Forall (fun o => Forall (fun row => 5 <= length row) (fst (fst o))) stream ->
  exists acc', foldM consume stream acc = Ok acc'.
Proof.
  intros HF; revert acc;
    induction HF as [|[[outputs labels] loss_item] rest Ho _ IH]; intros acc.
  - exists acc; reflexivity.
  - cbn [foldM consume fst] in *. rewrite (AccumulatorFacts.accumulate_Ok _ _ _ _ Ho).
    cbn [Py.bind]. apply IH.
Qed.

Lemma hits_top1_le_top5 (outputs : list (list Q)) (labels : list nat) :
  Reference.hits Reference.top1_hit outputs labels
  <= Reference.hits Reference.top5_hit outputs labels.
Proof.
  unfold Reference.hits.
  induction (combine outputs labels) as [|[row l] c IH]; [reflexivity|].
  cbn [filter fst snd].
  assert (Himp : Reference.top1_hit row l = true -> Reference.top5_hit row l = true).
  { unfold Reference.top1_hit, Reference.top5_hit.
    destruct (Reference.best5 row) as [|i rest]; [discriminate|].
    intros E; cbn [existsb]; now rewrite E. }
  destruct (Reference.top1_hit row l).
  - rewrite Himp by reflexivity. cbn [length]; lia.
  - destruct (Reference.top5_hit row l); cbn [length]; lia.
Qed.

Lemma hits_le_batch (hit : list Q -> nat -> bool)
      (outputs : list (list Q)) (labels : list nat) :
  Reference.hits hit outputs labels <= length labels.
Proof.
  unfold Reference.hits.
  etransitivity; [apply filter_length_le|].
  rewrite length_combine. lia.
Qed.

Lemma hit_count_top1_le_top5 (stream : list observation) :
  Reference.hit_count Reference.top1_hit stream
  <= Reference.hit_count Reference.top5_hit stream.
Proof.
  unfold Reference.hit_count.
  induction stream as [|o rest IH]; [reflexivity|].
  cbn [map]. change (list_sum (?a :: ?l)) with (a + list_sum l).
  pose proof (hits_top1_le_top5 (fst (fst o)) (snd (fst o))). lia.
Qed.

Lemma hit_count_le_samples (hit : list Q -> nat -> bool) (stream : list observation) :
  Reference.hit_count hit stream <= Reference.sample_count stream.
Proof.
  unfold Reference.hit_count, Reference.sample_count.
  induction stream as [|o rest IH]; [reflexivity|].
  cbn [map]. change (list_sum (?a :: ?l)) with (a + list_sum l).
  pose proof (hits_le_batch hit (fst (fst o)) (snd (fst o))).
  unfold Reference.batch_size at 1. lia.
Qed.

Lemma float_of_nat_nonzero (n : nat) : n <> 0 -> ~ (float_of_nat n == 0)%Q.
Proof.
  intros H E. pose proof (float_of_nat_pos n ltac:(lia)) as Hpos.
  rewrite E in Hpos. now apply Qlt_irrefl in Hpos.
Qed.

(** A pass that returns a record consumed at least one sample, and
    the record is the one the spec describes. *)
Lemma pass_record (stream : list observation) (r : EpochRecord) :
  pass stream = Ok r ->
  0 < Reference.sample_count stream /\ Reference.is_record_of r stream.
Proof.
  unfold pass. intros H. bind_inv H. rename x into acc.
  destruct (fold_totals _ _ _ Hx) as (Hn & Hl & H1 & H5).
  cbn [zero total_samples total_loss top1_correct top5_correct] in *.
  pose proof (finalize_Ok_inv _ _ H) as Hnz.
  rewrite (finalize_nonempty _ Hnz) in H. inversion H; subst r; clear H.
  rewrite Nat.add_0_l in Hn. rewrite Hn in *.
  pose proof (float_of_nat_nonzero _ Hnz) as Hq.
  split; [lia|]. unfold Reference.is_record_of. cbn [loss top1 top5].
  repeat split.
  - rewrite Hl. field. exact Hq.
  - rewrite H1. field. exact Hq.
  - rewrite H5. field. exact Hq.
Qed.

Lemma pass_succeeds (stream : list observation) :
  0 < Reference.sample_count stream ->
  Forall (fun o => Forall (fun row => 5 <= length row) (fst (fst o))) stream ->
  exists r, pass stream = Ok r.
Proof.
  intros Hn HF. unfold pass.
  destruct (fold_succeeds stream zero HF) as (acc & Hacc).
  rewrite Hacc. cbn [Py.bind].
  destruct (fold_totals _ _ _ Hacc) as (Hs & _).
  cbn [zero total_samples] in Hs.
  rewrite finalize_nonempty by lia. eauto.
Qed.

(** The percentages of a record are ordered and bounded. *)
Lemma pass_bounds (stream : list observation) (r : EpochRecord) :
  pass stream = Ok r ->
  (0 <= top1 r)%Q /\ (top1 r <= top5 r)%Q /\ (top5 r <= 100)%Q.
Proof.
  intros H. destruct (pass_record _ _ H) as (Hn & _ & H1 & H5).
  set (n := float_of_nat (Reference.sample_count stream)) in *.
  assert (Hpos : (0 < n)%Q) by now apply float_of_nat_pos.
  pose proof (float_of_nat_le _ _ (hit_count_top1_le_top5 stream)) as H15.
  pose proof (float_of_nat_le _ _
                (hit_count_le_samples Reference.top5_hit stream)) as H5n.
  pose proof (float_of_nat_le 0 _ (Nat.le_0_l
                (Reference.hit_count Reference.top1_hit stream))) as H01.
  fold n in H5n. change (float_of_nat 0) with 0%Q in H01.
  set (h1 := float_of_nat (Reference.hit_count Reference.top1_hit stream)) in *.
  set (h5 := float_of_nat (Reference.hit_count Reference.top5_hit stream)) in *.
  rewrite H1, H5.
  repeat split.
  - apply Qle_shift_div_l; [exact Hpos|]. rewrite Qmult_0_l.
    apply Qmult_le_0_compat; [discriminate | exact H01].
  - apply Qle_shift_div_l; [exact Hpos|].
    setoid_replace (100 * h1 / n * n)%Q with (100 * h1)%Q by (field; intro E; rewrite E in Hpos; now apply Qlt_irrefl in Hpos).
    apply Qmult_le_l; [reflexivity | exact H15].
  - apply Qle_shift_div_r; [exact Hpos|].
    apply Qmult_le_l; [reflexivity | exact H5n].
Qed.

End PassFacts.

(* ================================================================== *)
(** ** The two loops of the script are passes *)

Module PipelineFacts.

Import Accumulator Pipeline.

Section WithCollaborators.

Context {C : Collaborators}.

Lemma validate_is_pass (p : Params) (dataloader : list (Images * list nat)) :
  validate p dataloader = pass (map (observe false p) dataloader).
Proof.
  unfold validate, pass. rewrite foldM_map.
  erewrite foldM_ext; [reflexivity|].
  intros acc [images labels]; reflexivity.
Qed.

(** What a successful step went through. *)
Lemma train_step_inv (cfg : Scheduler.config) (epoch W : nat)
      (st st' : state) (acc acc' : totals) (images : Images) (labels : list nat) :
  train_step cfg epoch W (st, acc) (images, labels) = Ok (st', acc') ->
  exists sc g sc1 g1 p1 sc2,
    prepare_grads epoch W st images labels = Ok (sc, g) /\
    GradScaler.step sc g (optimizer_step (lr st)) (params st) = Ok (sc1, g1, p1) /\
    GradScaler.update sc1 = Ok sc2 /\
    consume acc (observe true (params st) (images, labels)) = Ok acc' /\
    st' = {| params := p1;
             lr := Scheduler.get_lr cfg (step_count st);
             grad := g1;
             scaler := sc2;
             step_count := S (step_count st);
             train_metrics := train_metrics st;
             test_metrics := test_metrics st;
             console := console st |}.
Proof.
  unfold train_step. intros H.
  bind_inv H. destruct x as [sc g].
  bind_inv H. destruct x as [[sc1 g1] p1].
  bind_inv H. rename x into sc2.
  bind_inv H. rename x into acc1.
  cbn [Scheduler.advance] in H. inversion H; subst; clear H.
  exists sc, g, sc1, g1, p1, sc2. repeat split; assumption.
Qed.

Lemma train_fold_observations (cfg : Scheduler.config) (epoch W : nat)
      (bs : list (Images * list nat)) (sa sa' : state * totals) :
  foldM (train_step cfg epoch W) bs sa = Ok sa' ->
  foldM consume (train_observations cfg epoch W sa bs) (snd sa) = Ok (snd sa').
Proof.
  revert sa; induction bs as [|[images labels] bs IH]; intros [st acc] H.
  - inversion H; reflexivity.
  - cbn [foldM] in H. bind_inv H. destruct x as [st1 acc1].
    cbn [train_observations fst snd]. rewrite Hx.
    apply train_step_inv in Hx
      as (sc & g & sc1 & g1 & p1 & sc2 & _ & _ & _ & Hacc & _).
    cbn [foldM]. rewrite Hacc. cbn [Py.bind].
    apply (IH _ H).
Qed.

Lemma train_epoch_is_pass (cfg : Scheduler.config) (epoch W : nat)
      (train_loader : DataLoader Images) (st st' : state) (rec : EpochRecord) :
  train_epoch cfg epoch W train_loader st = Ok (st', rec) ->
  pass (train_observations cfg epoch W (st, zero) (batches train_loader epoch))
  = Ok rec.
Proof.
  unfold train_epoch, pass. intros H.
  bind_inv H. destruct x as [st1 acc]. bind_inv H. inversion H; subst; clear H.
  pose proof (train_fold_observations _ _ _ _ _ _ Hx) as E.
  cbn [snd] in E. rewrite E. exact Hx0.
Qed.

End WithCollaborators.

End PipelineFacts.

(* ================================================================== *)
(** * The metric accumulator *)

Lemma well_formed_stream_counts (stream : list Accumulator.observation) :
  stream <> [] -> Forall Reference.well_formed stream ->
  0 < Reference.sample_count stream /\
  Forall (fun o => Forall (fun row => 5 <= length row) (fst (fst o))) stream.
Proof.
  intros Hne HF. split.
  - destruct stream as [|o rest]; [congruence|].
    inversion HF as [|? ? (Hpos & _) _]; subst.
    unfold Reference.sample_count. cbn [map].
    change (list_sum (?a :: ?l)) with (a + list_sum l). lia.
  - eapply Forall_impl; [|exact HF]. intros o (_ & _ & H); exact H.
Qed.

(** C3.  A pass over a non-empty stream of well-formed batches returns a
    record, and it is the one of the spec: the loss is the sum of
    [loss_value * batch_size] over the sum of the batch sizes, the
    percentages are [100 * hits / sample_count], where every batch
    counts with the number of labels it really has.  This holds for
    [validate], and for the record of a training epoch whenever the
    epoch completes. *)
Theorem epoch_record_is_weighted_average :
  forall (C : Collaborators),
    (forall (p : Params) (dataloader : list (Images * list nat)),
        dataloader <> [] ->
        Forall Reference.well_formed (map (Pipeline.observe false p) dataloader) ->
        exists r,
          Pipeline.validate p dataloader = Ok r /\
          Reference.is_record_of r (map (Pipeline.observe false p) dataloader))
    /\
    (forall (cfg : Scheduler.config) (epoch W : nat)
            (train_loader : DataLoader Images) (st st' : Pipeline.state)
            (rec : Accumulator.EpochRecord),
        Pipeline.train_epoch cfg epoch W train_loader st = Ok (st', rec) ->
        Reference.is_record_of rec
          (Pipeline.train_observations cfg epoch W (st, Accumulator.zero)
                                       (batches train_loader epoch))).
Proof.
  intros C; split.
  - intros p dataloader Hne HF.
    rewrite PipelineFacts.validate_is_pass.
    assert (Hne' : map (Pipeline.observe false p) dataloader <> []).
    { destruct dataloader; [congruence | discriminate]. }
    destruct (well_formed_stream_counts _ Hne' HF) as [Hn Hrows].
    destruct (PassFacts.pass_succeeds _ Hn Hrows) as (r & Hr).
    exists r; split; [exact Hr|]. now apply PassFacts.pass_record.
  - intros cfg epoch W train_loader st st' rec H.
    apply PipelineFacts.train_epoch_is_pass in H.
    now apply PassFacts.pass_record in H.
Qed.

Lemma epoch_record_is_weighted_average_witness :
  (exists r,
      Pipeline.validate (C := Scripted.collaborators) 0 [Scripted.finite_batch] = Ok r /\
      Reference.is_record_of r
        (map (Pipeline.observe (C := Scripted.collaborators) false 0)
             [Scripted.finite_batch]))
  /\
  (exists st' rec,
      Pipeline.train_epoch (C := Scripted.collaborators) (Pipeline.schedule 36 1) 0 0
        (Scripted.loader [Scripted.finite_batch]) Scripted.start = Ok (st', rec) /\
      Reference.is_record_of rec
        (Pipeline.train_observations (Pipeline.schedule 36 1) 0 0
           (Scripted.start, Accumulator.zero) [Scripted.finite_batch])).
Proof.
  split.
  - apply (proj1 (epoch_record_is_weighted_average Scripted.collaborators)).
    + discriminate.
    + repeat constructor; simpl; lia.
  - eexists. eexists. split.
    + vm_compute. reflexivity.
    + eapply (proj2 (epoch_record_is_weighted_average Scripted.collaborators)
                (Pipeline.schedule 36 1) 0 0 (Scripted.loader [Scripted.finite_batch])).
      vm_compute. reflexivity.
Defined.

(** C9.  Every record a pass returns has
    [0 <= top1 <= top5 <= 100]: the top-1 count is the first row of the
    comparison matrix whose five rows give the top-5 count, and the five
    indices of a sample are distinct, so a sample scores at most one
    top-5 hit. *)
Theorem record_percentages_ordered :
  forall (C : Collaborators),
    (forall (p : Params) (dataloader : list (Images * list nat))
            (r : Accumulator.EpochRecord),
        Pipeline.validate p dataloader = Ok r ->
        (0 <= Accumulator.top1 r)%Q /\
        (Accumulator.top1 r <= Accumulator.top5 r)%Q /\
        (Accumulator.top5 r <= 100)%Q)
    /\
    (forall (cfg : Scheduler.config) (epoch W : nat)
            (train_loader : DataLoader Images) (st st' : Pipeline.state)
            (rec : Accumulator.EpochRecord),
        Pipeline.train_epoch cfg epoch W train_loader st = Ok (st', rec) ->
        (0 <= Accumulator.top1 rec)%Q /\
        (Accumulator.top1 rec <= Accumulator.top5 rec)%Q /\
        (Accumulator.top5 rec <= 100)%Q).
Proof.
  intros C; split.
  - intros p dataloader r H. rewrite PipelineFacts.validate_is_pass in H.
    exact (PassFacts.pass_bounds _ _ H).
  - intros cfg epoch W train_loader st st' rec H.
    apply PipelineFacts.train_epoch_is_pass in H.
    exact (PassFacts.pass_bounds _ _ H).
Qed.

Lemma record_percentages_ordered_witness :
  (exists r,
      Pipeline.validate (C := Scripted.collaborators) 0 [Scripted.finite_batch] = Ok r /\
      (0 <= Accumulator.top1 r)%Q /\
      (Accumulator.top1 r <= Accumulator.top5 r)%Q /\
      (Accumulator.top5 r <= 100)%Q)
  /\
  (exists st' rec,
      Pipeline.train_epoch (C := Scripted.collaborators) (Pipeline.schedule 36 1) 0 0
        (Scripted.loader [Scripted.finite_batch]) Scripted.start = Ok (st', rec) /\
      (0 <= Accumulator.top1 rec)%Q /\
      (Accumulator.top1 rec <= Accumulator.top5 rec)%Q /\
      (Accumulator.top5 rec <= 100)%Q).
Proof.
  split.
  - eexists. split.
    + vm_compute. reflexivity.
    + apply (proj1 (record_percentages_ordered Scripted.collaborators)
               0 [Scripted.finite_batch]).
      vm_compute. reflexivity.
  - eexists. eexists. split.
    + vm_compute. reflexivity.
    + eapply (proj2 (record_percentages_ordered Scripted.collaborators)
                (Pipeline.schedule 36 1) 0 0 (Scripted.loader [Scripted.finite_batch])
                Scripted.start).
      vm_compute. reflexivity.
Defined.

(** C6.  A pass that consumed no sample fails with [ZeroDivisionError]
    at the first division of the finalization; it does not return a
    record of zeros.  This is so for [validate] on an empty loader and
    for the training pass of an epoch whose loader is empty. *)
Theorem empty_pass_raises_ZeroDivisionError :
  forall (C : Collaborators),
    (forall loss_total top1_total top5_total : Q,
        Accumulator.finalize
          {| Accumulator.total_loss := loss_total;
             Accumulator.total_samples := 0;
             Accumulator.top1_correct := top1_total;
             Accumulator.top5_correct := top5_total |}
        = Raise ZeroDivisionError)
    /\
    (forall p : Params, Pipeline.validate p [] = Raise ZeroDivisionError)
    /\
    (forall (cfg : Scheduler.config) (epoch W : nat) (st : Pipeline.state),
        Pipeline.train_epoch cfg epoch W {| len := 0; batches := fun _ => [] |} st
        = Raise ZeroDivisionError).
Proof.
  intros C. split; [|split].
  - intros. now apply PassFacts.finalize_empty.
  - intros p. rewrite PipelineFacts.validate_is_pass. reflexivity.
  - intros cfg epoch W st. unfold Pipeline.train_epoch. cbn [batches foldM Py.bind].
    now rewrite PassFacts.finalize_empty.
Qed.

(* ================================================================== *)
(** * The evaluation cadence *)

Module CadenceFacts.

Import Accumulator Pipeline.

Lemma last_item_last {A : Type} (l : list A) (d : A) :
  l <> [] -> Py.last_item l = Ok (last l d).
Proof.
  intros Hne. destruct (exists_last Hne) as (l0 & x & ->).
  unfold Py.last_item. rewrite rev_unit, last_last. reflexivity.
Qed.

Section WithCollaborators.

Context {C : Collaborators}.

Lemma last_or_zero_Ok (l : list Q) : last_or_zero l = Ok (last l 0.0%Q).
Proof.
  unfold last_or_zero. destruct l as [|x l]; [reflexivity|].
  cbn [length Nat.ltb Nat.leb]. now apply last_item_last.
Qed.

(** The reuse branch never fails: on an empty history it reports zeros. *)
Lemma reused_Ok (m : Metrics.t) : reused m = Ok (latest m).
Proof.
  unfold reused. rewrite !last_or_zero_Ok. reflexivity.
Qed.

Lemma latest_append (m : Metrics.t) (r : EpochRecord) : latest (append m r) = r.
Proof.
  unfold latest, append; cbn [Metrics.loss Metrics.top1 Metrics.top5].
  rewrite !last_last. now destruct r.
Qed.

(** The inner loop touches neither the histories nor the terminal. *)
Lemma train_fold_frame (cfg : Scheduler.config) (epoch W : nat)
      (bs : list (Images * list nat)) (sa sa' : state * totals) :
  foldM (train_step cfg epoch W) bs sa = Ok sa' ->
  train_metrics (fst sa') = train_metrics (fst sa) /\
  test_metrics (fst sa') = test_metrics (fst sa) /\
  console (fst sa') = console (fst sa).
Proof.
  revert sa; induction bs as [|[images labels] bs IH]; intros [st acc] H.
  - inversion H; auto.
  - cbn [foldM] in H. bind_inv H. destruct x as [st1 acc1].
    destruct (IH _ H) as (E1 & E2 & E3). cbn [fst] in *.
    apply PipelineFacts.train_step_inv in Hx
      as (sc & g & sc1 & g1 & p1 & sc2 & _ & _ & _ & _ & ->).
    cbn [train_metrics test_metrics console] in *. auto.
Qed.

Lemma train_epoch_frame (cfg : Scheduler.config) (epoch W : nat)
      (train_loader : DataLoader Images) (st st1 : state) (rec : EpochRecord) :
  train_epoch cfg epoch W train_loader st = Ok (st1, rec) ->
  train_metrics st1 = train_metrics st /\
  test_metrics st1 = test_metrics st /\
  console st1 = console st.
Proof.
  unfold train_epoch. intros H. bind_inv H. destruct x as [st2 acc].
  bind_inv H. inversion H; subst; clear H.
  exact (train_fold_frame _ _ _ _ _ _ Hx).
Qed.

(** What a completed epoch went through. *)
Lemma epoch_body_inv (cfg : Scheduler.config) (num_epochs W : nat) (u : Z)
      (train_loader test_loader : DataLoader Images) (st st' : state) (epoch : nat) :
  epoch_body cfg num_epochs W u train_loader test_loader st epoch = Ok st' ->
  exists st1 train_rec,
    train_epoch cfg epoch W train_loader (show_train_bar st) = Ok (st1, train_rec) /\
    u <> 0%Z /\
    train_metrics st' = append (train_metrics st) train_rec /\
    (((Z.of_nat epoch mod u)%Z = 0%Z /\
      exists test_rec,
        validate (params st1) (batches test_loader epoch) = Ok test_rec /\
        test_metrics st' = append (test_metrics st) test_rec /\
        console st' =
        console st ++
        [Tqdm "Train"; Tqdm "Validation";
         EpochLine (epoch + 1) num_epochs (lr st) train_rec test_rec])
     \/
     ((Z.of_nat epoch mod u)%Z <> 0%Z /\
      test_metrics st' = test_metrics st /\
      console st' =
      console st ++
      [Tqdm "Train";
       EpochLine (epoch + 1) num_epochs (lr st) train_rec (latest (test_metrics st))])).
Proof.
  unfold epoch_body. intros H. bind_inv H. destruct x as [st1 train_rec].
  exists st1, train_rec. split; [exact Hx|].
  destruct (train_epoch_frame _ _ _ _ _ _ _ Hx) as (E1 & E2 & E3).
  cbn [show_train_bar train_metrics test_metrics console] in E1, E2, E3.
  unfold record_epoch, Py.mod_ in H.
  destruct (u =? 0)%Z eqn:Eu; [discriminate|]. apply Z.eqb_neq in Eu.
  split; [exact Eu|]. cbn [Py.bind] in H.
  destruct (Z.of_nat epoch mod u =? 0)%Z eqn:Em.
  - apply Z.eqb_eq in Em. bind_inv H. inversion H; subst; clear H.
    cbn [train_metrics test_metrics console]. rewrite E1, E2, E3.
    split; [reflexivity|]. left. split; [exact Em|].
    exists x. rewrite <- app_assoc. auto.
  - apply Z.eqb_neq in Em. rewrite reused_Ok in H. cbn [Py.bind] in H.
    inversion H; subst; clear H.
    cbn [train_metrics test_metrics console]. rewrite E1, E2, E3.
    split; [reflexivity|]. right. rewrite <- app_assoc. auto.
Qed.

Lemma run_epochs_S (num_epochs : nat) (u : Z)
      (train_loader test_loader : DataLoader Images) (n : nat) (st : state) :
  run_epochs num_epochs u train_loader test_loader (S n) st =
  Py.bind (run_epochs num_epochs u train_loader test_loader n st)
          (fun s =>
             epoch_body (schedule num_epochs (len train_loader)) num_epochs
                        (Scheduler.warmup_steps (schedule num_epochs (len train_loader)))
                        u train_loader test_loader s n).
Proof.
  unfold run_epochs. rewrite seq_S, foldM_app. cbn [Nat.add].
  destruct (foldM _ (seq 0 n) st); cbn [Py.bind foldM]; [|reflexivity].
  now destruct (epoch_body _ _ _ _ _ _ a n).
Qed.

End WithCollaborators.

End CadenceFacts.

Lemma populated_append (m : Metrics.t) (r : Accumulator.EpochRecord) :
  Metrics.populated (Pipeline.append m r).
Proof.
  unfold Metrics.populated, Pipeline.append;
    cbn [Metrics.top1 Metrics.top5 Metrics.loss].
  repeat split; intros E; now apply app_eq_nil in E as [_ E].
Qed.

Lemma has_length_append (m : Metrics.t)
      (r : Accumulator.EpochRecord) (n : nat) :
  Metrics.has_length m n -> Metrics.has_length (Pipeline.append m r) (S n).
Proof.
  unfold Metrics.has_length, Pipeline.append;
    cbn [Metrics.top1 Metrics.top5 Metrics.loss].
  intros (H1 & H5 & Hl). rewrite !length_app. cbn [length]. lia.
Qed.

Lemma validation_bars_app (l1 l2 : list event) :
  length (filter Pipeline.is_validation_bar (l1 ++ l2)) =
  length (filter Pipeline.is_validation_bar l1)
  + length (filter Pipeline.is_validation_bar l2).
Proof. now rewrite filter_app, length_app. Qed.

(** After the first epoch of a run the test history is never empty. *)
Lemma run_populates_test_history {C : Collaborators} (num_epochs : nat) (u : Z)
      (train_loader test_loader : DataLoader Images) (p : Params)
      (n : nat) (st : Pipeline.state) :
  Pipeline.run_epochs num_epochs u train_loader test_loader (S n) (Pipeline.initial p)
  = Ok st ->
  Metrics.populated (Pipeline.test_metrics st).
Proof.
  revert st; induction n as [|n IH]; intros st H;
    rewrite CadenceFacts.run_epochs_S in H; bind_inv H;
    apply CadenceFacts.epoch_body_inv in H
      as (st1 & train_rec & _ & Hu & _ & [(_ & test_rec & _ & -> & _) | (Hm & E & _)]).
  - apply populated_append.
  - rewrite Z.mod_0_l in Hm by exact Hu. congruence.
  - apply populated_append.
  - rewrite E. now apply IH.
Qed.

(** C2.  An epoch that completes appends its training record to
    [train_metrics] whatever the epoch index.  When
    [epoch % update_step == 0] it runs [validate] (whose progress bar
    shows), appends that record to [test_metrics] and reports it;
    otherwise no validation runs, [test_metrics] is left as it is and
    the line of the epoch reports its most recent entry.  In a run,
    that entry exists from the second epoch on. *)
Theorem epoch_records_follow_cadence :
  forall (C : Collaborators),
    (forall (cfg : Scheduler.config) (num_epochs W : nat) (u : Z)
            (train_loader test_loader : DataLoader Images)
            (st st' : Pipeline.state) (epoch : nat),
        Pipeline.epoch_body cfg num_epochs W u train_loader test_loader st epoch = Ok st' ->
        exists st1 train_rec,
          Pipeline.train_epoch cfg epoch W train_loader (Pipeline.show_train_bar st)
          = Ok (st1, train_rec) /\
          Pipeline.train_metrics st' = Pipeline.append (Pipeline.train_metrics st) train_rec /\
          ((Z.of_nat epoch mod u = 0)%Z ->
           exists test_rec,
             Pipeline.validate (Pipeline.params st1) (batches test_loader epoch) = Ok test_rec /\
             Pipeline.test_metrics st' = Pipeline.append (Pipeline.test_metrics st) test_rec /\
             Pipeline.console st' =
             Pipeline.console st ++
             [Tqdm "Train"; Tqdm "Validation";
              EpochLine (epoch + 1) num_epochs (Pipeline.lr st) train_rec test_rec]) /\
          ((Z.of_nat epoch mod u <> 0)%Z ->
           Pipeline.test_metrics st' = Pipeline.test_metrics st /\
           Pipeline.console st' =
           Pipeline.console st ++
           [Tqdm "Train";
            EpochLine (epoch + 1) num_epochs (Pipeline.lr st) train_rec
                      (Pipeline.latest (Pipeline.test_metrics st))]) /\
          length (filter Pipeline.is_validation_bar (Pipeline.console st')) =
          length (filter Pipeline.is_validation_bar (Pipeline.console st))
          + (if (Z.of_nat epoch mod u =? 0)%Z then 1 else 0))
    /\
    (forall (m : Metrics.t) (r : Accumulator.EpochRecord),
        Pipeline.latest (Pipeline.append m r) = r)
    /\
    (forall (num_epochs : nat) (u : Z) (train_loader test_loader : DataLoader Images)
            (p : Params) (n : nat) (st : Pipeline.state),
        Pipeline.run_epochs num_epochs u train_loader test_loader (S n) (Pipeline.initial p)
        = Ok st ->
        Metrics.populated (Pipeline.test_metrics st)).
Proof.
  intros C. split; [|split].
  - intros cfg num_epochs W u train_loader test_loader st st' epoch H.
    apply CadenceFacts.epoch_body_inv in H
      as (st1 & train_rec & Htrain & Hu & Happ & Hcase).
    exists st1, train_rec. split; [exact Htrain|]. split; [exact Happ|].
    destruct Hcase as [(Hm & test_rec & Hv & Ht & Hc) | (Hm & Ht & Hc)].
    + split; [|split].
      * intros _. exists test_rec. auto.
      * intros Hn. contradiction.
      * rewrite Hc, Hm, validation_bars_app. reflexivity.
    + split; [|split].
      * intros Hz. contradiction.
      * intros _. auto.
      * rewrite Hc, validation_bars_app.
        apply Z.eqb_neq in Hm. rewrite Hm. reflexivity.
  - intros m r. apply CadenceFacts.latest_append.
  - intros. eapply run_populates_test_history; eassumption.
Qed.

Lemma epoch_records_follow_cadence_witness :
  exists st0 st',
    Pipeline.run_epochs (C := Scripted.collaborators) 6 3
      (Scripted.loader [Scripted.finite_batch])
      (Scripted.loader [Scripted.finite_batch]) 1 Scripted.start = Ok st0 /\
    Pipeline.epoch_body (C := Scripted.collaborators) (Pipeline.schedule 6 1) 6 0 3
      (Scripted.loader [Scripted.finite_batch])
      (Scripted.loader [Scripted.finite_batch]) st0 1 = Ok st' /\
    Pipeline.test_metrics st' = Pipeline.test_metrics st0 /\
    Metrics.populated (Pipeline.test_metrics st0).
Proof.
  eexists. eexists.
  split; [vm_compute; reflexivity|].
  split; [vm_compute; reflexivity|].
  split.
  - match goal with
    | |- Pipeline.test_metrics ?s' = Pipeline.test_metrics ?s0 =>
        destruct (proj1 (epoch_records_follow_cadence Scripted.collaborators)
                    (Pipeline.schedule 6 1) 6 0 3%Z
                    (Scripted.loader [Scripted.finite_batch])
                    (Scripted.loader [Scripted.finite_batch]) s0 s' 1
                    ltac:(vm_compute; reflexivity))
          as (st1 & train_rec & _ & _ & _ & Hreuse & _)
    end.
    apply Hreuse. discriminate.
  - apply (proj2 (proj2 (epoch_records_follow_cadence Scripted.collaborators))
             6 3%Z (Scripted.loader [Scripted.finite_batch])
             (Scripted.loader [Scripted.finite_batch]) 0 0).
    vm_compute. reflexivity.
Defined.

(** C10.  With the shipped [METRICS_UPDATE_STEP = 1] the test
    [epoch % METRICS_UPDATE_STEP == 0] holds at every epoch, so the
    reuse branch is never taken: once epoch [e] is completed, every key
    of both histories holds [e + 1] entries and [validate] has run
    [e + 1] times. *)
Theorem shipped_cadence_evaluates_every_epoch :
  forall (C : Collaborators),
    (forall epoch : nat,
        Py.mod_ (Z.of_nat epoch) METRICS_UPDATE_STEP = Ok 0%Z)
    /\
    (forall (num_epochs : nat) (train_loader test_loader : DataLoader Images)
            (p : Params) (e : nat) (st : Pipeline.state),
        Pipeline.run_epochs num_epochs METRICS_UPDATE_STEP train_loader test_loader
                            (S e) (Pipeline.initial p) = Ok st ->
        Metrics.has_length (Pipeline.train_metrics st) (S e) /\
        Metrics.has_length (Pipeline.test_metrics st) (S e) /\
        length (filter Pipeline.is_validation_bar (Pipeline.console st)) = S e).
Proof.
  intros C. split.
  - intros epoch. unfold Py.mod_, METRICS_UPDATE_STEP. cbn [Z.eqb].
    now rewrite Z.mod_1_r.
  - intros num_epochs train_loader test_loader p e.
    generalize (S e) as n. clear e.
    induction n as [|n IH]; intros st H.
    + inversion H; subst. cbn. repeat split.
    + rewrite CadenceFacts.run_epochs_S in H. bind_inv H.
      destruct (IH _ Hx) as (Htrain & Htest & Hbars).
      apply CadenceFacts.epoch_body_inv in H
        as (st1 & train_rec & _ & _ & Happ
            & [(_ & test_rec & _ & Ht & Hc) | (Hm & _)]).
      * rewrite Happ, Ht, Hc, validation_bars_app, Hbars.
        split; [now apply has_length_append|].
        split; [now apply has_length_append|].
        cbn. lia.
      * unfold METRICS_UPDATE_STEP in Hm. rewrite Z.mod_1_r in Hm. congruence.
Qed.

Lemma shipped_cadence_evaluates_every_epoch_witness :
  exists st,
    Pipeline.run_epochs (C := Scripted.collaborators) NUM_EPOCHS METRICS_UPDATE_STEP
      (Scripted.loader [Scripted.finite_batch])
      (Scripted.loader [Scripted.finite_batch]) 2 Scripted.start = Ok st /\
    Metrics.has_length (Pipeline.train_metrics st) 2 /\
    Metrics.has_length (Pipeline.test_metrics st) 2 /\
    length (filter Pipeline.is_validation_bar (Pipeline.console st)) = 2.
Proof.
  eexists. split; [vm_compute; reflexivity|].
  apply (proj2 (shipped_cadence_evaluates_every_epoch Scripted.collaborators)
           NUM_EPOCHS (Scripted.loader [Scripted.finite_batch])
           (Scripted.loader [Scripted.finite_batch]) 0 1).
  vm_compute. reflexivity.
Defined.

(* ================================================================== *)
(** * Sentinel and best value *)

Lemma max_fold_spec (xs : list Q) (x : Q) :
  let m := fold_left (fun m y => if Qle_bool y m then m else y) xs x in
  In m (x :: xs) /\ forall y, In y (x :: xs) -> (y <= m)%Q.
Proof.
  revert x; induction xs as [|a xs IH]; intros x; cbn [fold_left].
  - split; [now left|]. intros y [<-|[]]. apply Qle_refl.
  - destruct (Qle_bool a x) eqn:E.
    + destruct (IH x) as (HIn & Hmax). split.
      * destruct HIn as [E'|HIn']; [left; exact E' | right; right; exact HIn'].
      * intros y [<-|[<-|Hy]].
        -- apply Hmax. now left.
        -- apply Qle_bool_iff in E. eapply Qle_trans; [exact E|].
           apply Hmax. now left.
        -- apply Hmax. now right.
    + destruct (IH a) as (HIn & Hmax). split.
      * right. exact HIn.
      * intros y [<-|[<-|HIn']].
        -- assert (Hlt : (x < a)%Q).
           { apply Qnot_le_lt. intros Hle. apply Qle_bool_iff in Hle. congruence. }
           eapply Qle_trans; [apply Qlt_le_weak; exact Hlt|]. apply Hmax. now left.
        -- apply Hmax. now left.
        -- apply Hmax. now right.
Qed.

(** C7.  In the reuse branch an empty test history yields the record
    of zeros, without an exception; [best] returns [0.0] on an empty
    list and otherwise an entry of the list that no entry exceeds, and
    it never raises. *)
Theorem sentinel_and_best_are_total :
  forall (C : Collaborators),
    Pipeline.reused Metrics.empty
    = Ok {| Accumulator.loss := 0.0%Q; Accumulator.top1 := 0.0%Q;
            Accumulator.top5 := 0.0%Q |}
    /\
    (forall (num_epochs : nat) (u : Z) (test_loader : DataLoader Images)
            (epoch : nat) (current_lr : R) (st : Pipeline.state)
            (train_rec : Accumulator.EpochRecord),
        u <> 0%Z -> (Z.of_nat epoch mod u <> 0)%Z ->
        Pipeline.test_metrics st = Metrics.empty ->
        exists st',
          Pipeline.record_epoch num_epochs u test_loader epoch current_lr st train_rec
          = Ok st' /\
          Pipeline.test_metrics st' = Metrics.empty /\
          Pipeline.console st' =
          Pipeline.console st ++
          [EpochLine (epoch + 1) num_epochs current_lr train_rec
             {| Accumulator.loss := 0.0%Q; Accumulator.top1 := 0.0%Q;
                Accumulator.top5 := 0.0%Q |}])
    /\
    Pipeline.best [] = Ok 0.0%Q
    /\
    (forall l : list Q,
        l <> [] ->
        exists m, Pipeline.best l = Ok m /\ In m l /\ forall x, In x l -> (x <= m)%Q)
    /\
    (forall l : list Q, exists m, Pipeline.best l = Ok m).
Proof.
  intros C. split; [|split; [|split; [|split]]].
  - reflexivity.
  - intros num_epochs u test_loader epoch current_lr st train_rec Hu Hm Hempty.
    unfold Pipeline.record_epoch, Py.mod_.
    apply Z.eqb_neq in Hu, Hm. rewrite Hu. cbn [Py.bind]. rewrite Hm.
    rewrite CadenceFacts.reused_Ok. cbn [Py.bind].
    eexists. split; [reflexivity|].
    cbn [Pipeline.test_metrics Pipeline.console]. rewrite Hempty.
    split; reflexivity.
  - reflexivity.
  - intros [|x xs] Hne; [congruence|].
    cbn [Pipeline.best Py.max_]. eexists. split; [reflexivity|].
    apply (max_fold_spec xs x).
  - intros [|x xs]; cbn [Pipeline.best Py.max_]; eexists; reflexivity.
Qed.

Lemma sentinel_and_best_are_total_witness :
  (exists st',
      Pipeline.record_epoch (C := Scripted.collaborators) 6 3
        (Scripted.loader [Scripted.finite_batch]) 1 0.08%R Scripted.start
        {| Accumulator.loss := 1%Q; Accumulator.top1 := 50%Q; Accumulator.top5 := 100%Q |}
      = Ok st' /\
      Pipeline.test_metrics st' = Metrics.empty /\
      Pipeline.console st' =
      Pipeline.console Scripted.start ++
      [EpochLine (1 + 1) 6 0.08%R
         {| Accumulator.loss := 1%Q; Accumulator.top1 := 50%Q; Accumulator.top5 := 100%Q |}
         {| Accumulator.loss := 0.0%Q; Accumulator.top1 := 0.0%Q;
            Accumulator.top5 := 0.0%Q |}])
  /\
  (exists m, Pipeline.best [50; 75; 60]%Q = Ok m /\
             In m [50; 75; 60]%Q /\ forall x, In x [50; 75; 60]%Q -> (x <= m)%Q).
Proof.
  pose proof (sentinel_and_best_are_total Scripted.collaborators)
    as (_ & Hrecord & _ & Hbest & _).
  split.
  - apply Hrecord; [discriminate | discriminate | reflexivity].
  - apply Hbest. discriminate.
Defined.

(* ================================================================== *)
(** * One optimization step *)

Module StepFacts.

Import Accumulator Pipeline.

Section WithCollaborators.

Context {C : Collaborators}.

(** From a scaler at rest, whichever way the gate goes, [scaler.step]
    sees the verdict of the inspection of the raw gradients, and the
    scale, the interval and the tracker are still those of the state. *)
Lemma scaler_step_ready (epoch W : nat) (st : state) (images : Images)
      (labels : list nat) :
  GradScaler.stage_ (scaler st) = GradScaler.READY ->
  exists g1,
    Py.bind (prepare_grads epoch W st images labels)
            (fun scg => GradScaler.step (fst scg) (snd scg)
                                        (optimizer_step (lr st)) (params st))
    = Ok ({| GradScaler.scale_factor := GradScaler.scale_factor (scaler st);
             GradScaler.growth_interval := GradScaler.growth_interval (scaler st);
             GradScaler.growth_tracker := GradScaler.growth_tracker (scaler st);
             GradScaler.stage_ := GradScaler.STEPPED;
             GradScaler.found_inf :=
               negb (forallb isfinite (raw_grads st images labels)) |},
          g1,
          if negb (forallb isfinite (raw_grads st images labels))
          then params st
          else optimizer_step (lr st) (params st) g1)
    /\
    g1 = (if clip_gate epoch W
          then clip_grad_norm_ 1.0%Q
                 (map (GradScaler.unscale_value (scaler st)) (raw_grads st images labels))
          else map (GradScaler.unscale_value (scaler st)) (raw_grads st images labels)).
Proof.
  intros Hready. unfold prepare_grads.
  destruct (clip_gate epoch W).
  - unfold GradScaler.unscale_. rewrite Hready. cbn [Py.bind fst snd].
    unfold GradScaler.step.
    cbn [GradScaler.stage_ Py.bind GradScaler.found_inf GradScaler.scale_factor
         GradScaler.growth_interval GradScaler.growth_tracker].
    eexists. split; reflexivity.
  - cbn [Py.bind fst snd]. unfold GradScaler.step. rewrite Hready.
    unfold GradScaler.unscale_. rewrite Hready.
    cbn [GradScaler.stage_ Py.bind GradScaler.found_inf GradScaler.scale_factor
         GradScaler.growth_interval GradScaler.growth_tracker].
    eexists. split; reflexivity.
Qed.

(** A step from a scaler at rest, spelled out. *)
Lemma train_step_ready (cfg : Scheduler.config) (epoch W : nat)
      (st : state) (acc : totals) (images : Images) (labels : list nat) :
  GradScaler.stage_ (scaler st) = GradScaler.READY ->
  exists g1,
    train_step cfg epoch W (st, acc) (images, labels) =
    Py.bind (consume acc (observe true (params st) (images, labels)))
            (fun acc1 =>
               Ok ({| params :=
                        if negb (forallb isfinite (raw_grads st images labels))
                        then params st
                        else optimizer_step (lr st) (params st) g1;
                      lr := Scheduler.get_lr cfg (step_count st);
                      grad := g1;
                      scaler :=
                        GradScaler.settled (scaler st)
                                (negb (forallb isfinite (raw_grads st images labels)));
                      step_count := S (step_count st);
                      train_metrics := train_metrics st;
                      test_metrics := test_metrics st;
                      console := console st |}, acc1))
    /\
    g1 = (if clip_gate epoch W
          then clip_grad_norm_ 1.0%Q
                 (map (GradScaler.unscale_value (scaler st)) (raw_grads st images labels))
          else map (GradScaler.unscale_value (scaler st)) (raw_grads st images labels)).
Proof.
  intros Hready.
  destruct (scaler_step_ready epoch W st images labels Hready) as (g1 & Hstep & Hg1).
  exists g1. split; [|exact Hg1]. clear Hg1.
  unfold train_step.
  destruct (prepare_grads epoch W st images labels) as [[sc g]|e];
    cbn [Py.bind fst snd] in Hstep; [|discriminate].
  cbn [Py.bind]. rewrite Hstep. cbn [Py.bind].
  unfold GradScaler.update, GradScaler.settled.
  cbn [GradScaler.stage_ GradScaler.found_inf GradScaler.scale_factor
       GradScaler.growth_interval GradScaler.growth_tracker].
  destruct (negb (forallb isfinite (raw_grads st images labels)));
    [reflexivity|].
  destruct (GradScaler.growth_tracker (scaler st) + 1
            =? GradScaler.growth_interval (scaler st)); reflexivity.
Qed.

Lemma settled_ready (s : GradScaler.t) (found : bool) :
  GradScaler.stage_ (GradScaler.settled s found) = GradScaler.READY.
Proof.
  unfold GradScaler.settled. destruct found; [reflexivity|].
  now destruct (_ =? _).
Qed.

Lemma settled_interval (s : GradScaler.t) (found : bool) :
  GradScaler.growth_interval (GradScaler.settled s found) = GradScaler.growth_interval s.
Proof.
  unfold GradScaler.settled. destruct found; [reflexivity|].
  now destruct (_ =? _).
Qed.

End WithCollaborators.

End StepFacts.

(** A run of all-finite steps from a scaler at rest: the scale factor
    is untouched until the tracker reaches the growth interval, and is
    doubled once when it does. *)
Lemma scale_after_finite_steps {C : Collaborators} (cfg : Scheduler.config)
      (epoch W : nat) (bs : list (Images * list nat))
      (sa sa' : Pipeline.state * Accumulator.totals) :
  GradScaler.stage_ (Pipeline.scaler (fst sa)) = GradScaler.READY ->
  Forall (fun g => forallb isfinite g = true)
         (Pipeline.train_gradients cfg epoch W sa bs) ->
  foldM (Pipeline.train_step cfg epoch W) bs sa = Ok sa' ->
  GradScaler.growth_tracker (Pipeline.scaler (fst sa))
  < GradScaler.growth_interval (Pipeline.scaler (fst sa)) ->
  let s := Pipeline.scaler (fst sa) in
  let s' := Pipeline.scaler (fst sa') in
  let n := GradScaler.growth_interval s in
  let reached := GradScaler.growth_tracker s + length bs in
  GradScaler.stage_ s' = GradScaler.READY /\
  GradScaler.growth_interval s' = n /\
  (reached < n ->
   GradScaler.scale_factor s' = GradScaler.scale_factor s /\
   GradScaler.growth_tracker s' = reached) /\
  (n <= reached -> reached < 2 * n ->
   GradScaler.scale_factor s' = (GradScaler.scale_factor s * 2.0)%Q /\
   GradScaler.growth_tracker s' = reached - n).
Proof.
  revert sa; induction bs as [|[images labels] bs IH]; intros [st acc] Hready HF H Ht.
  - inversion H; subst; clear H. cbn [fst length] in *.
    repeat split; try assumption; intros; lia.
  - cbn [fst] in Hready, Ht. cbn [foldM] in H. bind_inv H. destruct x as [st1 acc1].
    cbn [Pipeline.train_gradients fst snd] in HF. rewrite Hx in HF.
    inversion HF as [|? ? Hfin HF']; subst; clear HF.
    destruct (StepFacts.train_step_ready cfg epoch W st acc images labels Hready)
      as (g1 & Estep & _).
    rewrite Estep in Hx. bind_inv Hx. inversion Hx; subst st1 acc1; clear Hx.
    rewrite Hfin in H, HF'. cbn [negb] in H, HF'.
    match type of H with
    | foldM _ _ (?s1, _) = _ => set (st1 := s1) in *
    end.
    assert (Hready1 : GradScaler.stage_ (Pipeline.scaler (fst (st1, x))) = GradScaler.READY)
      by apply StepFacts.settled_ready.
    specialize (IH (st1, x) Hready1 HF' H).
    cbn [fst length] in *.
    unfold st1 in IH; cbn [Pipeline.scaler] in IH.
    unfold GradScaler.settled in IH.
    destruct (GradScaler.growth_tracker (Pipeline.scaler st) + 1
              =? GradScaler.growth_interval (Pipeline.scaler st)) eqn:E;
      cbn [GradScaler.growth_tracker GradScaler.growth_interval
           GradScaler.scale_factor] in IH.
    + apply Nat.eqb_eq in E.
      destruct (IH ltac:(lia)) as (R1 & R2 & R3 & R4).
      repeat split; try assumption; intros.
      * lia.
      * lia.
      * destruct R3 as [-> _]; [lia | reflexivity].
      * destruct R3 as [_ ->]; lia.
    + apply Nat.eqb_neq in E.
      destruct (IH ltac:(lia)) as (R1 & R2 & R3 & R4).
      repeat split; try assumption; intros.
      * now destruct R3 as [-> _]; [lia|].
      * destruct R3 as [_ ->]; lia.
      * now destruct R4 as [-> _]; [lia | lia |].
      * destruct R4 as [_ ->]; lia.
Qed.

(** C8.  A step whose gradients hold a non-finite value leaves the
    parameters as they were and halves the scale factor, whichever way
    the clipping gate goes; a run of [growth_interval] consecutive steps
    with finite gradients doubles the scale factor. *)
Theorem nonfinite_step_is_skipped_and_scale_adapts :
  forall (C : Collaborators),
    (forall (cfg : Scheduler.config) (epoch W : nat) (st : Pipeline.state)
            (acc : Accumulator.totals) (images : Images) (labels : list nat),
        GradScaler.stage_ (Pipeline.scaler st) = GradScaler.READY ->
        forallb isfinite (Pipeline.raw_grads st images labels) = false ->
        Forall (fun row => 5 <= length row) (model true (Pipeline.params st) images) ->
        exists st' acc',
          Pipeline.train_step cfg epoch W (st, acc) (images, labels) = Ok (st', acc') /\
          Pipeline.params st' = Pipeline.params st /\
          GradScaler.scale_factor (Pipeline.scaler st')
          = (GradScaler.scale_factor (Pipeline.scaler st) * 0.5)%Q)
    /\
    (forall (cfg : Scheduler.config) (epoch W : nat) (bs : list (Images * list nat))
            (sa sa' : Pipeline.state * Accumulator.totals),
        GradScaler.stage_ (Pipeline.scaler (fst sa)) = GradScaler.READY ->
        GradScaler.growth_tracker (Pipeline.scaler (fst sa))
        < GradScaler.growth_interval (Pipeline.scaler (fst sa)) ->
        length bs = GradScaler.growth_interval (Pipeline.scaler (fst sa)) ->
        Forall (fun g => forallb isfinite g = true)
               (Pipeline.train_gradients cfg epoch W sa bs) ->
        foldM (Pipeline.train_step cfg epoch W) bs sa = Ok sa' ->
        GradScaler.scale_factor (Pipeline.scaler (fst sa'))
        = (GradScaler.scale_factor (Pipeline.scaler (fst sa)) * 2.0)%Q).
Proof.
  intros C. split.
  - intros cfg epoch W st acc images labels Hready Hinf Hrows.
    destruct (StepFacts.train_step_ready cfg epoch W st acc images labels Hready)
      as (g1 & Estep & _).
    rewrite Estep, Hinf. cbn [negb Pipeline.observe Accumulator.consume].
    rewrite (AccumulatorFacts.accumulate_Ok _ _ _ _ Hrows). cbn [Py.bind].
    eexists. eexists. split; [reflexivity|]. split; reflexivity.
  - intros cfg epoch W bs sa sa' Hready Ht Hlen HF H.
    destruct (scale_after_finite_steps cfg epoch W bs sa sa' Hready HF H Ht)
      as (_ & _ & _ & Hgrow).
    apply Hgrow; lia.
Qed.

Lemma nonfinite_step_is_skipped_and_scale_adapts_witness :
  (exists st' acc',
      Pipeline.train_step (C := Scripted.collaborators) (Pipeline.schedule 36 3) 0 1
        (Scripted.start, Accumulator.zero) Scripted.overflow_batch = Ok (st', acc') /\
      Pipeline.params st' = Pipeline.params Scripted.start /\
      GradScaler.scale_factor (Pipeline.scaler st')
      = (GradScaler.scale_factor (Pipeline.scaler Scripted.start) * 0.5)%Q)
  /\
  (exists sa',
      foldM (Pipeline.train_step (C := Scripted.collaborators) (Pipeline.schedule 36 3) 0 1)
            [Scripted.finite_batch; Scripted.finite_batch]
            (Scripted.quick_growth, Accumulator.zero) = Ok sa' /\
      GradScaler.scale_factor (Pipeline.scaler (fst sa'))
      = (GradScaler.scale_factor (Pipeline.scaler Scripted.quick_growth) * 2.0)%Q).
Proof.
  pose proof (nonfinite_step_is_skipped_and_scale_adapts Scripted.collaborators)
    as (Hskip & Hgrow).
  split.
  - apply (Hskip (Pipeline.schedule 36 3) 0 1 Scripted.start Accumulator.zero
                 (fst Scripted.overflow_batch) (snd Scripted.overflow_batch)).
    + reflexivity.
    + reflexivity.
    + repeat constructor; simpl; lia.
  - eexists. split; [vm_compute; reflexivity|].
    apply (Hgrow (Pipeline.schedule 36 3) 0 1
                 [Scripted.finite_batch; Scripted.finite_batch]
                 (Scripted.quick_growth, Accumulator.zero)).
    + reflexivity.
    + simpl; lia.
    + reflexivity.
    + vm_compute. repeat constructor.
    + vm_compute. reflexivity.
Defined.

(* ================================================================== *)
(** * Skipped steps, the scheduler and the running totals *)

(** C5, as the code has it.  A step whose optimizer update is skipped
    because of a non-finite gradient still advances the scheduler
    (the counter moves by one and the next rate is written) and still
    adds the batch to the running totals: the loss times the batch
    size, the batch size and the top-1 and top-5 hits. *)
Theorem skipped_step_still_counts :
  forall (C : Collaborators) (cfg : Scheduler.config) (epoch W : nat)
         (st : Pipeline.state) (acc : Accumulator.totals)
         (images : Images) (labels : list nat),
    GradScaler.stage_ (Pipeline.scaler st) = GradScaler.READY ->
    forallb isfinite (Pipeline.raw_grads st images labels) = false ->
    Forall (fun row => 5 <= length row) (model true (Pipeline.params st) images) ->
    exists st' acc',
      Pipeline.train_step cfg epoch W (st, acc) (images, labels) = Ok (st', acc') /\
      Pipeline.params st' = Pipeline.params st /\
      Pipeline.step_count st' = S (Pipeline.step_count st) /\
      Pipeline.lr st' = Scheduler.get_lr cfg (Pipeline.step_count st) /\
      acc' = Reference.after_batch acc (model true (Pipeline.params st) images) labels
               (criterion (model true (Pipeline.params st) images) labels).
Proof.
  intros C cfg epoch W st acc images labels Hready Hinf Hrows.
  destruct (StepFacts.train_step_ready cfg epoch W st acc images labels Hready)
    as (g1 & Estep & _).
  rewrite Estep, Hinf. cbn [negb Pipeline.observe Accumulator.consume].
  rewrite (AccumulatorFacts.accumulate_Ok _ _ _ _ Hrows). cbn [Py.bind].
  eexists. eexists. split; [reflexivity|]. repeat split.
Qed.

Lemma skipped_step_still_counts_witness :
  exists st' acc',
    Pipeline.train_step (C := Scripted.collaborators) (Pipeline.schedule 36 3) 0 1
      (Scripted.start, Accumulator.zero) Scripted.overflow_batch = Ok (st', acc') /\
    Pipeline.params st' = Pipeline.params Scripted.start /\
    Pipeline.step_count st' = S (Pipeline.step_count Scripted.start) /\
    Pipeline.lr st' = Scheduler.get_lr (Pipeline.schedule 36 3)
                                       (Pipeline.step_count Scripted.start) /\
    acc' = Reference.after_batch Accumulator.zero
             [Scripted.row; Scripted.row] [3; 1] 1%Q.
Proof.
  apply (skipped_step_still_counts Scripted.collaborators (Pipeline.schedule 36 3) 0 1
           Scripted.start Accumulator.zero
           (fst Scripted.overflow_batch) (snd Scripted.overflow_batch)).
  - reflexivity.
  - reflexivity.
  - repeat constructor; simpl; lia.
Defined.

(** C5 as stated fails: on the scripted run, the first step of the
    first epoch meets an overflowed gradient and is skipped, yet the
    scheduler counter and the sample count both move. *)
Lemma skipped_step_does_not_freeze_scheduler_and_totals :
  ~ (forall (C : Collaborators) (cfg : Scheduler.config) (epoch W : nat)
            (st st' : Pipeline.state) (acc acc' : Accumulator.totals)
            (images : Images) (labels : list nat),
        GradScaler.stage_ (Pipeline.scaler st) = GradScaler.READY ->
        forallb isfinite (Pipeline.raw_grads st images labels) = false ->
        Pipeline.train_step cfg epoch W (st, acc) (images, labels) = Ok (st', acc') ->
        Pipeline.step_count st' = Pipeline.step_count st /\ acc' = acc).
Proof.
  intros claim.
  assert (E : exists st' acc',
             Pipeline.train_step (C := Scripted.collaborators) (Pipeline.schedule 36 3) 0 1
               (Scripted.start, Accumulator.zero) Scripted.overflow_batch = Ok (st', acc') /\
             Pipeline.step_count st' = 1 /\
             Accumulator.total_samples acc' = 2).
  { eexists. eexists. split; [vm_compute; reflexivity|]. split; reflexivity. }
  destruct E as (st' & acc' & E & Hcount & Hsamples).
  destruct (claim Scripted.collaborators (Pipeline.schedule 36 3) 0 1
                  Scripted.start st' Accumulator.zero acc'
                  (fst Scripted.overflow_batch) (snd Scripted.overflow_batch)
                  eq_refl eq_refl E) as [Hfrozen Hacc].
  rewrite Hcount in Hfrozen. discriminate.
Qed.

(* ================================================================== *)
(** * The clipping gate *)

(** The gate only ever opens after the scheduler has left warmup: with
    at least one batch per epoch the step counter at epoch [epoch] is
    at least [epoch * n_batches]. *)
Lemma clip_gate_past_warmup (epoch W n_batches i : nat) :
  Pipeline.clip_gate epoch W = true -> 0 < n_batches ->
  W < epoch * n_batches + i.
Proof.
  unfold Pipeline.clip_gate. intros H Hn. apply Nat.ltb_lt in H. nia.
Qed.

(** With a hundred batches or more per epoch the gate stays shut for
    the whole run of [NUM_EPOCHS] epochs. *)
Lemma clip_gate_never_opens (n_batches epoch : nat) :
  100 <= n_batches -> epoch < NUM_EPOCHS ->
  Pipeline.clip_gate epoch
    (Scheduler.warmup_steps (Pipeline.schedule NUM_EPOCHS n_batches)) = false.
Proof.
  intros Hn He. unfold Pipeline.clip_gate, Pipeline.schedule, NUM_EPOCHS in *.
  cbn [Scheduler.warmup_steps]. apply Nat.ltb_ge.
  transitivity 36; [lia|].
  apply Nat.div_le_lower_bound; lia.
Qed.

(** C1, the code at a failing input.  With three batches per epoch and
    [NUM_EPOCHS = 36] the schedule has 108 steps, one of them warmup.
    At step counter 1 the scheduler is past warmup (it takes the cosine
    branch), but the gate of line 180 compares the epoch index 0 (and,
    for steps 3 to 5, the epoch index 1) with [WARMUP_STEPS = 1]: the
    gradients reach [scaler.step] as [backward()] left them, and on the
    scripted run the second step of the first epoch stores the merely
    unscaled gradient, not the clipped one.  At ImageNet size (5005
    batches per epoch) the gate opens at no epoch of the run. *)
Theorem clip_gate_compares_epoch_with_steps :
  forall (C : Collaborators),
    Scheduler.warmup_steps (Pipeline.schedule NUM_EPOCHS 3) = 1
    /\ (1 <? Scheduler.warmup_steps (Pipeline.schedule NUM_EPOCHS 3)) = false
    /\ (forall (st : Pipeline.state) (images : Images) (labels : list nat),
           Pipeline.prepare_grads 0 1 st images labels
           = Ok (Pipeline.scaler st, Pipeline.raw_grads st images labels)
           /\
           Pipeline.prepare_grads 1 1 st images labels
           = Ok (Pipeline.scaler st, Pipeline.raw_grads st images labels))
    /\ (exists sa1 sa2,
           Pipeline.train_step (C := Scripted.collaborators)
             (Pipeline.schedule NUM_EPOCHS 3) 0 1
             (Scripted.start, Accumulator.zero) Scripted.finite_batch = Ok sa1 /\
           Pipeline.step_count (fst sa1) = 1 /\
           Pipeline.train_step (C := Scripted.collaborators)
             (Pipeline.schedule NUM_EPOCHS 3) 0 1 sa1 Scripted.finite_batch = Ok sa2 /\
           Pipeline.grad (fst sa2) = [Finite (1 / 65536)%Q] /\
           clip_grad_norm_ (Collaborators := Scripted.collaborators) 1.0%Q
                           [Finite (1 / 65536)%Q] = [Finite 1.0%Q])
    /\ forallb (fun epoch =>
                  negb (Pipeline.clip_gate epoch
                          (Scheduler.warmup_steps (Pipeline.schedule NUM_EPOCHS 5005))))
               (seq 0 NUM_EPOCHS) = true.
Proof.
  intros C. split; [reflexivity|]. split; [reflexivity|]. split; [|split].
  - intros st images labels. split; reflexivity.
  - eexists. eexists.
    split; [vm_compute; reflexivity|]. split; [reflexivity|].
    split; [vm_compute; reflexivity|]. split; reflexivity.
  - vm_compute. reflexivity.
Qed.

(* ================================================================== *)
(** * The learning-rate schedule *)

Module SchedulerFacts.

Import Scheduler.

Local Open Scope R_scope.

Lemma clamp01_range (x : R) : 0 <= clamp01 x <= 1.
Proof.
  unfold clamp01, Rmin, Rmax.
  destruct (Rle_dec x 0); destruct (Rle_dec _ 1); lra.
Qed.

Lemma clamp01_id (x : R) : 0 <= x <= 1 -> clamp01 x = x.
Proof.
  intros H. unfold clamp01, Rmin, Rmax.
  destruct (Rle_dec x 0); destruct (Rle_dec _ 1); lra.
Qed.

Lemma clamp01_mono (x y : R) : x <= y -> clamp01 x <= clamp01 y.
Proof.
  intros H. unfold clamp01, Rmin, Rmax.
  destruct (Rle_dec x 0); destruct (Rle_dec y 0);
    repeat match goal with |- context [Rle_dec ?a ?b] => destruct (Rle_dec a b) end; lra.
Qed.

Lemma denominator_pos (c : config) :
  0 < IZR (Z.max 1 (Z.of_nat (total_steps c) - Z.of_nat (warmup_steps c))).
Proof. apply IZR_lt. lia. Qed.

Lemma div_lt_1 (a d : R) : 0 < d -> a < d -> a / d < 1.
Proof.
  intros Hd Ha. unfold Rdiv.
  pose proof (Rinv_0_lt_compat d Hd) as Hi.
  assert (E : d * / d = 1) by (field; lra). nra.
Qed.

Lemma div_le_self (a d : R) : 0 <= a -> 1 <= d -> a / d <= a.
Proof.
  intros Ha Hd. unfold Rdiv.
  assert (Hi : 0 < / d) by (apply Rinv_0_lt_compat; lra).
  assert (E : d * / d = 1) by (field; lra). nra.
Qed.

Lemma progress_mono (c : config) (s : nat) : progress c s <= progress c (S s).
Proof.
  unfold progress. pose proof (denominator_pos c) as Hd.
  apply Rmult_le_compat_r; [left; now apply Rinv_0_lt_compat|].
  apply IZR_le. lia.
Qed.

Lemma progress_range (c : config) (s : nat) :
  (warmup_steps c <= s)%nat -> (s < total_steps c)%nat -> 0 <= progress c s < 1.
Proof.
  intros Hw Ht. unfold progress. pose proof (denominator_pos c) as Hd.
  split.
  - apply Rmult_le_pos; [apply IZR_le; lia | left; now apply Rinv_0_lt_compat].
  - apply div_lt_1; [exact Hd|]. apply IZR_lt. lia.
Qed.

Lemma progress_as_reals (c : config) (s : nat) :
  progress c s =
  (INR s - INR (warmup_steps c))
  / Rmax 1 (INR (total_steps c) - INR (warmup_steps c)).
Proof.
  unfold progress. rewrite !INR_IZR_INZ, <- !minus_IZR. f_equal.
  unfold Rmax. destruct (Rle_dec 1 _) as [H|H].
  - apply le_IZR in H. now rewrite Z.max_r.
  - rewrite Z.max_l; [reflexivity|].
    apply Rnot_le_lt, lt_IZR in H. lia.
Qed.

Lemma get_lr_warmup (c : config) (s : nat) :
  (s < warmup_steps c)%nat ->
  get_lr c s = base_lr c * (INR s + 1) / INR (warmup_steps c).
Proof.
  intros H. unfold get_lr. apply Nat.ltb_lt in H. now rewrite H.
Qed.

Lemma get_lr_cosine (c : config) (s : nat) :
  (warmup_steps c <= s)%nat ->
  get_lr c s = base_lr c * 0.5 * (1 + cos (PI * clamp01 (progress c s))).
Proof.
  intros H. unfold get_lr. apply Nat.ltb_ge in H. now rewrite H.
Qed.

Lemma get_lr_end_of_warmup (c : config) :
  (0 < warmup_steps c)%nat -> get_lr c (warmup_steps c - 1) = base_lr c.
Proof.
  intros H. rewrite get_lr_warmup by lia.
  replace (INR (warmup_steps c - 1) + 1) with (INR (warmup_steps c)).
  - field. apply not_0_INR. lia.
  - rewrite minus_INR by lia. simpl. lra.
Qed.

Lemma get_lr_start_of_cosine (c : config) : get_lr c (warmup_steps c) = base_lr c.
Proof.
  rewrite get_lr_cosine by lia.
  assert (E : progress c (warmup_steps c) = 0).
  { unfold progress. rewrite Z.sub_diag. unfold Rdiv. apply Rmult_0_l. }
  rewrite E, clamp01_id by lra. rewrite Rmult_0_r, cos_0. lra.
Qed.

Lemma warmup_nondecreasing (c : config) (s : nat) :
  0 <= base_lr c -> (s < warmup_steps c)%nat -> get_lr c s <= get_lr c (S s).
Proof.
  intros Hb Hs.
  assert (Hw : 0 < INR (warmup_steps c)) by (apply lt_0_INR; lia).
  destruct (Nat.eq_dec (S s) (warmup_steps c)) as [E|E].
  - rewrite E, get_lr_start_of_cosine.
    replace s with (warmup_steps c - 1)%nat by lia.
    rewrite get_lr_end_of_warmup by lia. lra.
  - rewrite !get_lr_warmup by lia. rewrite S_INR.
    unfold Rdiv. apply Rmult_le_compat_r; [left; now apply Rinv_0_lt_compat|].
    apply Rmult_le_compat_l; lra.
Qed.

Lemma cosine_nonincreasing (c : config) (s : nat) :
  0 <= base_lr c -> (warmup_steps c <= s)%nat -> get_lr c (S s) <= get_lr c s.
Proof.
  intros Hb Hs. rewrite !get_lr_cosine by lia.
  pose proof (clamp01_range (progress c s)) as R1.
  pose proof (clamp01_range (progress c (S s))) as R2.
  pose proof (clamp01_mono _ _ (progress_mono c s)) as M.
  pose proof PI_RGT_0 as Hpi.
  assert (Hcos : cos (PI * clamp01 (progress c (S s)))
                 <= cos (PI * clamp01 (progress c s))).
  { apply cos_decr_1; try nra. }
  nra.
Qed.

Lemma one_minus_cos_le (x : R) : 0 <= x <= PI -> 1 - cos x <= x * x / 2.
Proof.
  intros [H0 Hpi].
  replace x with (2 * (x / 2)) at 1 by field.
  rewrite cos_2a_sin.
  assert (Hs0 : 0 <= sin (x / 2)) by (apply sin_ge_0; lra).
  assert (Hsx : sin (x / 2) <= x / 2).
  { destruct (Req_dec x 0) as [->|Hx].
    - replace (0 / 2) with 0 by field. rewrite sin_0. lra.
    - left. apply sin_lt_x. lra. }
  nra.
Qed.

Lemma get_lr_last_step (c : config) :
  0 <= base_lr c -> (warmup_steps c < total_steps c)%nat ->
  0 <= get_lr c (total_steps c - 1)
  <= base_lr c * (PI / INR (total_steps c - warmup_steps c))
     * (PI / INR (total_steps c - warmup_steps c)) / 4.
Proof.
  intros Hb Hlt. rewrite get_lr_cosine by lia.
  pose proof (progress_range c (total_steps c - 1) ltac:(lia) ltac:(lia)) as Hr.
  rewrite clamp01_id by lra. clear Hr.
  set (n := INR (total_steps c - warmup_steps c)).
  assert (Hn : 1 <= n).
  { unfold n. change 1 with (INR 1). apply le_INR. lia. }
  assert (E : progress c (total_steps c - 1) = 1 - 1 / n).
  { rewrite progress_as_reals. unfold n.
    rewrite !minus_INR by lia. cbn [INR].
    assert (Hd : 1 <= INR (total_steps c) - INR (warmup_steps c)).
    { rewrite <- minus_INR by lia. exact Hn. }
    rewrite Rmax_right by exact Hd. field. lra. }
  rewrite E.
  replace (PI * (1 - 1 / n)) with (- (PI / n) + PI) by (field; lra).
  rewrite neg_cos, cos_neg.
  pose proof PI_RGT_0 as Hpi.
  assert (Hx : 0 <= PI / n <= PI).
  { split.
    - apply Rmult_le_pos; [lra | left; apply Rinv_0_lt_compat; lra].
    - apply div_le_self; lra. }
  pose proof (one_minus_cos_le _ Hx) as Hb2.
  pose proof (COS_bound (PI / n)) as Hc.
  split; nra.
Qed.

End SchedulerFacts.

(** C4.  For a non-negative base rate: at a counter below
    [warmup_steps] the rate written is [base_lr * (s + 1) / warmup_steps];
    from [warmup_steps] up to the last step it is
    [base_lr * 0.5 * (1 + cos (PI * progress))] with
    [progress = (s - warmup_steps) / max(1, total_steps - warmup_steps)],
    which lies in [0, 1) there, so that the clamp leaves it alone.  The
    warmup rates do not decrease and end at [base_lr]; the cosine rates
    do not increase and the last one is at most
    [base_lr * (PI / (total_steps - warmup_steps))^2 / 4].  Every
    completed training step writes the rate of its counter value and
    moves the counter by one. *)
Theorem warmup_cosine_schedule :
  forall c : Scheduler.config,
    (0 <= Scheduler.base_lr c)%R ->
    (forall s : nat,
        s < Scheduler.warmup_steps c ->
        Scheduler.advance c s =
        ((Scheduler.base_lr c * (INR s + 1) / INR (Scheduler.warmup_steps c))%R, S s))
    /\
    (forall s : nat,
        Scheduler.warmup_steps c <= s -> s < Scheduler.total_steps c ->
        Scheduler.advance c s =
        ((Scheduler.base_lr c * 0.5 * (1 + cos (PI * Scheduler.progress c s)))%R, S s)
        /\ (0 <= Scheduler.progress c s < 1)%R
        /\ Scheduler.progress c s =
           ((INR s - INR (Scheduler.warmup_steps c))
            / Rmax 1 (INR (Scheduler.total_steps c) - INR (Scheduler.warmup_steps c)))%R)
    /\
    (forall s : nat,
        s < Scheduler.warmup_steps c ->
        (Scheduler.get_lr c s <= Scheduler.get_lr c (S s))%R)
    /\
    (0 < Scheduler.warmup_steps c ->
     Scheduler.get_lr c (Scheduler.warmup_steps c - 1) = Scheduler.base_lr c)
    /\
    (forall s : nat,
        Scheduler.warmup_steps c <= s ->
        (Scheduler.get_lr c (S s) <= Scheduler.get_lr c s)%R)
    /\
    (Scheduler.warmup_steps c < Scheduler.total_steps c ->
     (0 <= Scheduler.get_lr c (Scheduler.total_steps c - 1)
      <= Scheduler.base_lr c
         * (PI / INR (Scheduler.total_steps c - Scheduler.warmup_steps c))
         * (PI / INR (Scheduler.total_steps c - Scheduler.warmup_steps c)) / 4)%R)
    /\
    (forall (C : Collaborators) (epoch W : nat) (st st' : Pipeline.state)
            (acc acc' : Accumulator.totals) (batch : Images * list nat),
        Pipeline.train_step c epoch W (st, acc) batch = Ok (st', acc') ->
        (Pipeline.lr st', Pipeline.step_count st')
        = Scheduler.advance c (Pipeline.step_count st)).
Proof.
  intros c Hb. repeat apply conj.
  - intros s Hs. unfold Scheduler.advance.
    now rewrite SchedulerFacts.get_lr_warmup.
  - intros s Hw Ht.
    pose proof (SchedulerFacts.progress_range c s Hw Ht) as Hr.
    split; [|split; [exact Hr | apply SchedulerFacts.progress_as_reals]].
    unfold Scheduler.advance.
    rewrite SchedulerFacts.get_lr_cosine by exact Hw.
    rewrite SchedulerFacts.clamp01_id by lra. reflexivity.
  - intros s Hs. now apply SchedulerFacts.warmup_nondecreasing.
  - apply SchedulerFacts.get_lr_end_of_warmup.
  - intros s Hs. now apply SchedulerFacts.cosine_nonincreasing.
  - intros Hlt. now apply SchedulerFacts.get_lr_last_step.
  - intros C epoch W st st' acc acc' [images labels] H.
    apply PipelineFacts.train_step_inv in H
      as (sc & g & sc1 & g1 & p1 & sc2 & _ & _ & _ & _ & ->).
    reflexivity.
Qed.

Lemma warmup_cosine_schedule_witness :
  let c := {| Scheduler.total_steps := 20; Scheduler.warmup_steps := 5;
              Scheduler.base_lr := 0.08%R |} in
  Scheduler.get_lr c 4 = 0.08%R /\
  (Scheduler.get_lr c 3 <= Scheduler.get_lr c 4)%R /\
  (Scheduler.get_lr c 11 <= Scheduler.get_lr c 10)%R /\
  (0 <= Scheduler.get_lr c 19 <= 0.08 * (PI / INR 15) * (PI / INR 15) / 4)%R.
Proof.
  intros c.
  assert (Hb : (0 <= Scheduler.base_lr c)%R) by (simpl; lra).
  destruct (warmup_cosine_schedule c Hb)
    as (_ & _ & Hup & Hend & Hdown & Hlast & _).
  split; [|split; [|split]].
  - apply Hend. simpl; lia.
  - apply (Hup 3). simpl; lia.
  - apply (Hdown 10). simpl; lia.
  - apply Hlast. simpl; lia.
Defined.


(* ================================================================== *)
(** * Further properties of the run *)

Module RunFacts.

Import Accumulator Pipeline.

Section WithCollaborators.

Context {C : Collaborators}.

(** The inner loop advances the counter once per batch. *)
Lemma train_fold_step_count (cfg : Scheduler.config) (epoch W : nat)
      (bs : list (Images * list nat)) (sa sa' : state * totals) :
  foldM (train_step cfg epoch W) bs sa = Ok sa' ->
  step_count (fst sa') = step_count (fst sa) + length bs.
Proof.
  revert sa; induction bs as [|[images labels] bs IH]; intros [st acc] H.
  - inversion H; subst. cbn [fst length]. lia.
  - cbn [foldM] in H. bind_inv H. destruct x as [st1 acc1].
    rewrite (IH _ H). cbn [fst length].
    apply PipelineFacts.train_step_inv in Hx
      as (sc & g & sc1 & g1 & p1 & sc2 & _ & _ & _ & _ & ->).
    cbn [step_count]. lia.
Qed.

(** The end of an epoch leaves the optimizer, the scaler and the
    scheduler alone. *)
Lemma record_epoch_frame (num_epochs : nat) (u : Z) (test_loader : DataLoader Images)
      (epoch : nat) (current_lr : R) (st st' : state) (train_rec : EpochRecord) :
  record_epoch num_epochs u test_loader epoch current_lr st train_rec = Ok st' ->
  params st' = params st /\ lr st' = lr st /\ scaler st' = scaler st /\
  step_count st' = step_count st.
Proof.
  unfold record_epoch. intros H. bind_inv H.
  destruct (x =? 0)%Z; bind_inv H; inversion H; subst; cbn; auto.
Qed.

Lemma epoch_body_step_count (cfg : Scheduler.config) (num_epochs W : nat) (u : Z)
      (train_loader test_loader : DataLoader Images) (st st' : state) (epoch : nat) :
  epoch_body cfg num_epochs W u train_loader test_loader st epoch = Ok st' ->
  step_count st' = step_count st + length (batches train_loader epoch).
Proof.
  unfold epoch_body. intros H. bind_inv H. destruct x as [st1 train_rec].
  apply record_epoch_frame in H as (_ & _ & _ & ->).
  unfold train_epoch in Hx. bind_inv Hx. destruct x as [st2 acc].
  bind_inv Hx. inversion Hx; subst; clear Hx.
  apply train_fold_step_count in Hx0. cbn [fst show_train_bar step_count] in Hx0.
  exact Hx0.
Qed.

Lemma batches_before_S (train_loader : DataLoader Images) (n : nat) :
  batches_before train_loader (S n)
  = batches_before train_loader n + length (batches train_loader n).
Proof.
  unfold batches_before. rewrite seq_S, map_app, list_sum_app. cbn. lia.
Qed.

Lemma batches_before_constant (train_loader : DataLoader Images) (n : nat) :
  (forall epoch, epoch < n -> length (batches train_loader epoch) = len train_loader) ->
  batches_before train_loader n = n * len train_loader.
Proof.
  induction n as [|n IH]; intros H; [reflexivity|].
  rewrite batches_before_S, IH, H by (intros; try apply H; lia). lia.
Qed.

Lemma run_step_count (num_epochs : nat) (u : Z)
      (train_loader test_loader : DataLoader Images) (n : nat) (st0 st : state) :
  run_epochs num_epochs u train_loader test_loader n st0 = Ok st ->
  step_count st = step_count st0 + batches_before train_loader n.
Proof.
  revert st; induction n as [|n IH]; intros st H.
  - inversion H; subst. cbn. lia.
  - rewrite CadenceFacts.run_epochs_S in H. bind_inv H.
    apply epoch_body_step_count in H. rewrite H, (IH _ Hx), batches_before_S. lia.
Qed.

End WithCollaborators.

End RunFacts.

(** X1.  The scheduler is stepped once per training batch: after the
    first [n] epochs of a run its counter is the number of batches
    iterated so far.  When every traversal of the loader yields
    [len(train_loader)] batches, that is [n * len(train_loader)], so
    the counter stays within [NUM_STEPS] during the run and equals it
    once all [num_epochs] epochs are done. *)
Theorem scheduler_counter_tracks_batches :
  forall (C : Collaborators) (num_epochs : nat) (u : Z)
         (train_loader test_loader : DataLoader Images) (p : Params)
         (n : nat) (st : Pipeline.state),
    Pipeline.run_epochs num_epochs u train_loader test_loader n (Pipeline.initial p)
    = Ok st ->
    Pipeline.step_count st = Pipeline.batches_before train_loader n
    /\
    ((forall epoch, epoch < n ->
                    length (batches train_loader epoch) = len train_loader) ->
     Pipeline.step_count st = n * len train_loader
     /\ (n <= num_epochs ->
         Pipeline.step_count st
         <= Scheduler.total_steps (Pipeline.schedule num_epochs (len train_loader)))
     /\ (n = num_epochs ->
         Pipeline.step_count st
         = Scheduler.total_steps (Pipeline.schedule num_epochs (len train_loader)))).
Proof.
  intros C num_epochs u train_loader test_loader p n st H.
  apply RunFacts.run_step_count in H. cbn [Pipeline.initial Pipeline.step_count] in H.
  rewrite Nat.add_0_l in H. split; [exact H|].
  intros Hlen. rewrite (RunFacts.batches_before_constant _ _ Hlen) in H.
  unfold Pipeline.schedule; cbn [Scheduler.total_steps].
  split; [exact H|]. split; intros Hn; rewrite H; [nia | subst; lia].
Qed.

Lemma scheduler_counter_tracks_batches_witness :
  exists st,
    Pipeline.run_epochs (C := Scripted.collaborators) 2 1
      (Scripted.loader [Scripted.finite_batch; Scripted.overflow_batch])
      (Scripted.loader [Scripted.finite_batch]) 2 Scripted.start = Ok st /\
    Pipeline.step_count st = 2 * 2 /\
    Pipeline.step_count st
    = Scheduler.total_steps (Pipeline.schedule 2 2).
Proof.
  eexists. split; [vm_compute; reflexivity|].
  destruct (scheduler_counter_tracks_batches Scripted.collaborators 2 1%Z
              (Scripted.loader [Scripted.finite_batch; Scripted.overflow_batch])
              (Scripted.loader [Scripted.finite_batch]) 0 2 _
              ltac:(vm_compute; reflexivity)) as (_ & Hconst).
  destruct Hconst as (Hn & _ & Hend); [intros; reflexivity|].
  split; [exact Hn | apply Hend; reflexivity].
Defined.


(* ================================================================== *)
(** * The histories along a run *)

Lemma count_evals_S (u : Z) (n : nat) :
  Pipeline.count_evals u (S n)
  = Pipeline.count_evals u n + (if (Z.of_nat n mod u =? 0)%Z then 1 else 0).
Proof.
  unfold Pipeline.count_evals. rewrite seq_S, filter_app, length_app. cbn.
  now destruct (Z.of_nat n mod u =? 0)%Z.
Qed.

Lemma count_evals_bounds (u : Z) (n : nat) :
  1 <= Pipeline.count_evals u (S n) <= S n.
Proof.
  split.
  - induction n as [|n IH]; [|rewrite count_evals_S; lia].
    unfold Pipeline.count_evals. cbn [seq filter Z.of_nat].
    rewrite Zmod_0_l. cbn. lia.
  - unfold Pipeline.count_evals.
    etransitivity; [apply filter_length_le|]. now rewrite length_seq.
Qed.

Lemma epoch_lines_app (l1 l2 : list event) :
  length (filter Pipeline.is_epoch_line (l1 ++ l2)) =
  length (filter Pipeline.is_epoch_line l1)
  + length (filter Pipeline.is_epoch_line l2).
Proof. now rewrite filter_app, length_app. Qed.

(** X2.  Whatever the evaluation interval, after the first [n] epochs
    of a run every key of the training history holds [n] entries, every
    key of the test history holds as many entries as there were epochs
    with [epoch % update_step == 0], [validate] has run that many
    times, and one line per epoch has been printed.  The first epoch
    always evaluates, so this number is at least one. *)
Theorem histories_grow_with_cadence :
  forall (C : Collaborators) (num_epochs : nat) (u : Z)
         (train_loader test_loader : DataLoader Images) (p : Params)
         (n : nat) (st : Pipeline.state),
    Pipeline.run_epochs num_epochs u train_loader test_loader n (Pipeline.initial p)
    = Ok st ->
    Metrics.has_length (Pipeline.train_metrics st) n /\
    Metrics.has_length (Pipeline.test_metrics st) (Pipeline.count_evals u n) /\
    length (filter Pipeline.is_validation_bar (Pipeline.console st))
    = Pipeline.count_evals u n /\
    length (filter Pipeline.is_epoch_line (Pipeline.console st)) = n /\
    (0 < n -> 1 <= Pipeline.count_evals u n <= n).
Proof.
  intros C num_epochs u train_loader test_loader p n st H.
  assert (Hmain :
            Metrics.has_length (Pipeline.train_metrics st) n /\
            Metrics.has_length (Pipeline.test_metrics st) (Pipeline.count_evals u n) /\
            length (filter Pipeline.is_validation_bar (Pipeline.console st))
            = Pipeline.count_evals u n /\
            length (filter Pipeline.is_epoch_line (Pipeline.console st)) = n).
  { revert st H. induction n as [|n IH]; intros st H.
    - inversion H; subst. cbn. repeat split.
    - rewrite CadenceFacts.run_epochs_S in H. bind_inv H.
      destruct (IH _ Hx) as (Htrain & Htest & Hbars & Hlines).
      rewrite count_evals_S.
      apply CadenceFacts.epoch_body_inv in H
        as (st1 & train_rec & _ & _ & Happ
            & [(Hm & test_rec & _ & Ht & Hc) | (Hm & Ht & Hc)]).
      + rewrite Happ, Ht, Hc, validation_bars_app, epoch_lines_app, Hbars, Hlines.
        apply Z.eqb_eq in Hm. rewrite Hm.
        split; [now apply has_length_append|].
        split; [rewrite Nat.add_1_r; now apply has_length_append|].
        generalize (Pipeline.count_evals u n). intros k. cbn. lia.
      + rewrite Happ, Ht, Hc, validation_bars_app, epoch_lines_app, Hbars, Hlines.
        apply Z.eqb_neq in Hm. rewrite Hm, Nat.add_0_r.
        split; [now apply has_length_append|].
        split; [exact Htest|].
        generalize (Pipeline.count_evals u n). intros k. cbn. lia. }
  destruct Hmain as (H1 & H2 & H3 & H4).
  split; [exact H1|]. split; [exact H2|]. split; [exact H3|]. split; [exact H4|].
  intros Hn. destruct n as [|n']; [lia | apply count_evals_bounds].
Qed.

Lemma histories_grow_with_cadence_witness :
  exists st,
    Pipeline.run_epochs (C := Scripted.collaborators) 6 3
      (Scripted.loader [Scripted.finite_batch])
      (Scripted.loader [Scripted.finite_batch]) 6 Scripted.start = Ok st /\
    Metrics.has_length (Pipeline.train_metrics st) 6 /\
    Metrics.has_length (Pipeline.test_metrics st) 2 /\
    length (filter Pipeline.is_validation_bar (Pipeline.console st)) = 2 /\
    length (filter Pipeline.is_epoch_line (Pipeline.console st)) = 6.
Proof.
  eexists. split; [vm_compute; reflexivity|].
  destruct (histories_grow_with_cadence Scripted.collaborators 6 3%Z
              (Scripted.loader [Scripted.finite_batch])
              (Scripted.loader [Scripted.finite_batch]) 0 6 _
              ltac:(vm_compute; reflexivity)) as (H1 & H2 & H3 & H4 & _).
  repeat split; first [apply H1 | apply H2 | exact H3 | exact H4].
Defined.

(** X3.  The line an epoch prints always shows the last entries of the
    two histories as the epoch leaves them: the training record just
    appended, and for the test side the record just measured or, on an
    epoch without evaluation, the entry carried over (zeros while the
    test history is empty). *)
Theorem epoch_line_shows_latest_entries :
  forall (C : Collaborators) (cfg : Scheduler.config) (num_epochs W : nat) (u : Z)
         (train_loader test_loader : DataLoader Images)
         (st st' : Pipeline.state) (epoch : nat),
    Pipeline.epoch_body cfg num_epochs W u train_loader test_loader st epoch = Ok st' ->
    exists shown,
      Pipeline.console st' =
      Pipeline.console st ++ shown ++
      [EpochLine (epoch + 1) num_epochs (Pipeline.lr st)
                 (Pipeline.latest (Pipeline.train_metrics st'))
                 (Pipeline.latest (Pipeline.test_metrics st'))]
      /\ Forall (fun e => Pipeline.is_epoch_line e = false) shown.
Proof.
  intros C cfg num_epochs W u train_loader test_loader st st' epoch H.
  apply CadenceFacts.epoch_body_inv in H
    as (st1 & train_rec & _ & _ & Happ
        & [(Hm & test_rec & _ & Ht & Hc) | (Hm & Ht & Hc)]).
  - exists [Tqdm "Train"; Tqdm "Validation"].
    rewrite Happ, Ht, !CadenceFacts.latest_append, Hc.
    split; [reflexivity | repeat constructor].
  - exists [Tqdm "Train"].
    rewrite Happ, Ht, CadenceFacts.latest_append, Hc.
    split; [reflexivity | repeat constructor].
Qed.

Lemma epoch_line_shows_latest_entries_witness :
  exists st' shown,
    Pipeline.epoch_body (C := Scripted.collaborators) (Pipeline.schedule 6 1) 6 0 3
      (Scripted.loader [Scripted.finite_batch])
      (Scripted.loader [Scripted.finite_batch]) Scripted.start 1 = Ok st' /\
    Pipeline.console st' =
    Pipeline.console Scripted.start ++ shown ++
    [EpochLine (1 + 1) 6 (Pipeline.lr Scripted.start)
               (Pipeline.latest (Pipeline.train_metrics st'))
               (Pipeline.latest (Pipeline.test_metrics st'))]
    /\ Forall (fun e => Pipeline.is_epoch_line e = false) shown.
Proof.
  eexists.
  assert (E : Pipeline.epoch_body (C := Scripted.collaborators) (Pipeline.schedule 6 1)
                6 0 3 (Scripted.loader [Scripted.finite_batch])
                (Scripted.loader [Scripted.finite_batch]) Scripted.start 1 = Ok _)
    by (vm_compute; reflexivity).
  destruct (epoch_line_shows_latest_entries Scripted.collaborators _ _ _ _ _ _ _ _ _ E)
    as (shown & Hc & Hs).
  exists shown. split; [exact E|]. split; [exact Hc | exact Hs].
Defined.

Lemma percentages_ok_append (m : Metrics.t) (r : Accumulator.EpochRecord) :
  Metrics.percentages_ok m ->
  (0 <= Accumulator.top1 r)%Q /\ (Accumulator.top1 r <= Accumulator.top5 r)%Q
  /\ (Accumulator.top5 r <= 100)%Q ->
  Metrics.percentages_ok (Pipeline.append m r).
Proof.
  unfold Metrics.percentages_ok, Pipeline.append;
    cbn [Metrics.top1 Metrics.top5]. intros Hm Hr.
  apply Forall2_app; [exact Hm | repeat constructor; apply Hr].
Qed.

(** X4.  Along a run the histories only ever hold percentages: entry by
    entry, in the training and in the test history,
    [0 <= top1 <= top5 <= 100]. *)
Theorem histories_hold_percentages :
  forall (C : Collaborators) (num_epochs : nat) (u : Z)
         (train_loader test_loader : DataLoader Images) (p : Params)
         (n : nat) (st : Pipeline.state),
    Pipeline.run_epochs num_epochs u train_loader test_loader n (Pipeline.initial p)
    = Ok st ->
    Metrics.percentages_ok (Pipeline.train_metrics st) /\
    Metrics.percentages_ok (Pipeline.test_metrics st).
Proof.
  intros C num_epochs u train_loader test_loader p n.
  induction n as [|n IH]; intros st H.
  - inversion H; subst. split; constructor.
  - rewrite CadenceFacts.run_epochs_S in H. bind_inv H.
    destruct (IH _ Hx) as (Htrain & Htest).
    apply CadenceFacts.epoch_body_inv in H
      as (st1 & train_rec & Hrun & _ & Happ & Hcase).
    apply PipelineFacts.train_epoch_is_pass, PassFacts.pass_bounds in Hrun.
    rewrite Happ. split; [now apply percentages_ok_append|].
    destruct Hcase as [(_ & test_rec & Hv & -> & _) | (_ & -> & _)]; [|exact Htest].
    rewrite PipelineFacts.validate_is_pass in Hv.
    apply PassFacts.pass_bounds in Hv. now apply percentages_ok_append.
Qed.

Lemma histories_hold_percentages_witness :
  exists st,
    Pipeline.run_epochs (C := Scripted.collaborators) 6 3
      (Scripted.loader [Scripted.finite_batch])
      (Scripted.loader [Scripted.finite_batch]) 4 Scripted.start = Ok st /\
    Metrics.percentages_ok (Pipeline.train_metrics st) /\
    Metrics.percentages_ok (Pipeline.test_metrics st).
Proof.
  eexists. split; [vm_compute; reflexivity|].
  apply (histories_hold_percentages Scripted.collaborators 6 3%Z
           (Scripted.loader [Scripted.finite_batch])
           (Scripted.loader [Scripted.finite_batch]) 0 4).
  vm_compute. reflexivity.
Defined.


(* ================================================================== *)
(** * How a run can fail, and when it cannot *)

Module FailureFacts.

Import Accumulator Pipeline.

Lemma topk_Raise (outputs : list (list Q)) (e : exn) :
  Tensor.topk 5 outputs = Raise e -> e = RuntimeError.
Proof.
  unfold Tensor.topk. induction outputs as [|row rows IH]; cbn [mapM]; [discriminate|].
  unfold Tensor.topk_row at 1. destruct (length row <? 5); cbn [Py.bind].
  - intros H; now inversion H.
  - destruct (mapM (Tensor.topk_row 5) rows) as [pred|e']; cbn [Py.bind];
      [discriminate|]. intros H; inversion H; subst. now apply IH.
Qed.

Lemma consume_Raise (acc : totals) (o : observation) (e : exn) :
  consume acc o = Raise e -> e = RuntimeError.
Proof.
  destruct o as [[outputs labels] loss_item]. unfold consume, accumulate.
  destruct (Tensor.topk 5 outputs) as [pred|e'] eqn:E; cbn [Py.bind]; [discriminate|].
  intros H; inversion H; subst. now apply topk_Raise in E.
Qed.

Lemma fold_consume_Raise (stream : list observation) (acc : totals) (e : exn) :
  foldM consume stream acc = Raise e -> e = RuntimeError.
Proof.
  revert acc; induction stream as [|o rest IH]; intros acc; cbn [foldM]; [discriminate|].
  destruct (consume acc o) as [acc1|e'] eqn:E; cbn [Py.bind].
  - apply IH.
  - intros H; inversion H; subst. now apply consume_Raise in E.
Qed.

Lemma finalize_Raise (acc : totals) (e : exn) :
  finalize acc = Raise e -> e = ZeroDivisionError.
Proof.
  unfold finalize, Py.div.
  destruct (Qeq_bool (float_of_nat (total_samples acc)) 0); cbn [Py.bind];
    [intros H; now inversion H | discriminate].
Qed.

Lemma pass_Raise (stream : list observation) (e : exn) :
  pass stream = Raise e -> e = ZeroDivisionError \/ e = RuntimeError.
Proof.
  unfold pass. destruct (foldM consume stream zero) as [acc|e'] eqn:E; cbn [Py.bind].
  - intros H. left. now apply finalize_Raise in H.
  - intros H; inversion H; subst. right. now apply fold_consume_Raise in E.
Qed.

Section WithCollaborators.

Context {C : Collaborators}.

(** A step from a scaler at rest fails only in the accuracy code, and
    leaves the scaler at rest when it completes. *)
Lemma train_step_outcome (cfg : Scheduler.config) (epoch W : nat)
      (st : state) (acc : totals) (b : Images * list nat) :
  at_rest st ->
  match train_step cfg epoch W (st, acc) b with
  | Ok (st', acc') =>
      at_rest st' /\ total_samples acc' = total_samples acc + length (snd b)
  | Raise e => e = RuntimeError
  end.
Proof.
  intros Hready. destruct b as [images labels].
  destruct (StepFacts.train_step_ready cfg epoch W st acc images labels Hready)
    as (g1 & -> & _).
  destruct (consume acc (observe true (params st) (images, labels))) as [acc1|e] eqn:E;
    cbn [Py.bind].
  - split; [apply StepFacts.settled_ready|].
    cbn [observe consume] in E.
    apply AccumulatorFacts.accumulate_Ok_inv in E as [_ ->]. reflexivity.
  - now apply consume_Raise in E.
Qed.

Lemma train_fold_outcome (cfg : Scheduler.config) (epoch W : nat)
      (bs : list (Images * list nat)) (st : state) (acc : totals) :
  at_rest st ->
  match foldM (train_step cfg epoch W) bs (st, acc) with
  | Ok (st', acc') =>
      at_rest st' /\ total_samples acc' = total_samples acc + samples_in bs
  | Raise e => e = RuntimeError
  end.
Proof.
  revert st acc; induction bs as [|b bs IH]; intros st acc Hready; cbn [foldM].
  - split; [exact Hready | cbn; lia].
  - pose proof (train_step_outcome cfg epoch W st acc b Hready) as Hstep.
    destruct (train_step cfg epoch W (st, acc) b) as [[st1 acc1]|e]; cbn [Py.bind];
      [|exact Hstep].
    destruct Hstep as [Hready1 Hn]. specialize (IH st1 acc1 Hready1).
    destruct (foldM (train_step cfg epoch W) bs (st1, acc1)) as [[st2 acc2]|e];
      [|exact IH].
    destruct IH as [Hready2 Hn2]. split; [exact Hready2|].
    unfold samples_in in *. cbn [map]. change (list_sum (?a :: ?l)) with (a + list_sum l).
    lia.
Qed.

Lemma train_epoch_outcome (cfg : Scheduler.config) (epoch W : nat)
      (train_loader : DataLoader Images) (st : state) :
  at_rest st ->
  match train_epoch cfg epoch W train_loader st with
  | Ok (st', _) => at_rest st' /\ 0 < samples_in (batches train_loader epoch)
  | Raise e =>
      (e = ZeroDivisionError /\ samples_in (batches train_loader epoch) = 0)
      \/ e = RuntimeError
  end.
Proof.
  intros Hready. unfold train_epoch.
  pose proof (train_fold_outcome cfg epoch W (batches train_loader epoch) st zero Hready)
    as Hfold.
  destruct (foldM (train_step cfg epoch W) (batches train_loader epoch) (st, zero))
    as [[st1 acc]|e]; cbn [Py.bind]; [|now right].
  destruct Hfold as [Hready1 Hn]. cbn [zero total_samples] in Hn.
  destruct (total_samples acc) as [|k] eqn:Ek.
  - rewrite PassFacts.finalize_empty by exact Ek. cbn [Py.bind]. left. split; [reflexivity|lia].
  - rewrite PassFacts.finalize_nonempty by lia. cbn [Py.bind]. split; [exact Hready1|lia].
Qed.

Lemma sample_count_observe (training : bool) (p : Params)
      (bs : list (Images * list nat)) :
  Reference.sample_count (map (observe training p) bs) = samples_in bs.
Proof.
  unfold Reference.sample_count, samples_in. rewrite map_map. f_equal.
  apply map_ext. now intros [images labels].
Qed.

Lemma validate_Raise (p : Params) (dl : list (Images * list nat)) (e : exn) :
  validate p dl = Raise e -> e = ZeroDivisionError \/ e = RuntimeError.
Proof.
  rewrite PipelineFacts.validate_is_pass. apply pass_Raise.
Qed.

Lemma record_epoch_outcome (num_epochs : nat) (u : Z) (test_loader : DataLoader Images)
      (epoch : nat) (current_lr : R) (st : state) (train_rec : EpochRecord) :
  at_rest st ->
  match record_epoch num_epochs u test_loader epoch current_lr st train_rec with
  | Ok st' => at_rest st'
  | Raise e => e = ZeroDivisionError \/ e = RuntimeError
  end.
Proof.
  intros Hready.
  destruct (record_epoch num_epochs u test_loader epoch current_lr st train_rec)
    as [st'|e] eqn:E.
  - apply RunFacts.record_epoch_frame in E as (_ & _ & Es & _).
    unfold at_rest. now rewrite Es.
  - unfold record_epoch, Py.mod_ in E.
    destruct (u =? 0)%Z; cbn [Py.bind] in E; [left; now inversion E|].
    destruct (Z.of_nat epoch mod u =? 0)%Z.
    + destruct (validate (params st) (batches test_loader epoch)) as [r|e'] eqn:Ev;
        cbn [Py.bind] in E; [discriminate|].
      inversion E; subst. now apply validate_Raise in Ev.
    + rewrite CadenceFacts.reused_Ok in E. discriminate.
Qed.

Lemma epoch_body_outcome (cfg : Scheduler.config) (num_epochs W : nat) (u : Z)
      (train_loader test_loader : DataLoader Images) (st : state) (epoch : nat) :
  at_rest st ->
  match epoch_body cfg num_epochs W u train_loader test_loader st epoch with
  | Ok st' => at_rest st'
  | Raise e => e = ZeroDivisionError \/ e = RuntimeError
  end.
Proof.
  intros Hready. unfold epoch_body.
  pose proof (train_epoch_outcome cfg epoch W train_loader (show_train_bar st) Hready)
    as Htrain.
  destruct (train_epoch cfg epoch W train_loader (show_train_bar st))
    as [[st1 train_rec]|e]; cbn [Py.bind].
  - destruct Htrain as [Hready1 _]. now apply record_epoch_outcome.
  - destruct Htrain as [[-> _]| ->]; auto.
Qed.

Lemma run_epochs_outcome (num_epochs : nat) (u : Z)
      (train_loader test_loader : DataLoader Images) (n : nat) (st : state) :
  at_rest st ->
  match run_epochs num_epochs u train_loader test_loader n st with
  | Ok st' => at_rest st'
  | Raise e => e = ZeroDivisionError \/ e = RuntimeError
  end.
Proof.
  intros Hready. induction n as [|n IH]; [exact Hready|].
  rewrite CadenceFacts.run_epochs_S.
  destruct (run_epochs num_epochs u train_loader test_loader n st) as [s|e];
    cbn [Py.bind]; [|exact IH].
  now apply epoch_body_outcome.
Qed.

Lemma best_total (l : list Q) : exists m, best l = Ok m.
Proof.
  destruct l as [|x xs]; cbn [best Py.max_]; eexists; reflexivity.
Qed.

(** With a network that always returns five classes or more, a step
    from a scaler at rest completes. *)
Lemma train_fold_succeeds (cfg : Scheduler.config) (epoch W : nat)
      (bs : list (Images * list nat)) (st : state) (acc : totals) :
  (forall (training : bool) (q : Params) (images : Images),
      Forall (fun row => 5 <= length row) (model training q images)) ->
  at_rest st ->
  exists sa', foldM (train_step cfg epoch W) bs (st, acc) = Ok sa'.
Proof.
  intros Hmodel. revert st acc; induction bs as [|[images labels] bs IH];
    intros st acc Hready; cbn [foldM]; [eexists; reflexivity|].
  pose proof (train_step_outcome cfg epoch W st acc (images, labels) Hready) as Hout.
  destruct (StepFacts.train_step_ready cfg epoch W st acc images labels Hready)
    as (g1 & E & _).
  rewrite E in *. cbn [observe consume] in *.
  rewrite (AccumulatorFacts.accumulate_Ok _ _ _ _ (Hmodel true (params st) images)) in *.
  cbn [Py.bind] in *. destruct Hout as [Hready1 _]. now apply IH.
Qed.

Lemma train_epoch_succeeds (cfg : Scheduler.config) (epoch W : nat)
      (train_loader : DataLoader Images) (st : state) :
  (forall (training : bool) (q : Params) (images : Images),
      Forall (fun row => 5 <= length row) (model training q images)) ->
  at_rest st ->
  0 < samples_in (batches train_loader epoch) ->
  exists st1 train_rec,
    train_epoch cfg epoch W train_loader st = Ok (st1, train_rec) /\ at_rest st1.
Proof.
  intros Hmodel Hready Hn.
  pose proof (train_epoch_outcome cfg epoch W train_loader st Hready) as Hout.
  destruct (train_fold_succeeds cfg epoch W (batches train_loader epoch) st zero
                                Hmodel Hready) as ([st1 acc] & Ef).
  unfold train_epoch in *. rewrite Ef in *. cbn [Py.bind] in *.
  destruct (finalize acc) as [rec|e] eqn:Efin; cbn [Py.bind] in *.
  - exists st1, rec. split; [reflexivity | apply Hout].
  - exfalso. apply finalize_Raise in Efin. subst e.
    destruct Hout as [[_ Hz]|He]; [lia | discriminate].
Qed.

Lemma validate_succeeds (p : Params) (dl : list (Images * list nat)) :
  (forall (training : bool) (q : Params) (images : Images),
      Forall (fun row => 5 <= length row) (model training q images)) ->
  0 < samples_in dl ->
  exists r, validate p dl = Ok r.
Proof.
  intros Hmodel Hn. rewrite PipelineFacts.validate_is_pass.
  apply PassFacts.pass_succeeds.
  - now rewrite sample_count_observe.
  - apply Forall_forall. intros o Ho.
    apply in_map_iff in Ho as ([images labels] & <- & _). apply Hmodel.
Qed.

Lemma epoch_body_succeeds (cfg : Scheduler.config) (num_epochs W : nat) (u : Z)
      (train_loader test_loader : DataLoader Images) (st : state) (epoch : nat) :
  u <> 0%Z ->
  (forall (training : bool) (q : Params) (images : Images),
      Forall (fun row => 5 <= length row) (model training q images)) ->
  at_rest st ->
  0 < samples_in (batches train_loader epoch) ->
  ((Z.of_nat epoch mod u = 0)%Z -> 0 < samples_in (batches test_loader epoch)) ->
  exists st',
    epoch_body cfg num_epochs W u train_loader test_loader st epoch = Ok st'
    /\ at_rest st'.
Proof.
  intros Hu Hmodel Hready Htrain Htest. unfold epoch_body.
  destruct (train_epoch_succeeds cfg epoch W train_loader (show_train_bar st)
                                 Hmodel Hready Htrain) as (st1 & train_rec & -> & Hready1).
  cbn [Py.bind].
  pose proof (record_epoch_outcome num_epochs u test_loader epoch (lr st) st1 train_rec
                                   Hready1) as Hout.
  unfold record_epoch, Py.mod_ in *. apply Z.eqb_neq in Hu. rewrite Hu in *.
  cbn [Py.bind] in *.
  destruct (Z.of_nat epoch mod u =? 0)%Z eqn:Em.
  - apply Z.eqb_eq in Em.
    destruct (validate_succeeds (params st1) (batches test_loader epoch) Hmodel
                                (Htest Em)) as (r & Hr).
    rewrite Hr in *. cbn [Py.bind] in *. eexists. split; [reflexivity | exact Hout].
  - rewrite CadenceFacts.reused_Ok in *. cbn [Py.bind] in *.
    eexists. split; [reflexivity | exact Hout].
Qed.

End WithCollaborators.

End FailureFacts.

(** X5.  A run that fails, fails with [ZeroDivisionError] (an epoch
    without samples, or [METRICS_UPDATE_STEP = 0]) or with
    [RuntimeError] (a score row with fewer than five classes): the
    guards of lines 216-218 and 235-236 rule out [IndexError] and
    [ValueError], and the scaler is always called in the order
    inspection, step, update. *)
Theorem run_fails_only_by_division_or_topk :
  forall (C : Collaborators) (num_epochs : nat) (u : Z)
         (train_loader test_loader : DataLoader Images) (p : Params) (e : exn),
    Pipeline.main_with num_epochs u train_loader test_loader p = Raise e ->
    e = ZeroDivisionError \/ e = RuntimeError.
Proof.
  intros C num_epochs u train_loader test_loader p e. unfold Pipeline.main_with.
  pose proof (FailureFacts.run_epochs_outcome num_epochs u train_loader test_loader
                num_epochs (Pipeline.initial p) eq_refl) as Hrun.
  destruct (Pipeline.run_epochs num_epochs u train_loader test_loader num_epochs
                                (Pipeline.initial p)) as [st|e']; cbn [Py.bind].
  - destruct (FailureFacts.best_total (Metrics.top1 (Pipeline.train_metrics st)))
      as (b1 & ->).
    destruct (FailureFacts.best_total (Metrics.top1 (Pipeline.test_metrics st)))
      as (b2 & ->).
    discriminate.
  - intros H; inversion H; subst. exact Hrun.
Qed.

Lemma run_fails_only_by_division_or_topk_witness :
  Pipeline.main_with (C := Scripted.collaborators) 2 1
    (Scripted.loader []) (Scripted.loader [Scripted.finite_batch]) 0
  = Raise ZeroDivisionError
  /\ (ZeroDivisionError = ZeroDivisionError \/ ZeroDivisionError = RuntimeError).
Proof.
  split; [vm_compute; reflexivity|].
  apply (run_fails_only_by_division_or_topk Scripted.collaborators 2 1%Z
           (Scripted.loader []) (Scripted.loader [Scripted.finite_batch]) 0).
  vm_compute. reflexivity.
Defined.

(** X6.  A run completes whenever the evaluation interval is not zero,
    the network returns at least five class scores per sample, every
    training traversal holds at least one sample and so does the test
    traversal of every epoch that evaluates. *)
Theorem run_completes :
  forall (C : Collaborators) (num_epochs : nat) (u : Z)
         (train_loader test_loader : DataLoader Images) (p : Params),
    u <> 0%Z ->
    (forall (training : bool) (q : Params) (images : Images),
        Forall (fun row => 5 <= length row) (model training q images)) ->
    (forall epoch, epoch < num_epochs ->
                   0 < Pipeline.samples_in (batches train_loader epoch)) ->
    (forall epoch, epoch < num_epochs -> (Z.of_nat epoch mod u = 0)%Z ->
                   0 < Pipeline.samples_in (batches test_loader epoch)) ->
    exists st, Pipeline.main_with num_epochs u train_loader test_loader p = Ok st.
Proof.
  intros C num_epochs u train_loader test_loader p Hu Hmodel Htrain Htest.
  assert (Hrun : forall n, n <= num_epochs ->
            exists st,
              Pipeline.run_epochs num_epochs u train_loader test_loader n
                                  (Pipeline.initial p) = Ok st
              /\ Pipeline.at_rest st).
  { induction n as [|n IH]; intros Hn.
    - eexists. split; reflexivity.
    - destruct IH as (s & Hs & Hready); [lia|].
      rewrite CadenceFacts.run_epochs_S, Hs. cbn [Py.bind].
      apply FailureFacts.epoch_body_succeeds; try assumption.
      + apply Htrain. lia.
      + intros Hm. apply Htest; [lia | exact Hm]. }
  destruct (Hrun num_epochs (le_n _)) as (st & Hst & _).
  unfold Pipeline.main_with. rewrite Hst. cbn [Py.bind].
  destruct (FailureFacts.best_total (Metrics.top1 (Pipeline.train_metrics st)))
    as (b1 & ->).
  destruct (FailureFacts.best_total (Metrics.top1 (Pipeline.test_metrics st)))
    as (b2 & ->).
  cbn [Py.bind]. eexists. reflexivity.
Qed.

Lemma run_completes_witness :
  exists st,
    Pipeline.main_with (C := Scripted.steady) 3 2
      Scripted.steady_loader Scripted.steady_loader 0 = Ok st.
Proof.
  apply (run_completes Scripted.steady 3 2%Z
           Scripted.steady_loader Scripted.steady_loader 0).
  - discriminate.
  - intros training q n. cbn [model Scripted.steady].
    apply Forall_forall. intros r Hr. apply repeat_spec in Hr. subst r.
    simpl. lia.
  - intros epoch _. vm_compute. lia.
  - intros epoch _ _. vm_compute. lia.
Defined.


(* ================================================================== *)
(** * What a pass depends on *)

Module StreamFacts.

Import Accumulator.

Lemma fold_consume_rows (stream : list observation) (acc acc' : totals) :
  foldM consume stream acc = Ok acc' -> Reference.rows_ok stream.
Proof.
  revert acc; induction stream as [|[[outputs labels] loss_item] rest IH];
    intros acc H; [constructor|].
  cbn [foldM consume] in H. bind_inv H.
  apply AccumulatorFacts.accumulate_Ok_inv in Hx as [Hrows _].
  constructor; [exact Hrows | exact (IH _ H)].
Qed.

Lemma pass_rows (stream : list observation) (r : EpochRecord) :
  pass stream = Ok r -> Reference.rows_ok stream.
Proof.
  unfold pass. intros H. bind_inv H. exact (fold_consume_rows _ _ _ Hx).
Qed.

(** Two passes whose streams agree on the three sums return the same
    record, up to equality of rationals. *)
Lemma records_agree (s1 s2 : list observation) (r1 r2 : EpochRecord) :
  Reference.is_record_of r1 s1 -> Reference.is_record_of r2 s2 ->
  Reference.sample_count s1 = Reference.sample_count s2 ->
  (Reference.loss_sum s1 == Reference.loss_sum s2)%Q ->
  Reference.hit_count Reference.top1_hit s1 = Reference.hit_count Reference.top1_hit s2 ->
  Reference.hit_count Reference.top5_hit s1 = Reference.hit_count Reference.top5_hit s2 ->
  (loss r1 == loss r2)%Q /\ (top1 r1 == top1 r2)%Q /\ (top5 r1 == top5 r2)%Q.
Proof.
  unfold Reference.is_record_of. intros (L1 & A1 & B1) (L2 & A2 & B2) En El E1 E5.
  rewrite L1, L2, A1, A2, B1, B2, En, El, E1, E5. repeat split; reflexivity.
Qed.

Lemma sample_count_perm (s1 s2 : list observation) :
  Permutation s1 s2 -> Reference.sample_count s1 = Reference.sample_count s2.
Proof.
  unfold Reference.sample_count.
  induction 1 as [|o a b _ IH|o1 o2 a|a b c _ IH1 _ IH2]; cbn [map];
    repeat change (list_sum (?x :: ?l)) with (x + list_sum l); lia.
Qed.

Lemma hit_count_perm (hit : list Q -> nat -> bool) (s1 s2 : list observation) :
  Permutation s1 s2 -> Reference.hit_count hit s1 = Reference.hit_count hit s2.
Proof.
  unfold Reference.hit_count.
  induction 1 as [|o a b _ IH|o1 o2 a|a b c _ IH1 _ IH2]; cbn [map];
    repeat change (list_sum (?x :: ?l)) with (x + list_sum l); lia.
Qed.

Lemma loss_sum_perm (s1 s2 : list observation) :
  Permutation s1 s2 -> (Reference.loss_sum s1 == Reference.loss_sum s2)%Q.
Proof.
  induction 1 as [|o a b _ IH|o1 o2 a|a b c _ IH1 _ IH2]; cbn [Reference.loss_sum].
  - reflexivity.
  - now rewrite IH.
  - ring.
  - now rewrite IH1.
Qed.

Lemma rows_ok_perm (s1 s2 : list observation) :
  Permutation s1 s2 -> Reference.rows_ok s1 -> Reference.rows_ok s2.
Proof.
  unfold Reference.rows_ok. intros HP HF. rewrite Forall_forall in *.
  intros o Ho. apply HF. eapply Permutation_in; [apply Permutation_sym; exact HP | exact Ho].
Qed.

(** The order of the batches does not matter to a pass. *)
Lemma pass_perm (s1 s2 : list observation) (r1 : EpochRecord) :
  Permutation s1 s2 -> pass s1 = Ok r1 ->
  exists r2,
    pass s2 = Ok r2 /\
    (loss r1 == loss r2)%Q /\ (top1 r1 == top1 r2)%Q /\ (top5 r1 == top5 r2)%Q.
Proof.
  intros HP H1.
  destruct (PassFacts.pass_record _ _ H1) as (Hn & Hrec1).
  destruct (PassFacts.pass_succeeds s2) as (r2 & H2).
  - now rewrite <- (sample_count_perm _ _ HP).
  - apply (rows_ok_perm _ _ HP), (pass_rows _ _ H1).
  - exists r2. split; [exact H2|].
    destruct (PassFacts.pass_record _ _ H2) as (_ & Hrec2).
    apply (records_agree s1 s2); try assumption.
    + now apply sample_count_perm.
    + now apply loss_sum_perm.
    + now apply hit_count_perm.
    + now apply hit_count_perm.
Qed.

Lemma combine_app_aligned {A B : Type} (a1 a2 : list A) (b1 b2 : list B) :
  length a1 = length b1 ->
  combine (a1 ++ a2) (b1 ++ b2) = combine a1 b1 ++ combine a2 b2.
Proof.
  revert b1; induction a1 as [|x a1 IH]; intros [|y b1] H; cbn in *;
    try discriminate; [reflexivity|].
  f_equal. apply IH. lia.
Qed.

Lemma hits_app (hit : list Q -> nat -> bool)
      (o1 o2 : list (list Q)) (l1 l2 : list nat) :
  length o1 = length l1 ->
  Reference.hits hit (o1 ++ o2) (l1 ++ l2)
  = Reference.hits hit o1 l1 + Reference.hits hit o2 l2.
Proof.
  intros H. unfold Reference.hits.
  now rewrite combine_app_aligned, filter_app, length_app.
Qed.

Lemma all_outputs_length (stream : list observation) :
  Forall Reference.aligned stream ->
  length (Reference.all_outputs stream) = length (Reference.all_labels stream).
Proof.
  unfold Reference.all_outputs, Reference.all_labels, Reference.aligned.
  induction 1 as [|o rest Ho _ IH]; [reflexivity|].
  cbn [map concat]. rewrite !length_app. lia.
Qed.

Lemma hit_count_concat (hit : list Q -> nat -> bool) (stream : list observation) :
  Forall Reference.aligned stream ->
  Reference.hit_count hit stream
  = Reference.hits hit (Reference.all_outputs stream) (Reference.all_labels stream).
Proof.
  unfold Reference.hit_count, Reference.all_outputs, Reference.all_labels.
  induction 1 as [|o rest Ho _ IH]; [reflexivity|].
  cbn [map concat]. change (list_sum (?x :: ?l)) with (x + list_sum l).
  rewrite hits_app by exact Ho. lia.
Qed.

Lemma sample_count_concat (stream : list observation) :
  Reference.sample_count stream = length (Reference.all_labels stream).
Proof.
  unfold Reference.sample_count, Reference.all_labels.
  induction stream as [|o rest IH]; [reflexivity|].
  cbn [map concat]. change (list_sum (?x :: ?l)) with (x + list_sum l).
  rewrite length_app, IH. reflexivity.
Qed.


End StreamFacts.

(** X7.  [validate] does not depend on the order in which the loader
    yields its batches: on a permuted loader it returns a record with
    the same loss and the same percentages, up to equality of
    rationals. *)
Theorem validate_ignores_batch_order :
  forall (C : Collaborators) (p : Params) (dl1 dl2 : list (Images * list nat))
         (r1 : Accumulator.EpochRecord),
    Permutation dl1 dl2 ->
    Pipeline.validate p dl1 = Ok r1 ->
    exists r2,
      Pipeline.validate p dl2 = Ok r2 /\
      (Accumulator.loss r1 == Accumulator.loss r2)%Q /\
      (Accumulator.top1 r1 == Accumulator.top1 r2)%Q /\
      (Accumulator.top5 r1 == Accumulator.top5 r2)%Q.
Proof.
  intros C p dl1 dl2 r1 HP H. rewrite PipelineFacts.validate_is_pass in *.
  apply (StreamFacts.pass_perm (map (Pipeline.observe false p) dl1)); [|exact H].
  now apply Permutation_map.
Qed.

Lemma validate_ignores_batch_order_witness :
  exists r1 r2,
    Pipeline.validate (C := Scripted.collaborators) 0
      [Scripted.finite_batch; Scripted.overflow_batch] = Ok r1 /\
    Pipeline.validate (C := Scripted.collaborators) 0
      [Scripted.overflow_batch; Scripted.finite_batch] = Ok r2 /\
    (Accumulator.loss r1 == Accumulator.loss r2)%Q /\
    (Accumulator.top1 r1 == Accumulator.top1 r2)%Q /\
    (Accumulator.top5 r1 == Accumulator.top5 r2)%Q.
Proof.
  eexists.
  assert (E : Pipeline.validate (C := Scripted.collaborators) 0
                [Scripted.finite_batch; Scripted.overflow_batch] = Ok _)
    by (vm_compute; reflexivity).
  destruct (validate_ignores_batch_order Scripted.collaborators 0
              [Scripted.finite_batch; Scripted.overflow_batch]
              [Scripted.overflow_batch; Scripted.finite_batch] _
              (perm_swap _ _ _) E) as (r2 & E2 & Hq).
  exists r2. split; [exact E|]. split; [exact E2 | exact Hq].
Defined.

(** X8.  The top-1 and top-5 percentages of [validate] depend on the
    samples only, not on how the loader cuts them into batches: two
    loaders that show the same score rows and labels in the same order
    give the same percentages. *)
Theorem accuracy_ignores_batch_boundaries :
  forall (C : Collaborators) (p : Params) (dl1 dl2 : list (Images * list nat))
         (r1 r2 : Accumulator.EpochRecord),
    Pipeline.validate p dl1 = Ok r1 ->
    Pipeline.validate p dl2 = Ok r2 ->
    Forall Reference.aligned (map (Pipeline.observe false p) dl1) ->
    Forall Reference.aligned (map (Pipeline.observe false p) dl2) ->
    Reference.all_outputs (map (Pipeline.observe false p) dl1)
    = Reference.all_outputs (map (Pipeline.observe false p) dl2) ->
    Reference.all_labels (map (Pipeline.observe false p) dl1)
    = Reference.all_labels (map (Pipeline.observe false p) dl2) ->
    (Accumulator.top1 r1 == Accumulator.top1 r2)%Q /\
    (Accumulator.top5 r1 == Accumulator.top5 r2)%Q.
Proof.
  intros C p dl1 dl2 r1 r2 H1 H2 A1 A2 Eo El.
  rewrite PipelineFacts.validate_is_pass in *.
  destruct (PassFacts.pass_record _ _ H1) as (_ & _ & T1 & F1).
  destruct (PassFacts.pass_record _ _ H2) as (_ & _ & T2 & F2).
  rewrite T1, T2, F1, F2.
  rewrite !StreamFacts.sample_count_concat, !StreamFacts.hit_count_concat by assumption.
  rewrite Eo, El. split; reflexivity.
Qed.

Lemma accuracy_ignores_batch_boundaries_witness :
  exists r1 r2,
    Pipeline.validate (C := Scripted.collaborators) 0 [Scripted.finite_batch] = Ok r1 /\
    Pipeline.validate (C := Scripted.collaborators) 0
      [(([Scripted.row], [Finite 1%Q]), [3]); (([Scripted.row], [Finite 1%Q]), [1])]
    = Ok r2 /\
    (Accumulator.top1 r1 == Accumulator.top1 r2)%Q /\
    (Accumulator.top5 r1 == Accumulator.top5 r2)%Q.
Proof.
  eexists. eexists.
  split; [vm_compute; reflexivity|]. split; [vm_compute; reflexivity|].
  apply (accuracy_ignores_batch_boundaries Scripted.collaborators 0
           [Scripted.finite_batch]
           [(([Scripted.row], [Finite 1%Q]), [3]); (([Scripted.row], [Finite 1%Q]), [1])]).
  - vm_compute. reflexivity.
  - vm_compute. reflexivity.
  - repeat constructor.
  - repeat constructor.
  - reflexivity.
  - reflexivity.
Defined.



(** X10.  The best value is a running maximum: appending one more
    entry to a non-empty history gives the larger of the former best
    and the new entry, so the best never decreases from epoch to
    epoch. *)
Theorem best_is_running_maximum :
  forall (l : list Q) (x m : Q),
    l <> [] ->
    Pipeline.best l = Ok m ->
    Pipeline.best (l ++ [x]) = Ok (if Qle_bool x m then m else x)
    /\ (m <= (if Qle_bool x m then m else x))%Q
    /\ (x <= (if Qle_bool x m then m else x))%Q.
Proof.
  intros [|y ys] x m Hne H; [congruence|].
  cbn [Pipeline.best Py.max_ app] in *. inversion H; subst; clear H.
  split.
  - destruct (ys ++ [x]) eqn:E; [now destruct ys|]. rewrite <- E.
    rewrite fold_left_app. reflexivity.
  - destruct (Qle_bool x _) eqn:E.
    + split; [apply Qle_refl | now apply Qle_bool_iff].
    + split; [|apply Qle_refl].
      apply Qlt_le_weak, Qnot_le_lt. intros Hle.
      apply Qle_bool_iff in Hle. congruence.
Qed.

Lemma best_is_running_maximum_witness :
  Pipeline.best ([50; 75] ++ [60])%Q = Ok 75%Q /\
  Pipeline.best ([50; 75] ++ [80])%Q = Ok 80%Q.
Proof.
  split.
  - apply (best_is_running_maximum [50; 75]%Q 60%Q 75%Q); [discriminate | reflexivity].
  - apply (best_is_running_maximum [50; 75]%Q 80%Q 75%Q); [discriminate | reflexivity].
Defined.

(** X11.  The three outcomes of [validate]: it raises [RuntimeError]
    when some sample comes with fewer than five class scores, whatever
    else the loader holds; otherwise it raises [ZeroDivisionError] when
    the loader holds no sample; otherwise it returns a record. *)
Theorem validate_outcomes :
  forall (C : Collaborators) (p : Params) (dl : list (Images * list nat)),
    (~ Reference.rows_ok (map (Pipeline.observe false p) dl) ->
     Pipeline.validate p dl = Raise RuntimeError)
    /\
    (Reference.rows_ok (map (Pipeline.observe false p) dl) ->
     Pipeline.samples_in dl = 0 ->
     Pipeline.validate p dl = Raise ZeroDivisionError)
    /\
    (Reference.rows_ok (map (Pipeline.observe false p) dl) ->
     0 < Pipeline.samples_in dl ->
     exists r, Pipeline.validate p dl = Ok r).
Proof.
  intros C p dl. rewrite PipelineFacts.validate_is_pass.
  split; [|split].
  - intros Hbad. unfold Accumulator.pass.
    destruct (foldM Accumulator.consume (map (Pipeline.observe false p) dl)
                    Accumulator.zero) as [acc|e] eqn:E; cbn [Py.bind].
    + exfalso. apply Hbad. exact (StreamFacts.fold_consume_rows _ _ _ E).
    + now apply FailureFacts.fold_consume_Raise in E as ->.
  - intros Hrows Hn. unfold Accumulator.pass.
    destruct (PassFacts.fold_succeeds _ Accumulator.zero Hrows) as (acc & E).
    rewrite E. cbn [Py.bind]. apply PassFacts.finalize_empty.
    destruct (PassFacts.fold_totals _ _ _ E) as (Hs & _).
    rewrite Hs, FailureFacts.sample_count_observe, Hn. reflexivity.
  - intros Hrows Hn. apply PassFacts.pass_succeeds; [|exact Hrows].
    now rewrite FailureFacts.sample_count_observe.
Qed.

Lemma validate_outcomes_witness :
  Pipeline.validate (C := Scripted.collaborators) 0
    [Scripted.finite_batch; (([[0.1; 0.2]%Q], [Finite 1%Q]), [0])] = Raise RuntimeError
  /\ Pipeline.validate (C := Scripted.collaborators) 0 [] = Raise ZeroDivisionError
  /\ exists r, Pipeline.validate (C := Scripted.collaborators) 0
                 [Scripted.finite_batch] = Ok r.
Proof.
  split; [|split].
  - apply (proj1 (validate_outcomes Scripted.collaborators 0
                    [Scripted.finite_batch; (([[0.1; 0.2]%Q], [Finite 1%Q]), [0])])).
    intros H. inversion H as [|? ? _ H']; subst.
    inversion H' as [|? ? Hrow _]; subst. cbn in Hrow.
    inversion Hrow as [|? ? Hlen _]; subst. simpl in Hlen. lia.
  - apply (proj1 (proj2 (validate_outcomes Scripted.collaborators 0 []))).
    + constructor.
    + reflexivity.
  - apply (proj2 (proj2 (validate_outcomes Scripted.collaborators 0
                           [Scripted.finite_batch]))).
    + repeat constructor; simpl; lia.
    + vm_compute. lia.
Defined.


(* ================================================================== *)
(** * What the selected classes are *)

Module SelectionFacts.

Import Tensor.

Lemma greatest_max (x : nat * Q) (xs : list (nat * Q)) (y : nat * Q) :
  In y (x :: xs) -> (snd y <= snd (greatest x xs))%Q.
Proof.
  unfold greatest. revert x y; induction xs as [|a xs IH]; intros x y HIn;
    cbn [fold_left].
  - destruct HIn as [E|[]]. subst y. apply Qle_refl.
  - destruct (Qle_bool (snd a) (snd x)) eqn:E.
    + destruct HIn as [Ey|[Ey|HIn]].
      * subst y. apply IH. now left.
      * subst y. apply Qle_bool_iff in E. eapply Qle_trans; [exact E|].
        apply IH. now left.
      * apply IH. now right.
    + assert (Hlt : (snd x < snd a)%Q).
      { apply Qnot_le_lt. intros Hle. apply Qle_bool_iff in Hle. congruence. }
      destruct HIn as [Ey|[Ey|HIn]].
      * subst y. eapply Qle_trans; [apply Qlt_le_weak; exact Hlt|].
        apply IH. now left.
      * subst y. apply IH. now left.
      * apply IH. now right.
Qed.

Lemma NoDup_fst_inj (l : list (nat * Q)) (i : nat) (q q' : Q) :
  NoDup (map fst l) -> In (i, q) l -> In (i, q') l -> q = q'.
Proof.
  induction l as [|[j r] l IH]; cbn [map In fst]; intros Hnd H1 H2; [tauto|].
  inversion Hnd as [|? ? Hnin Hnd']; subst.
  destruct H1 as [E1|H1], H2 as [E2|H2].
  - congruence.
  - inversion E1; subst. exfalso. apply Hnin. now apply (in_map fst) in H2.
  - inversion E2; subst. exfalso. apply Hnin. now apply (in_map fst) in H1.
  - now apply IH.
Qed.

Lemma In_drop_index (i : nat) (l : list (nat * Q)) (y : nat * Q) :
  In y l -> fst y <> i -> In y (drop_index i l).
Proof.
  intros HIn Hne. unfold drop_index. apply filter_In. split; [exact HIn|].
  apply negb_true_iff, Nat.eqb_neq. exact Hne.
Qed.

(** A class that is left out never scores above a selected one. *)
Lemma select_dominates (k : nat) (l : list (nat * Q)) (i j : nat) (qi qj : Q) :
  NoDup (map fst l) ->
  In (i, qi) l -> In (j, qj) l ->
  In i (select k l) -> ~ In j (select k l) -> (qj <= qi)%Q.
Proof.
  revert l; induction k as [|k IH]; intros l Hnd Hi Hj Hsel Hout; [contradiction|].
  destruct l as [|x xs]; [contradiction|].
  cbn [select] in Hsel, Hout.
  set (m := greatest x xs) in *.
  assert (Hm : In m (x :: xs)) by apply TensorFacts.greatest_In.
  assert (Hjm : j <> fst m) by (intros E; apply Hout; now left).
  destruct Hsel as [E|Hsel].
  - assert (qi = snd m).
    { apply (NoDup_fst_inj (x :: xs) i); [exact Hnd | exact Hi|].
      rewrite <- E. now destruct m. }
    subst qi. apply (greatest_max x xs (j, qj)). exact Hj.
  - assert (Him : i <> fst m).
    { apply TensorFacts.select_incl, TensorFacts.drop_index_fst in Hsel. tauto. }
    apply (IH (drop_index (fst m) (x :: xs))).
    + unfold drop_index. now apply TensorFacts.NoDup_map_fst_filter.
    + now apply In_drop_index.
    + now apply In_drop_index.
    + exact Hsel.
    + intros H. apply Hout. now right.
Qed.

(** The first selected class scores highest. *)
Lemma select_head_max (k : nat) (l : list (nat * Q)) (i j : nat) (qi qj : Q) (rest : list nat) :
  NoDup (map fst l) ->
  select k l = i :: rest -> In (i, qi) l -> In (j, qj) l -> (qj <= qi)%Q.
Proof.
  intros Hnd Hsel Hi Hj. destruct k as [|k]; [discriminate|].
  destruct l as [|x xs]; [contradiction|].
  cbn [select] in Hsel. injection Hsel as E _.
  assert (qi = snd (greatest x xs)).
  { apply (NoDup_fst_inj (x :: xs) i); [exact Hnd | exact Hi|].
    rewrite <- E, <- surjective_pairing. apply TensorFacts.greatest_In. }
  subst qi. apply (greatest_max x xs (j, qj)). exact Hj.
Qed.

Lemma In_combine_seq (row : list Q) (s i : nat) (q : Q) :
  In (i, q) (combine (seq s (length row)) row) <->
  s <= i /\ nth_error row (i - s) = Some q.
Proof.
  revert s; induction row as [|a row IH]; intros s; cbn [length seq combine In].
  - split; [tauto|]. intros [_ H]. destruct (i - s); discriminate.
  - rewrite IH. split.
    + intros [E|[Hs Hn]].
      * inversion E; subst. rewrite Nat.sub_diag. auto.
      * split; [lia|]. replace (i - s) with (S (i - S s)) by lia. exact Hn.
    + intros [Hs Hn]. destruct (Nat.eq_dec i s) as [->|Hne].
      * left. rewrite Nat.sub_diag in Hn. cbn in Hn. congruence.
      * right. split; [lia|].
        replace (i - s) with (S (i - S s)) in Hn by lia. exact Hn.
Qed.

Lemma In_indexed (row : list Q) (i : nat) (q : Q) :
  In (i, q) (indexed row) <-> nth_error row i = Some q.
Proof.
  unfold indexed. rewrite In_combine_seq, Nat.sub_0_r. split; [tauto|].
  intros H; split; [lia | exact H].
Qed.

Lemma best5_in_range (row : list Q) (i : nat) :
  In i (Reference.best5 row) -> i < length row.
Proof.
  intros H. apply TensorFacts.select_incl in H.
  rewrite TensorFacts.indexed_fst in H. apply in_seq in H. lia.
Qed.

Lemma best5_dominates (row : list Q) (i j : nat) (qi qj : Q) :
  In i (Reference.best5 row) -> ~ In j (Reference.best5 row) ->
  nth_error row i = Some qi -> nth_error row j = Some qj -> (qj <= qi)%Q.
Proof.
  intros Hi Hj Hqi Hqj.
  apply (select_dominates 5 (indexed row) i j).
  - apply TensorFacts.indexed_NoDup.
  - now apply In_indexed.
  - now apply In_indexed.
  - exact Hi.
  - exact Hj.
Qed.

Lemma best5_head_max (row : list Q) (i : nat) (rest : list nat) (j : nat) (qi qj : Q) :
  Reference.best5 row = i :: rest ->
  nth_error row i = Some qi -> nth_error row j = Some qj -> (qj <= qi)%Q.
Proof.
  intros Hsel Hqi Hqj.
  apply (select_head_max 5 (indexed row) i j qi qj rest).
  - apply TensorFacts.indexed_NoDup.
  - exact Hsel.
  - now apply In_indexed.
  - now apply In_indexed.
Qed.

End SelectionFacts.

(** X12.  The prediction of a sample with five classes or more: five
    distinct class indices within range, the first of which scores
    highest of all classes, and no class left out scores above a
    class that was selected. *)
Theorem best5_selects_greatest_scores :
  forall row : list Q,
    5 <= length row ->
    length (Reference.best5 row) = 5 /\
    NoDup (Reference.best5 row) /\
    (forall i, In i (Reference.best5 row) -> i < length row) /\
    (forall i j qi qj,
        In i (Reference.best5 row) -> ~ In j (Reference.best5 row) ->
        nth_error row i = Some qi -> nth_error row j = Some qj ->
        (qj <= qi)%Q) /\
    (forall i rest j qi qj,
        Reference.best5 row = i :: rest ->
        nth_error row i = Some qi -> nth_error row j = Some qj ->
        (qj <= qi)%Q).
Proof.
  intros row Hlen.
  split; [now apply TensorFacts.best5_length|].
  split; [apply TensorFacts.best5_NoDup|].
  split; [apply SelectionFacts.best5_in_range|].
  split.
  - intros i j qi qj. apply SelectionFacts.best5_dominates.
  - intros i rest j qi qj. apply SelectionFacts.best5_head_max.
Qed.

Lemma best5_selects_greatest_scores_witness :
  length (Reference.best5 Scripted.row) = 5 /\
  NoDup (Reference.best5 Scripted.row) /\
  (forall i, In i (Reference.best5 Scripted.row) -> i < length Scripted.row).
Proof.
  destruct (best5_selects_greatest_scores Scripted.row ltac:(simpl; lia))
    as (H1 & H2 & H3 & _).
  split; [exact H1|]. split; [exact H2 | exact H3].
Defined.

(** X13.  When a sample counts as a hit.  A top-1 hit means that no
    class scores above the label.  A label that scores strictly above
    every other class is a top-1 hit.  A label with five classes
    scoring strictly above it is no top-5 hit. *)
Theorem hits_follow_the_scores :
  forall (row : list Q) (label : nat) (ql : Q),
    5 <= length row ->
    nth_error row label = Some ql ->
    (Reference.top1_hit row label = true ->
     forall j qj, nth_error row j = Some qj -> (qj <= ql)%Q)
    /\
    ((forall j qj, j <> label -> nth_error row j = Some qj -> (qj < ql)%Q) ->
     Reference.top1_hit row label = true)
    /\
    (forall higher : list nat,
        NoDup higher -> length higher = 5 ->
        (forall j, In j higher -> exists qj, nth_error row j = Some qj /\ (ql < qj)%Q) ->
        Reference.top5_hit row label = false).
Proof.
  intros row label ql Hlen Hl.
  pose proof (TensorFacts.best5_length row Hlen) as H5.
  pose proof (SelectionFacts.best5_in_range row) as Hrange.
  pose proof (SelectionFacts.best5_dominates row) as Hdom.
  pose proof (SelectionFacts.best5_head_max row) as Hhead.
  split; [|split].
  - unfold Reference.top1_hit.
    destruct (Reference.best5 row) as [|i rest] eqn:E; [discriminate|].
    intros Hi j qj Hj. apply Nat.eqb_eq in Hi. subst i.
    exact (Hhead label rest j ql qj eq_refl Hl Hj).
  - intros Hstrict. unfold Reference.top1_hit.
    destruct (Reference.best5 row) as [|i rest] eqn:E; [discriminate|].
    apply Nat.eqb_eq. destruct (Nat.eq_dec i label) as [|Hne]; [assumption|].
    exfalso.
    assert (Hi : i < length row) by (apply Hrange; now left).
    destruct (nth_error row i) as [qi|] eqn:Ei;
      [|apply nth_error_None in Ei; lia].
    pose proof (Hhead i rest label qi ql eq_refl Ei Hl) as Hle.
    pose proof (Hstrict i qi Hne Ei) as Hlt.
    apply (Qlt_irrefl ql). eapply Qle_lt_trans; eassumption.
  - intros higher Hndh Hlenh Hhigher.
    destruct (Reference.top5_hit row label) eqn:Ehit; [|reflexivity]. exfalso.
    unfold Reference.top5_hit in Ehit. apply existsb_exists in Ehit as (i & Hi & Ei).
    apply Nat.eqb_eq in Ei. subst i.
    assert (Hincl : incl (label :: higher) (Reference.best5 row)).
    { intros j [<-|Hj]; [exact Hi|].
      destruct (Hhigher j Hj) as (qj & Hqj & Hlt).
      destruct (in_dec Nat.eq_dec j (Reference.best5 row)) as [|Hout]; [assumption|].
      exfalso. pose proof (Hdom label j ql qj Hi Hout Hl Hqj) as Hle.
      apply (Qlt_irrefl ql). eapply Qlt_le_trans; eassumption. }
    assert (Hnd6 : NoDup (label :: higher)).
    { constructor; [|exact Hndh]. intros Hin.
      destruct (Hhigher label Hin) as (q & Hq & Hlt).
      rewrite Hl in Hq. inversion Hq; subst. now apply Qlt_irrefl in Hlt. }
    pose proof (NoDup_incl_length Hnd6 Hincl) as Hcount.
    cbn [length] in Hcount. lia.
Qed.

Lemma hits_follow_the_scores_witness :
  (forall j qj, nth_error Scripted.row j = Some qj -> (qj <= 0.9)%Q)
  /\ Reference.top5_hit Scripted.row 5 = false.
Proof.
  split.
  - apply (proj1 (hits_follow_the_scores Scripted.row 3 0.9%Q
                    ltac:(simpl; lia) eq_refl)).
    reflexivity.
  - apply (proj2 (proj2 (hits_follow_the_scores Scripted.row 5 0.0%Q
                           ltac:(simpl; lia) eq_refl)) [0; 1; 2; 3; 4]).
    + repeat constructor; simpl; intuition discriminate.
    + reflexivity.
    + intros j Hj. simpl in Hj.
      destruct Hj as [<-|[<-|[<-|[<-|[<-|[]]]]]];
        eexists; (split; [reflexivity | reflexivity]).
Defined.

(* ================================================================== *)
(** * The schedule and the gate of a run *)

Lemma warmup_steps_spec (num_epochs n_batches : nat) :
  let W := Scheduler.warmup_steps (Pipeline.schedule num_epochs n_batches) in
  100 * W <= n_batches * num_epochs < 100 * W + 100.
Proof.
  cbn [Pipeline.schedule Scheduler.warmup_steps].
  pose proof (Nat.div_mod_eq (n_batches * num_epochs) 100) as E.
  pose proof (Nat.mod_upper_bound (n_batches * num_epochs) 100 ltac:(lia)) as Hm.
  lia.
Qed.

(** X14.  The schedule [main] builds is never degenerate: the warmup is
    a hundredth of the steps, rounded down, so it never exceeds the
    number of steps, is shorter as soon as there is a step at all, and
    is empty exactly when the run has fewer than a hundred steps. *)
Theorem schedule_is_well_formed :
  forall (num_epochs n_batches : nat),
    let c := Pipeline.schedule num_epochs n_batches in
    Scheduler.total_steps c = n_batches * num_epochs /\
    Scheduler.warmup_steps c <= Scheduler.total_steps c /\
    (0 < Scheduler.total_steps c ->
     Scheduler.warmup_steps c < Scheduler.total_steps c) /\
    (Scheduler.warmup_steps c = 0 <-> Scheduler.total_steps c < 100).
Proof.
  intros num_epochs n_batches c.
  pose proof (warmup_steps_spec num_epochs n_batches) as Hw. cbn zeta in Hw.
  fold c in Hw.
  assert (Ht : Scheduler.total_steps c = n_batches * num_epochs) by reflexivity.
  rewrite <- Ht in Hw.
  split; [exact Ht|]. split; [lia|]. split; [lia|]. split; lia.
Qed.

(** X15.  Which runs clip at all.  During the 36 epochs of the shipped
    configuration the gate of line 180 opens at some epoch exactly when
    the loader has 97 batches or fewer; it then opens from epoch
    [WARMUP_STEPS + 1] on. *)
Theorem clipping_needs_a_short_loader :
  forall n_batches : nat,
    let W := Scheduler.warmup_steps (Pipeline.schedule NUM_EPOCHS n_batches) in
    ((exists epoch, epoch < NUM_EPOCHS /\ Pipeline.clip_gate epoch W = true)
     <-> n_batches <= 97)
    /\
    (forall epoch, Pipeline.clip_gate epoch W = true <-> W < epoch).
Proof.
  intros n_batches W.
  pose proof (warmup_steps_spec NUM_EPOCHS n_batches) as Hw. cbn zeta in Hw.
  fold W in Hw. unfold NUM_EPOCHS in *.
  assert (Hgate : forall epoch, Pipeline.clip_gate epoch W = true <-> W < epoch).
  { intros epoch. unfold Pipeline.clip_gate. apply Nat.ltb_lt. }
  split; [|exact Hgate]. split.
  - intros (epoch & He & Hopen). apply Hgate in Hopen. lia.
  - intros Hn. exists 35. split; [lia|]. apply Hgate. lia.
Qed.

(** X16.  Clipping never touches a warmup step.  In a run whose loader
    yields [len(train_loader)] batches, at least one, at every
    traversal, an epoch whose gate is open starts with the scheduler
    counter already beyond [WARMUP_STEPS]. *)
Theorem clipped_epochs_are_past_warmup :
  forall (C : Collaborators) (num_epochs : nat) (u : Z)
         (train_loader test_loader : DataLoader Images) (p : Params)
         (epoch : nat) (st : Pipeline.state),
    Pipeline.run_epochs num_epochs u train_loader test_loader epoch (Pipeline.initial p)
    = Ok st ->
    (forall e, e < epoch -> length (batches train_loader e) = len train_loader) ->
    0 < len train_loader ->
    Pipeline.clip_gate epoch
      (Scheduler.warmup_steps (Pipeline.schedule num_epochs (len train_loader))) = true ->
    Scheduler.warmup_steps (Pipeline.schedule num_epochs (len train_loader))
    < Pipeline.step_count st
    /\ Pipeline.step_count st = epoch * len train_loader.
Proof.
  intros C num_epochs u train_loader test_loader p epoch st H Hlen Hpos Hgate.
  apply RunFacts.run_step_count in H.
  rewrite (RunFacts.batches_before_constant _ _ Hlen) in H.
  cbn [Pipeline.initial Pipeline.step_count] in H. rewrite Nat.add_0_l in H.
  split; [|exact H]. rewrite H.
  pose proof (clip_gate_past_warmup _ _ _ 0 Hgate Hpos). lia.
Qed.

Lemma clipped_epochs_are_past_warmup_witness :
  exists st,
    Pipeline.run_epochs (C := Scripted.collaborators) 3 1
      (Scripted.loader [Scripted.finite_batch])
      (Scripted.loader [Scripted.finite_batch]) 1 Scripted.start = Ok st /\
    Scheduler.warmup_steps (Pipeline.schedule 3 1) < Pipeline.step_count st /\
    Pipeline.step_count st = 1 * 1.
Proof.
  eexists. split; [vm_compute; reflexivity|].
  apply (clipped_epochs_are_past_warmup Scripted.collaborators 3 1%Z
           (Scripted.loader [Scripted.finite_batch])
           (Scripted.loader [Scripted.finite_batch]) 0 1).
  - vm_compute. reflexivity.
  - intros; reflexivity.
  - simpl; lia.
  - reflexivity.
Defined.


(* ================================================================== *)
(** * Extreme accuracies *)

Lemma hits_all (hit : list Q -> nat -> bool) (outputs : list (list Q)) (labels : list nat) :
  length outputs = length labels ->
  Forall (fun ol => hit (fst ol) (snd ol) = true) (combine outputs labels) ->
  Reference.hits hit outputs labels = length labels.
Proof.
  unfold Reference.hits.
  revert labels; induction outputs as [|row outputs IH]; intros [|l labels] Hlen HF;
    cbn [length] in Hlen; try discriminate; [reflexivity|].
  cbn [combine] in *. inversion HF as [|? ? Hhit HF']; subst.
  cbn [filter fst snd] in *. rewrite Hhit. cbn [length]. f_equal.
  apply IH; [lia | exact HF'].
Qed.

Lemma hits_none (hit : list Q -> nat -> bool) (outputs : list (list Q)) (labels : list nat) :
  Forall (fun ol => hit (fst ol) (snd ol) = false) (combine outputs labels) ->
  Reference.hits hit outputs labels = 0.
Proof.
  unfold Reference.hits. induction 1 as [|ol c Hol _ IH]; [reflexivity|].
  cbn [filter]. now rewrite Hol.
Qed.

(** X17.  The two extremes of [validate].  When every sample is a
    top-1 hit, top-1 and top-5 both read 100; when no sample is a top-5
    hit, both read 0. *)
Theorem all_or_nothing_accuracy :
  forall (C : Collaborators) (p : Params) (dl : list (Images * list nat))
         (r : Accumulator.EpochRecord),
    Pipeline.validate p dl = Ok r ->
    Forall Reference.aligned (map (Pipeline.observe false p) dl) ->
    let samples :=
      combine (Reference.all_outputs (map (Pipeline.observe false p) dl))
              (Reference.all_labels (map (Pipeline.observe false p) dl)) in
    (Forall (fun ol => Reference.top1_hit (fst ol) (snd ol) = true) samples ->
     (Accumulator.top1 r == 100)%Q /\ (Accumulator.top5 r == 100)%Q)
    /\
    (Forall (fun ol => Reference.top5_hit (fst ol) (snd ol) = false) samples ->
     (Accumulator.top1 r == 0)%Q /\ (Accumulator.top5 r == 0)%Q).
Proof.
  intros C p dl r H Hal samples. rewrite PipelineFacts.validate_is_pass in H.
  set (stream := map (Pipeline.observe false p) dl) in *.
  destruct (PassFacts.pass_record _ _ H) as (Hn & _ & T1 & T5).
  pose proof (PassFacts.pass_bounds _ _ H) as (B0 & B15 & B100).
  assert (Hnz : ~ (float_of_nat (Reference.sample_count stream) == 0)%Q)
    by (apply PassFacts.float_of_nat_nonzero; lia).
  split.
  - intros Hall.
    assert (E1 : Reference.hit_count Reference.top1_hit stream
                 = Reference.sample_count stream).
    { rewrite StreamFacts.hit_count_concat, StreamFacts.sample_count_concat by exact Hal.
      apply hits_all; [now apply StreamFacts.all_outputs_length | exact Hall]. }
    assert (R1 : (Accumulator.top1 r == 100)%Q).
    { rewrite T1, E1. field. exact Hnz. }
    split; [exact R1|]. apply Qle_antisym; [exact B100|]. now rewrite <- R1.
  - intros Hnone.
    assert (E5 : Reference.hit_count Reference.top5_hit stream = 0).
    { rewrite StreamFacts.hit_count_concat by exact Hal. now apply hits_none. }
    assert (R5 : (Accumulator.top5 r == 0)%Q).
    { rewrite T5, E5. change (float_of_nat 0) with 0%Q. field. exact Hnz. }
    split; [|exact R5]. apply Qle_antisym; [|exact B0]. now rewrite <- R5.
Qed.

Lemma all_or_nothing_accuracy_witness :
  (exists r,
      Pipeline.validate (C := Scripted.collaborators) 0
        [(([Scripted.row; Scripted.row], [Finite 1%Q]), [3; 3])] = Ok r /\
      (Accumulator.top1 r == 100)%Q /\ (Accumulator.top5 r == 100)%Q)
  /\
  (exists r,
      Pipeline.validate (C := Scripted.collaborators) 0
        [(([Scripted.row; Scripted.row], [Finite 1%Q]), [5; 5])] = Ok r /\
      (Accumulator.top1 r == 0)%Q /\ (Accumulator.top5 r == 0)%Q).
Proof.
  split.
  - eexists. split; [vm_compute; reflexivity|].
    apply (proj1 (all_or_nothing_accuracy Scripted.collaborators 0
                    [(([Scripted.row; Scripted.row], [Finite 1%Q]), [3; 3])] _
                    ltac:(vm_compute; reflexivity)
                    ltac:(repeat constructor))).
    repeat constructor.
  - eexists. split; [vm_compute; reflexivity|].
    apply (proj2 (all_or_nothing_accuracy Scripted.collaborators 0
                    [(([Scripted.row; Scripted.row], [Finite 1%Q]), [5; 5])] _
                    ltac:(vm_compute; reflexivity)
                    ltac:(repeat constructor))).
    repeat constructor.
Defined.

(* ================================================================== *)
(** * The scaler and the rate along a run *)

Module InvariantFacts.

Import Accumulator Pipeline.

Lemma get_lr_range (c : Scheduler.config) (s : nat) :
  (0 <= Scheduler.base_lr c)%R ->
  (0 <= Scheduler.get_lr c s <= Scheduler.base_lr c)%R.
Proof.
  intros Hb. unfold Scheduler.get_lr.
  destruct (s <? Scheduler.warmup_steps c) eqn:E.
  - apply Nat.ltb_lt in E.
    assert (Hw : (0 < INR (Scheduler.warmup_steps c))%R) by (apply lt_0_INR; lia).
    assert (Hs : (INR s + 1 <= INR (Scheduler.warmup_steps c))%R).
    { rewrite <- S_INR. apply le_INR. lia. }
    assert (Hs0 : (0 <= INR s)%R) by apply pos_INR.
    assert (Hi : (0 < / INR (Scheduler.warmup_steps c))%R)
      by now apply Rinv_0_lt_compat.
    assert (E1 : (INR (Scheduler.warmup_steps c) * / INR (Scheduler.warmup_steps c) = 1)%R)
      by (field; lra).
    unfold Rdiv. rewrite Rmult_assoc.
    assert (Ht : (0 <= (INR s + 1) * / INR (Scheduler.warmup_steps c) <= 1)%R).
    { split.
      - apply Rmult_le_pos; lra.
      - rewrite <- E1. apply Rmult_le_compat_r; lra. }
    split; nra.
  - pose proof (COS_bound (PI * Scheduler.clamp01 (Scheduler.progress c s))) as Hc.
    split; nra.
Qed.

Section WithCollaborators.

Context {C : Collaborators}.

Lemma settled_keeps (s : GradScaler.t) (found : bool) :
  (0 < GradScaler.scale_factor s)%Q ->
  GradScaler.growth_interval s = 2000 ->
  GradScaler.growth_tracker s < 2000 ->
  (0 < GradScaler.scale_factor (GradScaler.settled s found))%Q /\
  GradScaler.growth_interval (GradScaler.settled s found) = 2000 /\
  GradScaler.growth_tracker (GradScaler.settled s found) < 2000.
Proof.
  intros Hs Hi Ht. unfold GradScaler.settled. destruct found.
  - cbn [GradScaler.scale_factor GradScaler.growth_interval GradScaler.growth_tracker].
    split; [|split; [exact Hi | lia]].
    apply Qmult_lt_0_compat; [exact Hs | reflexivity].
  - destruct (GradScaler.growth_tracker s + 1 =? GradScaler.growth_interval s) eqn:E;
      cbn [GradScaler.scale_factor GradScaler.growth_interval GradScaler.growth_tracker].
    + split; [|split; [exact Hi | lia]].
      apply Qmult_lt_0_compat; [exact Hs | reflexivity].
    + apply Nat.eqb_neq in E. split; [exact Hs|]. split; [exact Hi | lia].
Qed.

Lemma train_step_healthy (cfg : Scheduler.config) (epoch W : nat)
      (sa sa' : state * totals) (b : Images * list nat) :
  healthy cfg (fst sa) ->
  train_step cfg epoch W sa b = Ok sa' ->
  healthy cfg (fst sa').
Proof.
  destruct sa as [st acc], sa' as [st' acc'], b as [images labels]. cbn [fst].
  intros (Hready & Hs & Hi & Ht & _) H.
  destruct (StepFacts.train_step_ready cfg epoch W st acc images labels Hready)
    as (g1 & E & _).
  rewrite E in H. bind_inv H. inversion H; subst; clear H.
  unfold healthy, at_rest. cbn [scaler lr step_count].
  destruct (settled_keeps (scaler st)
              (negb (forallb isfinite (raw_grads st images labels))) Hs Hi Ht)
    as (Hs' & Hi' & Ht').
  split; [apply StepFacts.settled_ready|].
  split; [exact Hs'|]. split; [exact Hi'|]. split; [exact Ht'|].
  cbn [Nat.eqb]. f_equal. lia.
Qed.

Lemma train_fold_healthy (cfg : Scheduler.config) (epoch W : nat)
      (bs : list (Images * list nat)) (sa sa' : state * totals) :
  healthy cfg (fst sa) ->
  foldM (train_step cfg epoch W) bs sa = Ok sa' ->
  healthy cfg (fst sa').
Proof.
  revert sa; induction bs as [|b bs IH]; intros sa Hh H.
  - inversion H; subst. exact Hh.
  - cbn [foldM] in H. bind_inv H.
    apply (IH x); [|exact H]. exact (train_step_healthy _ _ _ _ _ _ Hh Hx).
Qed.

Lemma epoch_body_healthy (cfg : Scheduler.config) (num_epochs W : nat) (u : Z)
      (train_loader test_loader : DataLoader Images) (st st' : state) (epoch : nat) :
  healthy cfg st ->
  epoch_body cfg num_epochs W u train_loader test_loader st epoch = Ok st' ->
  healthy cfg st'.
Proof.
  intros Hh H. unfold epoch_body in H. bind_inv H. destruct x as [st1 train_rec].
  apply RunFacts.record_epoch_frame in H as (_ & El & Es & Ec).
  unfold train_epoch in Hx. bind_inv Hx. destruct x as [st2 acc].
  bind_inv Hx. inversion Hx; subst; clear Hx.
  apply (train_fold_healthy cfg) in Hx0; [|exact Hh].
  cbn [fst] in Hx0. unfold healthy, at_rest in *. rewrite El, Es, Ec. exact Hx0.
Qed.

Lemma run_healthy (num_epochs : nat) (u : Z)
      (train_loader test_loader : DataLoader Images) (p : Params)
      (n : nat) (st : state) :
  run_epochs num_epochs u train_loader test_loader n (initial p) = Ok st ->
  healthy (schedule num_epochs (len train_loader)) st.
Proof.
  revert st; induction n as [|n IH]; intros st H.
  - inversion H; subst. unfold healthy, at_rest. cbn.
    repeat split; try reflexivity; lia.
  - rewrite CadenceFacts.run_epochs_S in H. bind_inv H.
    exact (epoch_body_healthy _ _ _ _ _ _ _ _ _ (IH _ Hx) H).
Qed.

End WithCollaborators.

End InvariantFacts.



(** X19.  The learning rate in force along a run: the constructor's
    0.08 until the first step, afterwards the rate the schedule assigns
    to the previous counter value; it always lies between 0 and 0.08. *)
Theorem rate_in_force_follows_schedule :
  forall (C : Collaborators) (num_epochs : nat) (u : Z)
         (train_loader test_loader : DataLoader Images) (p : Params)
         (n : nat) (st : Pipeline.state),
    Pipeline.run_epochs num_epochs u train_loader test_loader n (Pipeline.initial p)
    = Ok st ->
    Pipeline.lr st =
    (if Pipeline.step_count st =? 0 then 0.08%R
     else Scheduler.get_lr (Pipeline.schedule num_epochs (len train_loader))
                           (Pipeline.step_count st - 1))
    /\ (0 <= Pipeline.lr st <= 0.08)%R.
Proof.
  intros C num_epochs u train_loader test_loader p n st H.
  destruct (InvariantFacts.run_healthy _ _ _ _ _ _ _ H) as (_ & _ & _ & _ & Hlr).
  split; [exact Hlr|]. rewrite Hlr.
  destruct (Pipeline.step_count st =? 0); [lra|].
  apply (InvariantFacts.get_lr_range (Pipeline.schedule num_epochs (len train_loader))).
  cbn. lra.
Qed.

Lemma rate_in_force_follows_schedule_witness :
  exists st,
    Pipeline.run_epochs (C := Scripted.collaborators) 2 1
      (Scripted.loader [Scripted.finite_batch; Scripted.overflow_batch])
      (Scripted.loader [Scripted.finite_batch]) 2 Scripted.start = Ok st /\
    (0 <= Pipeline.lr st <= 0.08)%R.
Proof.
  eexists. split; [vm_compute; reflexivity|].
  apply (rate_in_force_follows_schedule Scripted.collaborators 2 1%Z
           (Scripted.loader [Scripted.finite_batch; Scripted.overflow_batch])
           (Scripted.loader [Scripted.finite_batch]) 0 2).
  vm_compute. reflexivity.
Defined.

(* ================================================================== *)
(** * The closing lines *)

Lemma best_cases (l : list Q) (m : Q) :
  Pipeline.best l = Ok m ->
  (l = [] /\ m = 0.0%Q) \/ (In m l /\ forall x, In x l -> (x <= m)%Q).
Proof.
  destruct l as [|x xs]; cbn [Pipeline.best Py.max_]; intros H; inversion H; subst.
  - left. split; reflexivity.
  - right. apply (max_fold_spec xs x).
Qed.

Lemma top1_entry_in_range (m : Metrics.t) (a : Q) :
  Metrics.percentages_ok m -> In a (Metrics.top1 m) -> (0 <= a)%Q /\ (a <= 100)%Q.
Proof.
  unfold Metrics.percentages_ok. generalize (Metrics.top1 m), (Metrics.top5 m).
  induction 1 as [|x y l1 l2 (H0 & H15 & H100) _ IH]; intros HIn; [contradiction|].
  destruct HIn as [<-|HIn]; [|now apply IH].
  split; [exact H0 | eapply Qle_trans; eassumption].
Qed.

Lemma run_percentages {C : Collaborators} (num_epochs : nat) (u : Z)
      (train_loader test_loader : DataLoader Images) (p : Params)
      (n : nat) (st : Pipeline.state) :
  Pipeline.run_epochs num_epochs u train_loader test_loader n (Pipeline.initial p)
  = Ok st ->
  Metrics.percentages_ok (Pipeline.train_metrics st) /\
  Metrics.percentages_ok (Pipeline.test_metrics st).
Proof.
  revert st; induction n as [|n IH]; intros st H.
  - inversion H; subst. split; constructor.
  - rewrite CadenceFacts.run_epochs_S in H. bind_inv H.
    destruct (IH _ Hx) as (Htrain & Htest).
    apply CadenceFacts.epoch_body_inv in H
      as (st1 & train_rec & Hrun & _ & Happ & Hcase).
    apply PipelineFacts.train_epoch_is_pass, PassFacts.pass_bounds in Hrun.
    rewrite Happ. split; [now apply percentages_ok_append|].
    destruct Hcase as [(_ & test_rec & Hv & -> & _) | (_ & -> & _)]; [|exact Htest].
    rewrite PipelineFacts.validate_is_pass in Hv.
    apply PassFacts.pass_bounds in Hv. now apply percentages_ok_append.
Qed.

Lemma run_epoch_lines {C : Collaborators} (num_epochs : nat) (u : Z)
      (train_loader test_loader : DataLoader Images) (p : Params)
      (n : nat) (st : Pipeline.state) :
  Pipeline.run_epochs num_epochs u train_loader test_loader n (Pipeline.initial p)
  = Ok st ->
  length (filter Pipeline.is_epoch_line (Pipeline.console st)) = n.
Proof.
  revert st; induction n as [|n IH]; intros st H.
  - inversion H; subst. reflexivity.
  - rewrite CadenceFacts.run_epochs_S in H. bind_inv H.
    apply CadenceFacts.epoch_body_inv in H
      as (st2 & train_rec & _ & _ & _
          & [(_ & test_rec & _ & _ & ->) | (_ & _ & ->)]);
      rewrite epoch_lines_app, (IH _ Hx); cbn; lia.
Qed.

Lemma best_in_range (m : Metrics.t) (b : Q) :
  Metrics.percentages_ok m -> Pipeline.best (Metrics.top1 m) = Ok b ->
  (0 <= b)%Q /\ (b <= 100)%Q /\ forall x, In x (Metrics.top1 m) -> (x <= b)%Q.
Proof.
  intros Hok H. destruct (best_cases _ _ H) as [(E & ->)|(HIn & Hmax)].
  - rewrite E. repeat split; try discriminate. intros x [].
  - destruct (top1_entry_in_range m b Hok HIn) as (H0 & H100).
    repeat split; assumption.
Qed.

(** X20.  A run that completes ends with the two closing lines, and
    what they report are percentages that bound the histories: each
    value lies between 0 and 100 and no top-1 entry of its history
    exceeds it. *)
Theorem closing_lines_report_the_best :
  forall (C : Collaborators) (num_epochs : nat) (u : Z)
         (train_loader test_loader : DataLoader Images) (p : Params)
         (st : Pipeline.state),
    Pipeline.main_with num_epochs u train_loader test_loader p = Ok st ->
    exists shown best_train best_test,
      Pipeline.console st =
      shown ++ [BestLine "Best train top1 accuracy: " best_train;
                BestLine "Best test top1 accuracy: " best_test] /\
      length (filter Pipeline.is_epoch_line shown) = num_epochs /\
      ((0 <= best_train)%Q /\ (best_train <= 100)%Q /\
       forall x, In x (Metrics.top1 (Pipeline.train_metrics st)) -> (x <= best_train)%Q) /\
      ((0 <= best_test)%Q /\ (best_test <= 100)%Q /\
       forall x, In x (Metrics.top1 (Pipeline.test_metrics st)) -> (x <= best_test)%Q).
Proof.
  intros C num_epochs u train_loader test_loader p st H.
  unfold Pipeline.main_with in H. bind_inv H. rename x into st1.
  bind_inv H. rename x into b1. bind_inv H. rename x into b2.
  inversion H; subst; clear H. cbn [Pipeline.console Pipeline.train_metrics
                                   Pipeline.test_metrics].
  destruct (run_percentages _ _ _ _ _ _ _ Hx) as (Htrain & Htest).
  exists (Pipeline.console st1), b1, b2.
  split; [reflexivity|]. split.
  - exact (run_epoch_lines _ _ _ _ _ _ _ Hx).
  - split; [exact (best_in_range _ _ Htrain Hx0) | exact (best_in_range _ _ Htest Hx1)].
Qed.

Lemma closing_lines_report_the_best_witness :
  exists st shown best_train best_test,
    Pipeline.main_with (C := Scripted.collaborators) 2 1
      (Scripted.loader [Scripted.finite_batch])
      (Scripted.loader [Scripted.finite_batch]) 0 = Ok st /\
    Pipeline.console st =
    shown ++ [BestLine "Best train top1 accuracy: " best_train;
              BestLine "Best test top1 accuracy: " best_test] /\
    (0 <= best_train)%Q /\ (best_train <= 100)%Q.
Proof.
  eexists.
  assert (E : Pipeline.main_with (C := Scripted.collaborators) 2 1
                (Scripted.loader [Scripted.finite_batch])
                (Scripted.loader [Scripted.finite_batch]) 0 = Ok _)
    by (vm_compute; reflexivity).
  destruct (closing_lines_report_the_best Scripted.collaborators _ _ _ _ _ _ E)
    as (shown & b1 & b2 & Hc & _ & (H0 & H100 & _) & _).
  exists shown, b1, b2.
  split; [exact E|]. split; [exact Hc|]. split; [exact H0 | exact H100].
Defined.
